(** * Provider discovery and capability registry

    A shallow embedding of [airflow/providers_manager.py]: the provider
    table built by the in-source scan and the installed-package scan, the
    hook / widget / field-behaviour extraction, the per-category
    initialization cache and the sorted read surface.

    Conventions of the embedding:
    - a Python [str] is a [string]; comparison is [String.leb]
      (lexicographic on code units, as Python compares [str]);
    - a Python [dict] is an association list in insertion order with
      unique keys ([Dict.setitem] replaces in place, appends otherwise);
    - a Python [set] of strings is a duplicate-free list; only
      [sorted(set)] is ever observed;
    - the registry object is a record [State]; methods pass it explicitly;
    - a raised exception is a value [Raise e] next to the state reached
      when it was raised (mutations made before the raise persist);
    - the logger is the list of records emitted so far, newest first. *)

From Stdlib Require Import String Ascii List Bool Arith Lia Sorted Permutation.
Import ListNotations.
Open Scope string_scope.
Open Scope list_scope.

(** ** Python string operations used by the module *)

Module PyStr.

  (** [s.startswith(p)] *)
Definition startswith (s p : string) : bool := String.prefix p s.

  (** [s[n:]] *)
Fixpoint slice_from (n : nat) (s : string) : string :=
    match n, s with
    | O, _ => s
    | S _, EmptyString => EmptyString
    | S n', String _ s' => slice_from n' s'
    end.

  (** [s.replace(old, new)] for one-character [old] and [new]. *)
Fixpoint replace (old new : ascii) (s : string) : string :=
    match s with
    | EmptyString => EmptyString
    | String c s' =>
        String (if Ascii.eqb c old then new else c) (replace old new s')
    end.

  (** [s.endswith(c)] for a one-character [c]. *)
Fixpoint endswith_char (c : ascii) (s : string) : bool :=
    match s with
    | EmptyString => false
    | String a EmptyString => Ascii.eqb a c
    | String _ s' => endswith_char c s'
    end.

  (** [c in s] for a one-character [c]. *)
Fixpoint contains_char (c : ascii) (s : string) : bool :=
    match s with
    | EmptyString => false
    | String a s' => Ascii.eqb a c || contains_char c s'
    end.

  (** Python truthiness of a [str]. *)
Definition truthy (s : string) : bool :=
    match s with EmptyString => false | _ => true end.

End PyStr.

(** ** POSIX [os.path] *)

Module OsPath.

  (** [os.sep] *)
Definition sep : ascii := "/"%char.

  (** [os.path.join(a, b)] (posixpath): an absolute [b] discards [a];
      a separator is added unless [a] is empty or already ends with one. *)
Definition join (a b : string) : string :=
    if PyStr.startswith b (String sep EmptyString) then b
    else if (a =? "") || PyStr.endswith_char sep a then a ++ b
    else a ++ String sep b.

End OsPath.

(** ** Insertion-ordered dictionaries *)

Module Dict.

Section WithValue.
Context {V : Type}.

Definition t := list (string * V).

    (** [d.get(k)] *)
Fixpoint get (k : string) (d : t) : option V :=
      match d with
      | [] => None
      | (k', v) :: d' => if k' =? k then Some v else get k d'
      end.

    (** [k in d] *)
Definition mem (k : string) (d : t) : bool :=
      match get k d with Some _ => true | None => false end.

    (** [d[k] = v]: an existing key keeps its position. *)
Fixpoint setitem (k : string) (v : V) (d : t) : t :=
      match d with
      | [] => [(k, v)]
      | (k', v') :: d' =>
          if k' =? k then (k, v) :: d' else (k', v') :: setitem k v d'
      end.

    (** [list(d.keys())] *)
Definition keys (d : t) : list string := map fst d.

    (** One step of a stable insertion sort on the key. *)
Fixpoint insert_item (x : string * V) (d : t) : t :=
      match d with
      | [] => [x]
      | y :: d' =>
          if (fst x <=? fst y) then x :: y :: d' else y :: insert_item x d'
      end.

    (** [OrderedDict(sorted(d.items()))].  The items are (key, value)
        tuples; the keys of a dictionary are pairwise different, so the
        tuple order is decided by the key alone. *)
Definition sorted_items (d : t) : t := fold_right insert_item [] d.

End WithValue.

Arguments t V : clear implicits.

End Dict.

(** ** Sets of strings *)

Module StrSet.

Definition t := list string.

  (** [s.add(x)] *)
Fixpoint add (x : string) (s : t) : t :=
    match s with
    | [] => [x]
    | y :: s' => if y =? x then s else y :: add x s'
    end.

Fixpoint insert_sorted (x : string) (l : list string) : list string :=
    match l with
    | [] => [x]
    | y :: l' => if (x <=? y) then x :: y :: l' else y :: insert_sorted x l'
    end.

  (** [sorted(s)] *)
Definition sorted (s : t) : list string := fold_right insert_sorted [] s.

End StrSet.

(** ** Exceptions and results *)

Inductive exn : Type :=
| ImportError
| OSError
| YAMLError
| ValidationError
| KeyError (key : string)
| IndexError
| AttributeError (attr : string)
| PackageNameMismatch (package_name provider_info_package_name : string)
| OtherException (message : string).

Inductive result (A : Type) : Type :=
| Ok (a : A)
| Raise (e : exn).

Arguments Ok {A} a.
Arguments Raise {A} e.

Definition is_ok {A : Type} (r : result A) : bool :=
  match r with Ok _ => true | Raise _ => false end.

(** ** Data model *)

(** The provider manifest ([provider_info]), restricted to the keys the
    module reads.  A key that is absent from the document is [None]. *)
Record Manifest : Type := {
  mf_package_name : option string;            (* 'package-name' *)
  mf_versions : option (list string);         (* 'versions' *)
  mf_hook_class_names : option (list string); (* 'hook-class-names' *)
  mf_extra_links : option (list string);      (* 'extra-links' *)
  mf_logging : option (list string);          (* 'logging' *)
  mf_secrets_backends : option (list string); (* 'secrets-backends' *)
  mf_auth_backends : option (list string)     (* 'auth-backends' *)
}.

(** [class ProviderInfo(NamedTuple)] *)
Record ProviderInfo : Type := {
  version : string;
  provider_info : Manifest
}.

(** [class HookInfo(NamedTuple)] *)
Record HookInfo : Type := {
  hi_connection_class : string;
  hi_connection_id_attribute_name : string;
  hi_package_name : string;
  hi_hook_name : string
}.

(** The wtforms field classes the module distinguishes. *)
Inductive FieldClass : Type :=
| IntegerField
| PasswordField
| StringField
| BooleanField
| OtherFieldClass (name : string).

Definition ALLOWED_FIELD_CLASSES : list FieldClass :=
  [IntegerField; PasswordField; StringField; BooleanField].

Definition FieldClass_eqb (a b : FieldClass) : bool :=
  match a, b with
  | IntegerField, IntegerField => true
  | PasswordField, PasswordField => true
  | StringField, StringField => true
  | BooleanField, BooleanField => true
  | OtherFieldClass x, OtherFieldClass y => x =? y
  | _, _ => false
  end.

(** [c in ALLOWED_FIELD_CLASSES] *)
Definition allowed_field_class (c : FieldClass) : bool :=
  existsb (FieldClass_eqb c) ALLOWED_FIELD_CLASSES.

(** An unbound wtforms field: its class and its label. *)
Record Field : Type := {
  field_class : FieldClass;
  field_label : string
}.

(** [class ConnectionFormWidgetInfo(NamedTuple)] *)
Record ConnectionFormWidgetInfo : Type := {
  wi_connection_class : string;
  wi_package_name : string;
  wi_field : Field
}.

(** A JSON-like document, for the customized field behaviours. *)
#[warnings="-register-all"]
Inductive json : Type :=
| JNone
| JBool (b : bool)
| JNum (n : nat)
| JStr (s : string)
| JList (l : list json)
| JDict (l : list (string * json)).

(** Python truthiness of a document. *)
Definition json_truthy (j : json) : bool :=
  match j with
  | JNone => false
  | JBool b => b
  | JNum n => negb (Nat.eqb n 0)
  | JStr s => PyStr.truthy s
  | JList l => match l with [] => false | _ => true end
  | JDict l => match l with [] => false | _ => true end
  end.

(** What the module can observe of an imported hook class.  The two
    class methods are [Some] exactly when they are in the [__dict__] of
    the class itself; the value is what calling them gives.  The three
    attributes are [Some] when [hasattr] holds (inherited or not). *)
Record HookClass : Type := {
  hc_name : string;                                             (* __name__ *)
  get_connection_form_widgets : option (result (Dict.t Field));
  get_ui_field_behaviour : option (result json);
  conn_type : option string;
  conn_name_attr : option string;
  hook_name : option string
}.

(** A directory as [os.walk] lists it: file names and sub-directories. *)
#[warnings="-register-all"]
Inductive Dir : Type :=
| MkDir (files : list string) (subdirs : list (string * Dir)).

(** An installed distribution advertising the 'apache_airflow_provider'
    entry point: [dist.metadata['name']], [dist.version] and what
    [entry_point.load()()] gives. *)
Record Distribution : Type := {
  dist_name : string;
  dist_version : string;
  entry_point_load : result Manifest
}.

(** ** Log records *)

Inductive LogRecord : Type :=
| DebugInitializing (cache_name : string)
| DebugInitialized (cache_name : string)
| DebugLoadingFromPackage (package_name : string)
| DebugLoadingFromSource (package_name path : string)
| InfoNoProvidersInstalled
| WarnLocalSources (e : exn)
| WarnProviderAlreadyRegistered (package_name : string)
| WarnErrorWhenLoading (path : string) (e : exn)
| WarnSanityCheckPrefix (class_name provider_package provider_path : string)
| WarnSanityCheckImport (class_name provider_package : string)
| WarnHookClassAlreadyRegistered (hook_class_name : string)
| WarnUnsupportedFieldClass (hook_class_name : string) (c : FieldClass)
| DebugHookImportError (hook_class_name provider_package : string)
| WarnHookException (hook_class_name provider_package : string) (e : exn)
| WarnMissingAttribute (class_name attr_name : string)
| WarnFieldWithoutPrefix (field_name class_name : string)
| WarnFieldAlreadyAdded (field_name class_name : string)
| WarnConnectionTypeAlreadyAdded (connection_type package_name class_name : string)
| WarnCustomizedFields (package_name class_name : string) (e : exn).

(** ** The registry *)

Record State : Type := {
  _initialized_cache : Dict.t bool;
  _provider_dict : Dict.t ProviderInfo;
  _hooks_dict : Dict.t HookInfo;
  _connection_form_widgets : Dict.t ConnectionFormWidgetInfo;
  _field_behaviours : Dict.t json;
  _extra_link_class_name_set : StrSet.t;
  _logging_class_name_set : StrSet.t;
  _secrets_backend_class_name_set : StrSet.t;
  _api_auth_backend_module_names : StrSet.t;
  log_records : list LogRecord                (* newest first *)
}.

(** [ProvidersManager.__init__] *)
Definition __init__ : State := {|
  _initialized_cache := [];
  _provider_dict := [];
  _hooks_dict := [];
  _connection_form_widgets := [];
  _field_behaviours := [];
  _extra_link_class_name_set := [];
  _logging_class_name_set := [];
  _secrets_backend_class_name_set := [];
  _api_auth_backend_module_names := [];
  log_records := []
|}.

Definition set_initialized_cache (v : Dict.t bool) (s : State) : State := {|
  _initialized_cache := v;
  _provider_dict := _provider_dict s;
  _hooks_dict := _hooks_dict s;
  _connection_form_widgets := _connection_form_widgets s;
  _field_behaviours := _field_behaviours s;
  _extra_link_class_name_set := _extra_link_class_name_set s;
  _logging_class_name_set := _logging_class_name_set s;
  _secrets_backend_class_name_set := _secrets_backend_class_name_set s;
  _api_auth_backend_module_names := _api_auth_backend_module_names s;
  log_records := log_records s
|}.

Definition set_provider_dict (v : Dict.t ProviderInfo) (s : State) : State := {|
  _initialized_cache := _initialized_cache s;
  _provider_dict := v;
  _hooks_dict := _hooks_dict s;
  _connection_form_widgets := _connection_form_widgets s;
  _field_behaviours := _field_behaviours s;
  _extra_link_class_name_set := _extra_link_class_name_set s;
  _logging_class_name_set := _logging_class_name_set s;
  _secrets_backend_class_name_set := _secrets_backend_class_name_set s;
  _api_auth_backend_module_names := _api_auth_backend_module_names s;
  log_records := log_records s
|}.

Definition set_hooks_dict (v : Dict.t HookInfo) (s : State) : State := {|
  _initialized_cache := _initialized_cache s;
  _provider_dict := _provider_dict s;
  _hooks_dict := v;
  _connection_form_widgets := _connection_form_widgets s;
  _field_behaviours := _field_behaviours s;
  _extra_link_class_name_set := _extra_link_class_name_set s;
  _logging_class_name_set := _logging_class_name_set s;
  _secrets_backend_class_name_set := _secrets_backend_class_name_set s;
  _api_auth_backend_module_names := _api_auth_backend_module_names s;
  log_records := log_records s
|}.

Definition set_connection_form_widgets
  (v : Dict.t ConnectionFormWidgetInfo) (s : State) : State := {|
  _initialized_cache := _initialized_cache s;
  _provider_dict := _provider_dict s;
  _hooks_dict := _hooks_dict s;
  _connection_form_widgets := v;
  _field_behaviours := _field_behaviours s;
  _extra_link_class_name_set := _extra_link_class_name_set s;
  _logging_class_name_set := _logging_class_name_set s;
  _secrets_backend_class_name_set := _secrets_backend_class_name_set s;
  _api_auth_backend_module_names := _api_auth_backend_module_names s;
  log_records := log_records s
|}.

Definition set_field_behaviours (v : Dict.t json) (s : State) : State := {|
  _initialized_cache := _initialized_cache s;
  _provider_dict := _provider_dict s;
  _hooks_dict := _hooks_dict s;
  _connection_form_widgets := _connection_form_widgets s;
  _field_behaviours := v;
  _extra_link_class_name_set := _extra_link_class_name_set s;
  _logging_class_name_set := _logging_class_name_set s;
  _secrets_backend_class_name_set := _secrets_backend_class_name_set s;
  _api_auth_backend_module_names := _api_auth_backend_module_names s;
  log_records := log_records s
|}.

Definition set_extra_link_class_name_set (v : StrSet.t) (s : State) : State := {|
  _initialized_cache := _initialized_cache s;
  _provider_dict := _provider_dict s;
  _hooks_dict := _hooks_dict s;
  _connection_form_widgets := _connection_form_widgets s;
  _field_behaviours := _field_behaviours s;
  _extra_link_class_name_set := v;
  _logging_class_name_set := _logging_class_name_set s;
  _secrets_backend_class_name_set := _secrets_backend_class_name_set s;
  _api_auth_backend_module_names := _api_auth_backend_module_names s;
  log_records := log_records s
|}.

Definition set_logging_class_name_set (v : StrSet.t) (s : State) : State := {|
  _initialized_cache := _initialized_cache s;
  _provider_dict := _provider_dict s;
  _hooks_dict := _hooks_dict s;
  _connection_form_widgets := _connection_form_widgets s;
  _field_behaviours := _field_behaviours s;
  _extra_link_class_name_set := _extra_link_class_name_set s;
  _logging_class_name_set := v;
  _secrets_backend_class_name_set := _secrets_backend_class_name_set s;
  _api_auth_backend_module_names := _api_auth_backend_module_names s;
  log_records := log_records s
|}.

Definition set_secrets_backend_class_name_set (v : StrSet.t) (s : State) : State := {|
  _initialized_cache := _initialized_cache s;
  _provider_dict := _provider_dict s;
  _hooks_dict := _hooks_dict s;
  _connection_form_widgets := _connection_form_widgets s;
  _field_behaviours := _field_behaviours s;
  _extra_link_class_name_set := _extra_link_class_name_set s;
  _logging_class_name_set := _logging_class_name_set s;
  _secrets_backend_class_name_set := v;
  _api_auth_backend_module_names := _api_auth_backend_module_names s;
  log_records := log_records s
|}.

Definition set_api_auth_backend_module_names (v : StrSet.t) (s : State) : State := {|
  _initialized_cache := _initialized_cache s;
  _provider_dict := _provider_dict s;
  _hooks_dict := _hooks_dict s;
  _connection_form_widgets := _connection_form_widgets s;
  _field_behaviours := _field_behaviours s;
  _extra_link_class_name_set := _extra_link_class_name_set s;
  _logging_class_name_set := _logging_class_name_set s;
  _secrets_backend_class_name_set := _secrets_backend_class_name_set s;
  _api_auth_backend_module_names := v;
  log_records := log_records s
|}.

(** [log.debug / log.info / log.warning] *)
Definition emit (r : LogRecord) (s : State) : State := {|
  _initialized_cache := _initialized_cache s;
  _provider_dict := _provider_dict s;
  _hooks_dict := _hooks_dict s;
  _connection_form_widgets := _connection_form_widgets s;
  _field_behaviours := _field_behaviours s;
  _extra_link_class_name_set := _extra_link_class_name_set s;
  _logging_class_name_set := _logging_class_name_set s;
  _secrets_backend_class_name_set := _secrets_backend_class_name_set s;
  _api_auth_backend_module_names := _api_auth_backend_module_names s;
  log_records := r :: log_records s
|}.

(** ** What the module reads from its surroundings *)

Record Env : Type := {
  (** [import airflow.providers]: [None] when the import fails, else
      the entries of [airflow.providers.__path__], each with the
      directory tree [os.walk] finds there. *)
  airflow_providers_path : option (list (string * Dir));
  (** [open(path)] followed by [yaml.safe_load]. *)
  yaml_safe_load : string -> result Manifest;
  (** [_provider_schema_validator.validate] does not raise. *)
  provider_schema_valid : Manifest -> bool;
  (** [_customized_form_fields_schema_validator.validate] does not raise. *)
  customized_form_fields_schema_valid : json -> bool;
  (** [entry_points_with_dist('apache_airflow_provider')], in the order
      it yields them. *)
  entry_points_with_dist : list Distribution;
  (** [import_string(dotted_path)]: [None] when it raises. *)
  import_string : string -> option HookClass
}.

(** ** Computations that may raise *)

Definition M (A : Type) : Type := State -> State * result A.

Definition ret {A : Type} (a : A) : M A := fun s => (s, Ok a).

Definition bind {A B : Type} (m : M A) (k : A -> M B) : M B :=
  fun s =>
    match m s with
    | (s', Ok a) => k a s'
    | (s', Raise e) => (s', Raise e)
    end.

(** A method that cannot raise, run for its effect. *)
Definition lift (f : State -> State) : M unit := fun s => (f s, Ok tt).

Notation "m1 ;; m2" := (bind m1 (fun _ => m2))
  (at level 61, right associativity).

(** ** The module's functions *)

Section ProvidersManager.

Variable E : Env.

  (** [_sanity_check(provider_package, class_name)] *)
Definition _sanity_check (provider_package class_name : string)
    (s : State) : State * bool :=
    let provider_path :=
      PyStr.replace "-"%char "."%char
        (PyStr.slice_from (String.length "apache-") provider_package) in
    if PyStr.startswith provider_package "apache-airflow"
       && negb (PyStr.startswith class_name provider_path)
    then
      (emit (WarnSanityCheckPrefix class_name provider_package provider_path) s,
       false)
    else
      match import_string E class_name with
      | None => (emit (WarnSanityCheckImport class_name provider_package) s, false)
      | Some _ => (s, true)
      end.

  (** [@provider_info_cache(cache_name)] around [func]. *)
Definition provider_info_cache (cache_name : string) (func : M unit) : M unit :=
    fun s =>
      if Dict.mem cache_name (_initialized_cache s) then (s, Ok tt)
      else
        match func (emit (DebugInitializing cache_name) s) with
        | (s', Ok _) =>
            (emit (DebugInitialized cache_name)
               (set_initialized_cache
                  (Dict.setitem cache_name true (_initialized_cache s')) s'),
             Ok tt)
        | (s', Raise e) => (s', Raise e)
        end.

  (** [_add_provider_info_from_local_source_file(path, package_name)] *)
Definition _add_provider_info_from_local_source_file
    (path package_name : string) (s : State) : State :=
    let s := emit (DebugLoadingFromSource package_name path) s in
    match yaml_safe_load E path with
    | Raise e => emit (WarnErrorWhenLoading path e) s
    | Ok provider_info =>
        if negb (provider_schema_valid E provider_info) then
          emit (WarnErrorWhenLoading path ValidationError) s
        else
          match mf_versions provider_info with
          | None => emit (WarnErrorWhenLoading path (KeyError "versions")) s
          | Some [] => emit (WarnErrorWhenLoading path IndexError) s
          | Some (version :: _) =>
              if negb (Dict.mem package_name (_provider_dict s)) then
                set_provider_dict
                  (Dict.setitem package_name
                     {| version := version; provider_info := provider_info |}
                     (_provider_dict s)) s
              else emit (WarnProviderAlreadyRegistered package_name) s
          end
    end.

  (** [fnmatch.filter(names, pat)] for a pattern without wildcards
      (POSIX: no case folding), which matches exactly the name [pat]. *)
Definition fnmatch_filter (names : list string) (pat : string) : list string :=
    filter (fun name => name =? pat) names.

  (** The package name synthesized for [folder] below [root_path]. *)
Definition local_package_name (root_path folder : string) : string :=
    "apache-airflow-providers"
    ++ PyStr.replace OsPath.sep "-"%char
         (PyStr.slice_from (String.length root_path) folder).

  (** The body of the [os.walk(path, topdown=True)] loop at [folder] and,
      unless the body emptied [subdirs], the walk of the sub-directories
      in the order listed. *)
Fixpoint walk_local_source_files (root_path folder : string) (d : Dir)
    (s : State) : State :=
    match d with
    | MkDir files subdirs =>
        let found := fnmatch_filter files "provider.yaml" in
        let s1 :=
          fold_left
            (fun s filename =>
               _add_provider_info_from_local_source_file
                 (OsPath.join folder filename)
                 (local_package_name root_path folder) s)
            found s in
        match found with
        | _ :: _ => s1                       (* subdirs[:] = [] *)
        | [] =>
            fold_left
              (fun s e =>
                 walk_local_source_files root_path
                   (OsPath.join folder (fst e)) (snd e) s)
              subdirs s1
        end
    end.

  (** [_add_provider_info_from_local_source_files_on_path(path)], the
      directory tree at [path] being [d]. *)
Definition _add_provider_info_from_local_source_files_on_path
    (path : string) (d : Dir) (s : State) : State :=
    walk_local_source_files path path d s.

  (** [_discover_all_airflow_builtin_providers_from_local_sources] *)
Definition _discover_all_airflow_builtin_providers_from_local_sources
    (s : State) : State :=
    match airflow_providers_path E with
    | None => emit InfoNoProvidersInstalled s
    | Some paths =>
        fold_left
          (fun s p =>
             _add_provider_info_from_local_source_files_on_path (fst p) (snd p) s)
          paths s
    end.

  (** The body of the loop of [_discover_all_providers_from_packages]
      for one [(entry_point, dist)]. *)
Definition load_provider_from_package (dist : Distribution) : M unit :=
    fun s =>
      let package_name := dist_name dist in
      match Dict.get package_name (_provider_dict s) with
      | Some _ => (s, Ok tt)                                    (* continue *)
      | None =>
          let s := emit (DebugLoadingFromPackage package_name) s in
          let version := dist_version dist in
          match entry_point_load dist with
          | Raise e => (s, Raise e)
          | Ok provider_info =>
              if negb (provider_schema_valid E provider_info) then
                (s, Raise ValidationError)
              else
                match mf_package_name provider_info with
                | None => (s, Raise (KeyError "package-name"))
                | Some provider_info_package_name =>
                    if negb (package_name =? provider_info_package_name) then
                      (s, Raise (PackageNameMismatch package_name
                                   provider_info_package_name))
                    else if negb (Dict.mem package_name (_provider_dict s)) then
                      (set_provider_dict
                         (Dict.setitem package_name
                            {| version := version;
                               provider_info := provider_info |}
                            (_provider_dict s)) s,
                       Ok tt)
                    else
                      (emit (WarnProviderAlreadyRegistered package_name) s, Ok tt)
                end
          end
      end.

  (** A [for] loop whose body may raise. *)
Fixpoint for_each {A : Type} (body : A -> M unit) (l : list A) : M unit :=
    match l with
    | [] => ret tt
    | x :: l' => bind (body x) (fun _ => for_each body l')
    end.

  (** [_discover_all_providers_from_packages] *)
Definition _discover_all_providers_from_packages : M unit :=
    for_each load_provider_from_package (entry_points_with_dist E).

  (** [initialize_providers_list] *)
Definition initialize_providers_list : M unit :=
    provider_info_cache "list"
      (lift _discover_all_airflow_builtin_providers_from_local_sources ;;
       _discover_all_providers_from_packages ;;
       lift (fun s => set_provider_dict (Dict.sorted_items (_provider_dict s)) s)).

  (** [getattr(obj, attr_name)] when [hasattr(obj, attr_name)]. *)
Definition getattr (obj : HookClass) (attr_name : string) : option string :=
    if attr_name =? "conn_type" then conn_type obj
    else if attr_name =? "conn_name_attr" then conn_name_attr obj
    else if attr_name =? "hook_name" then hook_name obj
    else None.

  (** [_get_attr(obj, attr_name)] *)
Definition _get_attr (obj : HookClass) (attr_name : string)
    (s : State) : State * option string :=
    match getattr obj attr_name with
    | None => (emit (WarnMissingAttribute (hc_name obj) attr_name) s, None)
    | Some v => (s, Some v)
    end.

  (** The body of the loop of [_add_widgets] for one item. *)
Definition add_widget (package_name : string) (hook_class : HookClass)
    (s : State) (item : string * Field) : State :=
    let (field_name, field) := item in
    if negb (PyStr.startswith field_name "extra__") then
      emit (WarnFieldWithoutPrefix field_name (hc_name hook_class)) s
    else if Dict.mem field_name (_connection_form_widgets s) then
      emit (WarnFieldAlreadyAdded field_name (hc_name hook_class)) s
    else
      set_connection_form_widgets
        (Dict.setitem field_name
           {| wi_connection_class := hc_name hook_class;
              wi_package_name := package_name;
              wi_field := field |}
           (_connection_form_widgets s)) s.

  (** [_add_widgets(package_name, hook_class, widgets)] *)
Definition _add_widgets (package_name : string) (hook_class : HookClass)
    (widgets : Dict.t Field) (s : State) : State :=
    fold_left (add_widget package_name hook_class) widgets s.

  (** [_add_customized_fields(package_name, hook_class, customized_fields)] *)
Definition _add_customized_fields (package_name : string)
    (hook_class : HookClass) (customized_fields : json) (s : State) : State :=
    match conn_type hook_class with
    | None =>
        emit (WarnCustomizedFields package_name (hc_name hook_class)
                (AttributeError "conn_type")) s
    | Some connection_type =>
        if negb (customized_form_fields_schema_valid E customized_fields) then
          emit (WarnCustomizedFields package_name (hc_name hook_class)
                  ValidationError) s
        else if Dict.mem connection_type (_field_behaviours s) then
          emit (WarnConnectionTypeAlreadyAdded connection_type package_name
                  (hc_name hook_class)) s
        else
          set_field_behaviours
            (Dict.setitem connection_type customized_fields
               (_field_behaviours s)) s
    end.

  (** The [except ImportError] / [except Exception] handlers of [_add_hook]. *)
Definition hook_exception (hook_class_name provider_package : string)
    (e : exn) (s : State) : State :=
    match e with
    | ImportError => emit (DebugHookImportError hook_class_name provider_package) s
    | _ => emit (WarnHookException hook_class_name provider_package e) s
    end.

  (** The widget part of the [try] block of [_add_hook]; the boolean says
      whether control goes on to the next statement ([false]: the method
      returned, by [return] or through an exception handler). *)
Definition hook_widgets (hook_class_name provider_package : string)
    (hook_class : HookClass) (s : State) : State * bool :=
    match get_connection_form_widgets hook_class with
    | None => (s, true)
    | Some (Raise e) => (hook_exception hook_class_name provider_package e s, false)
    | Some (Ok widgets) =>
        match widgets with
        | [] => (s, true)
        | _ :: _ =>
            match
              find (fun widget => negb (allowed_field_class (field_class widget)))
                (map snd widgets)
            with
            | Some widget =>
                (emit (WarnUnsupportedFieldClass hook_class_name
                         (field_class widget)) s,
                 false)                                           (* return *)
            | None => (_add_widgets provider_package hook_class widgets s, true)
            end
        end
    end.

  (** The field-behaviour part of the [try] block of [_add_hook]. *)
Definition hook_field_behaviours (hook_class_name provider_package : string)
    (hook_class : HookClass) (s : State) : State * bool :=
    match get_ui_field_behaviour hook_class with
    | None => (s, true)
    | Some (Raise e) => (hook_exception hook_class_name provider_package e s, false)
    | Some (Ok field_behaviours) =>
        if json_truthy field_behaviours then
          (_add_customized_fields provider_package hook_class field_behaviours s,
           true)
        else (s, true)
    end.

  (** The statements of [_add_hook] after the [try] block. *)
Definition register_hook (hook_class_name provider_package : string)
    (hook_class : HookClass) (s : State) : State :=
    let (s, conn_type) := _get_attr hook_class "conn_type" s in
    let (s, connection_id_attribute_name) :=
      _get_attr hook_class "conn_name_attr" s in
    let (s, hook_name) := _get_attr hook_class "hook_name" s in
    match conn_type, connection_id_attribute_name, hook_name with
    | Some conn_type, Some connection_id_attribute_name, Some hook_name =>
        if negb (PyStr.truthy conn_type)
           || negb (PyStr.truthy connection_id_attribute_name)
           || negb (PyStr.truthy hook_name)
        then s
        else
          set_hooks_dict
            (Dict.setitem conn_type
               {| hi_connection_class := hook_class_name;
                  hi_connection_id_attribute_name := connection_id_attribute_name;
                  hi_package_name := provider_package;
                  hi_hook_name := hook_name |}
               (_hooks_dict s)) s
    | _, _, _ => s
    end.

  (** [_add_hook(hook_class_name, provider_package)] *)
Definition _add_hook (hook_class_name provider_package : string)
    (s : State) : State :=
    let (s, ok) := _sanity_check provider_package hook_class_name s in
    if negb ok then s
    else if Dict.mem hook_class_name (_hooks_dict s) then
      emit (WarnHookClassAlreadyRegistered hook_class_name) s
    else
      match import_string E hook_class_name with
      | None => hook_exception hook_class_name provider_package ImportError s
      | Some hook_class =>
          let (s, go_on) :=
            hook_widgets hook_class_name provider_package hook_class s in
          if negb go_on then s
          else
            let (s, go_on) :=
              hook_field_behaviours hook_class_name provider_package hook_class s in
            if negb go_on then s
            else register_hook hook_class_name provider_package hook_class s
      end.

  (** The class names a manifest lists under a key, when the value is
      there and truthy. *)
Definition declared (names : option (list string)) : list string :=
    match names with Some l => l | None => [] end.

  (** [_discover_hooks] *)
Definition _discover_hooks (s : State) : State :=
    fold_left
      (fun s item =>
         let provider_package := fst item in
         fold_left
           (fun s hook_class_name => _add_hook hook_class_name provider_package s)
           (declared (mf_hook_class_names (provider_info (snd item)))) s)
      (_provider_dict s) s.

  (** The common shape of the four flat extraction passes. *)
Definition discover_class_names
    (key : Manifest -> option (list string))
    (checked : string -> string)
    (get_set : State -> StrSet.t)
    (put_set : StrSet.t -> State -> State) (s : State) : State :=
    fold_left
      (fun s item =>
         let provider_package := fst item in
         fold_left
           (fun s class_name =>
              let (s, ok) := _sanity_check provider_package (checked class_name) s in
              if ok then put_set (StrSet.add class_name (get_set s)) s else s)
           (declared (key (provider_info (snd item)))) s)
      (_provider_dict s) s.

  (** [_discover_extra_links] *)
Definition _discover_extra_links : State -> State :=
    discover_class_names mf_extra_links (fun n => n)
      _extra_link_class_name_set set_extra_link_class_name_set.

  (** [_discover_logging] *)
Definition _discover_logging : State -> State :=
    discover_class_names mf_logging (fun n => n)
      _logging_class_name_set set_logging_class_name_set.

  (** [_discover_secrets_backends] *)
Definition _discover_secrets_backends : State -> State :=
    discover_class_names mf_secrets_backends (fun n => n)
      _secrets_backend_class_name_set set_secrets_backend_class_name_set.

  (** [_discover_auth_backends] *)
Definition _discover_auth_backends : State -> State :=
    discover_class_names mf_auth_backends (fun n => (n ++ ".init_app")%string)
      _api_auth_backend_module_names set_api_auth_backend_module_names.

  (** [initialize_providers_hooks] *)
Definition initialize_providers_hooks : M unit :=
    provider_info_cache "hooks"
      (initialize_providers_list ;;
       lift _discover_hooks ;;
       lift (fun s => set_hooks_dict (Dict.sorted_items (_hooks_dict s)) s) ;;
       lift (fun s =>
               set_connection_form_widgets
                 (Dict.sorted_items (_connection_form_widgets s)) s) ;;
       lift (fun s =>
               set_field_behaviours (Dict.sorted_items (_field_behaviours s)) s)).

  (** [initialize_providers_extra_links] *)
Definition initialize_providers_extra_links : M unit :=
    provider_info_cache "extra_links"
      (initialize_providers_list ;; lift _discover_extra_links).

  (** [initialize_providers_logging] *)
Definition initialize_providers_logging : M unit :=
    provider_info_cache "logging"
      (initialize_providers_list ;; lift _discover_logging).

  (** [initialize_providers_secrets_backends] *)
Definition initialize_providers_secrets_backends : M unit :=
    provider_info_cache "secrets_backends"
      (initialize_providers_list ;; lift _discover_secrets_backends).

  (** [initialize_providers_auth_backends] *)
Definition initialize_providers_auth_backends : M unit :=
    provider_info_cache "auth_backends"
      (initialize_providers_list ;; lift _discover_auth_backends).

  (** *** The read surface *)

  (** [providers] *)
Definition providers : M (Dict.t ProviderInfo) :=
    bind initialize_providers_list (fun _ s => (s, Ok (_provider_dict s))).

  (** [hooks] *)
Definition hooks : M (Dict.t HookInfo) :=
    bind initialize_providers_hooks (fun _ s => (s, Ok (_hooks_dict s))).

  (** [extra_links_class_names] *)
Definition extra_links_class_names : M (list string) :=
    bind initialize_providers_extra_links
      (fun _ s => (s, Ok (StrSet.sorted (_extra_link_class_name_set s)))).

  (** [connection_form_widgets] *)
Definition connection_form_widgets : M (Dict.t ConnectionFormWidgetInfo) :=
    bind initialize_providers_hooks
      (fun _ s => (s, Ok (_connection_form_widgets s))).

  (** [field_behaviours] *)
Definition field_behaviours : M (Dict.t json) :=
    bind initialize_providers_hooks (fun _ s => (s, Ok (_field_behaviours s))).

  (** [logging_class_names] *)
Definition logging_class_names : M (list string) :=
    bind initialize_providers_logging
      (fun _ s => (s, Ok (StrSet.sorted (_logging_class_name_set s)))).

  (** [secrets_backend_class_names] *)
Definition secrets_backend_class_names : M (list string) :=
    bind initialize_providers_secrets_backends
      (fun _ s => (s, Ok (StrSet.sorted (_secrets_backend_class_name_set s)))).

  (** [auth_backend_module_names] *)
Definition auth_backend_module_names : M (list string) :=
    bind initialize_providers_auth_backends
      (fun _ s => (s, Ok (StrSet.sorted (_api_auth_backend_module_names s)))).

End ProvidersManager.

Arguments _sanity_check E provider_package class_name s : simpl never.

(** ** Sequential use of the read surface *)

Inductive Accessor : Type :=
| Providers
| Hooks
| ExtraLinksClassNames
| ConnectionFormWidgets
| FieldBehaviours
| LoggingClassNames
| SecretsBackendClassNames
| AuthBackendModuleNames.

(** What an accessor returns. *)
Inductive View : Type :=
| ProvidersView (d : Dict.t ProviderInfo)
| HooksView (d : Dict.t HookInfo)
| WidgetsView (d : Dict.t ConnectionFormWidgetInfo)
| FieldBehavioursView (d : Dict.t json)
| NamesView (l : list string).

(** The keys of a view in the order its enumeration gives them. *)
Definition view_keys (v : View) : list string :=
  match v with
  | ProvidersView d => Dict.keys d
  | HooksView d => Dict.keys d
  | WidgetsView d => Dict.keys d
  | FieldBehavioursView d => Dict.keys d
  | NamesView l => l
  end.

Definition fmap {A B : Type} (f : A -> B) (m : M A) : M B :=
  bind m (fun a => ret (f a)).

Definition access (E : Env) (a : Accessor) : M View :=
  match a with
  | Providers => fmap ProvidersView (providers E)
  | Hooks => fmap HooksView (hooks E)
  | ExtraLinksClassNames => fmap NamesView (extra_links_class_names E)
  | ConnectionFormWidgets => fmap WidgetsView (connection_form_widgets E)
  | FieldBehaviours => fmap FieldBehavioursView (field_behaviours E)
  | LoggingClassNames => fmap NamesView (logging_class_names E)
  | SecretsBackendClassNames => fmap NamesView (secrets_backend_class_names E)
  | AuthBackendModuleNames => fmap NamesView (auth_backend_module_names E)
  end.

(** The registry after a sequence of accesses, whatever each returned
    or raised. *)
Definition run_accesses (E : Env) (l : list Accessor) (s : State) : State :=
  fold_left (fun s a => fst (access E a s)) l s.

(** The initialization categories. *)
Definition categories : list string :=
  ["list"; "hooks"; "extra_links"; "logging"; "secrets_backends"; "auth_backends"].

Definition is_initializing (cache_name : string) (r : LogRecord) : bool :=
  match r with
  | DebugInitializing c => c =? cache_name
  | _ => false
  end.

(** How many times the procedure of a category has been entered: the
    decorator logs [DebugInitializing] right before each call of it. *)
Definition executions (cache_name : string) (s : State) : nat :=
  List.length (filter (is_initializing cache_name) (log_records s)).

(** How many entry points have been loaded: the installed-package scan
    logs [DebugLoadingFromPackage] right before each [entry_point.load()]. *)
Definition is_loading_from_package (package_name : string) (r : LogRecord) : bool :=
  match r with
  | DebugLoadingFromPackage p => p =? package_name
  | _ => false
  end.

Definition loads (package_name : string) (s : State) : nat :=
  List.length (filter (is_loading_from_package package_name) (log_records s)).

(** ** The in-source scan as the specification words it *)

(** The recognized descriptor filename. *)
Definition descriptor : string := "provider.yaml".

Definition has_descriptor (d : Dir) : bool :=
  match d with MkDir files _ => existsb (fun f => f =? descriptor) files end.

(** The directories treated as providers, as lists of directory names
    below the root: a directory containing the descriptor is one provider
    and nothing below it is visited; otherwise its sub-directories are
    visited in turn. *)
Fixpoint provider_dirs (d : Dir) : list (list string) :=
  match d with
  | MkDir files subdirs =>
      if existsb (fun f => f =? descriptor) files then [[]]
      else flat_map (fun e => map (cons (fst e)) (provider_dirs (snd e))) subdirs
  end.

(** The directory reached from [d] by a relative path, if there is one. *)
Fixpoint lookup_dir (d : Dir) (p : list string) : option Dir :=
  match p with
  | [] => Some d
  | name :: p' =>
      match d with
      | MkDir _ subdirs =>
          match find (fun e => fst e =? name) subdirs with
          | Some (_, sub) => lookup_dir sub p'
          | None => None
          end
      end
  end.

(** The fixed prefix followed by the relative path, each directory name
    led by a hyphen. *)
Definition hyphen_joined (p : list string) : string :=
  ("apache-airflow-providers"
   ++ fold_right String.append "" (map (fun c => "-" ++ c) p))%string.

(** The directory at a relative path, as a path below the root. *)
Definition folder_of (root_path : string) (p : list string) : string :=
  (root_path ++ fold_right String.append "" (map (fun c => "/" ++ c) p))%string.

(** The descriptor file of the directory at a relative path. *)
Definition descriptor_path (root_path : string) (p : list string) : string :=
  (folder_of root_path p ++ "/" ++ descriptor)%string.

(** A directory tree as a file system holds it: the names in one
    directory are distinct, and a directory name is not empty and contains
    no separator. *)
Definition name_ok (name : string) : bool :=
  negb (name =? "") && negb (PyStr.contains_char OsPath.sep name).

Fixpoint distinct (l : list string) : bool :=
  match l with
  | [] => true
  | x :: l' => negb (existsb (String.eqb x) l') && distinct l'
  end.

Fixpoint wf_dir (d : Dir) : bool :=
  match d with
  | MkDir files subdirs =>
      distinct files && distinct (map fst subdirs)
      && forallb (fun e => name_ok (fst e) && wf_dir (snd e)) subdirs
  end.

(** A root path as [__path__] holds it: not empty, no trailing separator. *)
Definition root_ok (root_path : string) : bool :=
  negb (root_path =? "") && negb (PyStr.endswith_char OsPath.sep root_path).

(** ** Concrete surroundings used in examples *)

Module Sample.

Definition manifest (package_name : string) (versions hook_class_names : list string)
    : Manifest := {|
    mf_package_name := Some package_name;
    mf_versions := Some versions;
    mf_hook_class_names := Some hook_class_names;
    mf_extra_links := None;
    mf_logging := None;
    mf_secrets_backends := None;
    mf_auth_backends := None
  |}.

  (** A validator that asks for the two required keys. *)
Definition required_keys_present (m : Manifest) : bool :=
    match mf_package_name m, mf_versions m with
    | Some _, Some (_ :: _) => true
    | _, _ => false
    end.

Definition hook_class (name conn : string)
    (widgets : option (result (Dict.t Field)))
    (behaviour : option (result json)) : HookClass := {|
    hc_name := name;
    get_connection_form_widgets := widgets;
    get_ui_field_behaviour := behaviour;
    conn_type := Some conn;
    conn_name_attr := Some (conn ++ "_conn_id")%string;
    hook_name := Some name
  |}.

Definition field (c : FieldClass) : Field :=
    {| field_class := c; field_label := "" |}.

  (** Surroundings with installed distributions only. *)
Definition installed (dists : list Distribution)
    (classes : string -> option HookClass) : Env := {|
    airflow_providers_path := None;
    yaml_safe_load := fun _ => Raise OSError;
    provider_schema_valid := required_keys_present;
    customized_form_fields_schema_valid := fun _ => true;
    entry_points_with_dist := dists;
    import_string := classes
  |}.

Definition dist (name version : string) (m : Manifest) : Distribution :=
    {| dist_name := name; dist_version := version; entry_point_load := Ok m |}.

  (** Two providers, each declaring a hook class of connection type "foo". *)
Definition two_foo_hooks : Env :=
    installed
      [dist "p1" "1.0" (manifest "p1" ["1.0"] ["p1.hooks.H1"]);
       dist "p2" "1.0" (manifest "p2" ["1.0"] ["p2.hooks.H2"])]
      (fun name =>
         if name =? "p1.hooks.H1" then Some (hook_class "H1" "foo" None None)
         else if name =? "p2.hooks.H2" then Some (hook_class "H2" "foo" None None)
         else None).

  (** A provider whose hook declares one allowed and one unsupported
      widget, a field-behaviour document and the three attributes. *)
Definition unsupported_widget : Env :=
    installed
      [dist "svc" "1.0" (manifest "svc" ["1.0"] ["svc.hooks.SvcHook"])]
      (fun name =>
         if name =? "svc.hooks.SvcHook" then
           Some (hook_class "SvcHook" "svc"
                   (Some (Ok [("extra__svc__id", field StringField);
                              ("extra__svc__token",
                               field (OtherFieldClass "UnsupportedField"))]))
                   (Some (Ok (JDict [("hidden_fields", JList [])]))))
         else None).

  (** The widgets [{extra__svc__id: StringField, token: StringField}]. *)
Definition prefix_widgets : Dict.t Field :=
    [("extra__svc__id", field StringField); ("token", field StringField)].

  (** A distribution whose manifest fails the schema (no versions) while
      its name agrees with the distribution. *)
Definition schema_violation : Env :=
    installed
      [dist "svc" "1.0"
         {| mf_package_name := Some "svc"; mf_versions := None;
            mf_hook_class_names := None; mf_extra_links := None;
            mf_logging := None; mf_secrets_backends := None;
            mf_auth_backends := None |}]
      (fun _ => None).

  (** A distribution named "svc" whose manifest says "other". *)
Definition name_mismatch : Env :=
    installed [dist "svc" "1.0" (manifest "other" ["1.0"] [])] (fun _ => None).

  (** A root holding [a/provider.yaml] and [a/sub/provider.yaml]. *)
Definition nested_root : Dir :=
    MkDir []
      [("a", MkDir ["provider.yaml"; "__init__.py"]
               [("sub", MkDir ["provider.yaml"] [])])].

  (** Sources at "/src/airflow/providers" holding [nested_root], every
      descriptor loading as a valid manifest of version "2.0", and an
      installed distribution of the name derived for [a]. *)
Definition sources_and_package : Env := {|
    airflow_providers_path := Some [("/src/airflow/providers", nested_root)];
    yaml_safe_load :=
      fun _ => Ok (manifest "apache-airflow-providers-a" ["2.0"; "1.0"] []);
    provider_schema_valid := required_keys_present;
    customized_form_fields_schema_valid := fun _ => true;
    entry_points_with_dist :=
      [dist "apache-airflow-providers-a" "9.9"
         (manifest "apache-airflow-providers-a" ["1.0"] [])];
    import_string := fun _ => None
  |}.


End Sample.

(** The directory at [p] holds the descriptor and no directory on the
    way down to it does: the walk reaches it and treats it as a provider. *)
Definition is_provider_dir (d : Dir) (p : list string) : Prop :=
  (exists sub, lookup_dir d p = Some sub /\ has_descriptor sub = true)
  /\ (forall q r sub,
         p = q ++ r -> r <> [] ->
         lookup_dir d q = Some sub -> has_descriptor sub = false).

(** The registration the scan attempts for the directory at [p]. *)
Definition add_provider_dir (E : Env) (root_path : string)
  (s : State) (p : list string) : State :=
  _add_provider_info_from_local_source_file E
    (descriptor_path root_path p) (hyphen_joined p) s.

(** ** Where a log record or a provider record comes from *)

(** Records emitted by the [provider_info_cache] decorator. *)
Definition from_decorator (r : LogRecord) : bool :=
  match r with
  | DebugInitializing _ | DebugInitialized _ => true
  | _ => false
  end.

(** Records emitted before an entry point is loaded. *)
Definition from_package_scan (r : LogRecord) : bool :=
  match r with
  | DebugLoadingFromPackage _ => true
  | _ => false
  end.

(** A provider record as the in-source scan builds it: the manifest is
    what a descriptor file loads as, it passes the schema, and the version
    is the first entry of its [versions]. *)
Definition from_source (E : Env) (r : ProviderInfo) : Prop :=
  exists path rest,
    yaml_safe_load E path = Ok (provider_info r)
    /\ provider_schema_valid E (provider_info r) = true
    /\ mf_versions (provider_info r) = Some (version r :: rest).

(** A provider record as the installed-package scan builds it from one
    of the distributions [l] under the key [k]: the manifest is what the
    entry point of a distribution named [k] returns, it passes the schema
    and names [k], and the version is the one of the distribution. *)
Definition from_package (E : Env) (l : list Distribution) (k : string)
  (r : ProviderInfo) : Prop :=
  exists dist,
    In dist l
    /\ dist_name dist = k
    /\ entry_point_load dist = Ok (provider_info r)
    /\ provider_schema_valid E (provider_info r) = true
    /\ mf_package_name (provider_info r) = Some k
    /\ version r = dist_version dist.

(** The keys are in lexicographic order. *)
Definition lexicographic (l : list string) : Prop :=
  Sorted (fun a b => (a <=? b) = true) l.

(** ** The initialization cache *)

(** [cache_name in self._initialized_cache] *)
Definition flag (cache_name : string) (s : State) : bool :=
  Dict.mem cache_name (_initialized_cache s).

(** The initialization procedure an accessor calls. *)
Definition procedure_of (a : Accessor) (E : Env) : M unit :=
  match a with
  | Providers => initialize_providers_list E
  | Hooks | ConnectionFormWidgets | FieldBehaviours => initialize_providers_hooks E
  | ExtraLinksClassNames => initialize_providers_extra_links E
  | LoggingClassNames => initialize_providers_logging E
  | SecretsBackendClassNames => initialize_providers_secrets_backends E
  | AuthBackendModuleNames => initialize_providers_auth_backends E
  end.

(** The cache and the log agree: a procedure whose flag is set has been
    entered once, one whose flag is not set has not been entered, and no
    flag is set before the one of the list procedure. *)
Definition settled (s : State) : Prop :=
  forall c,
    executions c s = (if flag c s then 1 else 0)
    /\ (flag c s = true -> flag "list" s = true).

(** The three tables of the hooks procedure are in key order. *)
Definition hook_tables_sorted (s : State) : Prop :=
  lexicographic (Dict.keys (_hooks_dict s))
  /\ lexicographic (Dict.keys (_connection_form_widgets s))
  /\ lexicographic (Dict.keys (_field_behaviours s)).

(** The tables whose procedure has completed are in key order. *)
Definition tables_sorted (s : State) : Prop :=
  (flag "list" s = true -> lexicographic (Dict.keys (_provider_dict s)))
  /\ (flag "hooks" s = true -> hook_tables_sorted s).

(** What the hooks procedure does after the list procedure. *)
Definition extract_hooks (E : Env) (s : State) : State :=
  let s := _discover_hooks E s in
  let s := set_hooks_dict (Dict.sorted_items (_hooks_dict s)) s in
  let s :=
    set_connection_form_widgets
      (Dict.sorted_items (_connection_form_widgets s)) s in
  set_field_behaviours (Dict.sorted_items (_field_behaviours s)) s.

(** What a pass over the provider table must leave alone for the
    procedure of category [c0] built on it to behave: the cache, the
    decorator's log records and the provider table; and it leaves the hook
    tables in key order, or is the hooks pass itself. *)
Definition extraction_pass (c0 : string) (f : State -> State) : Prop :=
  ("list" =? c0) = false
  /\ (forall s, _initialized_cache (f s) = _initialized_cache s)
  /\ (forall c s, executions c (f s) = executions c s)
  /\ (forall s, _provider_dict (f s) = _provider_dict s)
  /\ (forall s,
         (c0 =? "hooks") = true \/ hook_tables_sorted s ->
         hook_tables_sorted (f s)).

(** The part of the registry the class-name passes do not write. *)
Definition tables_and_log (s : State) :=
  (_initialized_cache s, log_records s, _provider_dict s,
   _hooks_dict s, _connection_form_widgets s, _field_behaviours s).

(** The category an accessor belongs to. *)
Definition category_of (a : Accessor) : string :=
  match a with
  | Providers => "list"
  | Hooks | ConnectionFormWidgets | FieldBehaviours => "hooks"
  | ExtraLinksClassNames => "extra_links"
  | LoggingClassNames => "logging"
  | SecretsBackendClassNames => "secrets_backends"
  | AuthBackendModuleNames => "auth_backends"
  end.

(** ** Further definitions for stating properties *)

(** The module path a class of a privileged package must start with:
    "airflow.providers" followed by the directory names, each led by a
    dot. *)
Definition dotted_path (p : list string) : string :=
  ("airflow.providers"
   ++ fold_right String.append "" (map (fun c => "." ++ c) p))%string.

(** A directory name that can be part of a module path: a proper name
    without a hyphen. *)
Definition module_name_ok (name : string) : bool :=
  name_ok name && negb (PyStr.contains_char "-"%char name).

(** Everything in the registry but the log. *)
Definition tables_of (s : State) :=
  (_initialized_cache s, _provider_dict s, _hooks_dict s,
   _connection_form_widgets s, _field_behaviours s,
   (_extra_link_class_name_set s, _logging_class_name_set s,
    _secrets_backend_class_name_set s, _api_auth_backend_module_names s)).

(** The answer of [_sanity_check], which does not depend on the registry. *)
Definition sanity_verdict (E : Env) (provider_package class_name : string) : bool :=
  snd (_sanity_check E provider_package class_name __init__).

(** The class names under [key] that a provider table declares and the
    sanity check, applied to [checked name], accepts. *)
Definition accepted_class_name (E : Env) (table : Dict.t ProviderInfo)
  (key : Manifest -> option (list string)) (checked : string -> string)
  (name : string) : Prop :=
  exists provider_package r,
    In (provider_package, r) table
    /\ In name (declared (key (provider_info r)))
    /\ sanity_verdict E provider_package (checked name) = true.

(** A provider that declares three logging classes, the second of
    which does not import, and one auth backend module. *)
Definition three_logging_classes : Env :=
  Sample.installed
    [Sample.dist "svc" "1.0"
       {| mf_package_name := Some "svc";
          mf_versions := Some ["1.0"];
          mf_hook_class_names := None;
          mf_extra_links := None;
          mf_logging := Some ["svc.log.First"; "svc.log.Second"; "svc.log.Third"];
          mf_secrets_backends := None;
          mf_auth_backends := Some ["svc.auth.backend"] |}]
    (fun name =>
       if (name =? "svc.log.First") || (name =? "svc.log.Third")
          || (name =? "svc.auth.backend.init_app")
       then Some (Sample.hook_class "Handler" "" None None)
       else None).

(** A hook record as [_add_hook] builds it for a hook class name that
    passes the sanity check for the package: the class has the three
    attributes, none of them empty, and [k] is its connection type. *)
Definition hook_record_of (E : Env) (provider_package hook_class_name : string)
  (k : string) (h : HookInfo) : Prop :=
  exists hook_class,
    sanity_verdict E provider_package hook_class_name = true
    /\ import_string E hook_class_name = Some hook_class
    /\ conn_type hook_class = Some k
    /\ conn_name_attr hook_class = Some (hi_connection_id_attribute_name h)
    /\ hook_name hook_class = Some (hi_hook_name h)
    /\ PyStr.truthy k = true
    /\ PyStr.truthy (hi_connection_id_attribute_name h) = true
    /\ PyStr.truthy (hi_hook_name h) = true
    /\ hi_connection_class h = hook_class_name
    /\ hi_package_name h = provider_package.

(** A widget record as [_add_widgets] builds it for a field that the
    hook class itself declares. *)
Definition widget_record_of (provider_package : string) (hook_class : HookClass)
  (k : string) (w : ConnectionFormWidgetInfo) : Prop :=
  PyStr.startswith k "extra__" = true
  /\ allowed_field_class (field_class (wi_field w)) = true
  /\ wi_package_name w = provider_package
  /\ wi_connection_class w = hc_name hook_class
  /\ exists widgets,
       get_connection_form_widgets hook_class = Some (Ok widgets)
       /\ In (k, wi_field w) widgets.

(** A field-behaviour document as [_add_customized_fields] registers it. *)
Definition behaviour_of (E : Env) (hook_class : HookClass)
  (k : string) (doc : json) : Prop :=
  conn_type hook_class = Some k
  /\ get_ui_field_behaviour hook_class = Some (Ok doc)
  /\ json_truthy doc = true
  /\ customized_form_fields_schema_valid E doc = true.

(** The hook class names a provider table declares. *)
Definition declares_hook (table : Dict.t ProviderInfo)
  (provider_package hook_class_name : string) : Prop :=
  exists r,
    In (provider_package, r) table
    /\ In hook_class_name (declared (mf_hook_class_names (provider_info r))).

(** Every field of the widget table carries the namespace prefix and
    is of an allowed class. *)
Definition widgets_well_formed (widgets : Dict.t ConnectionFormWidgetInfo) : Prop :=
  forall k w,
    Dict.get k widgets = Some w ->
    PyStr.startswith k "extra__" = true
    /\ allowed_field_class (field_class (wi_field w)) = true.

(** Every document of the field-behaviour table passes its schema. *)
Definition behaviours_valid (E : Env) (behaviours : Dict.t json) : Prop :=
  forall k doc,
    Dict.get k behaviours = Some doc ->
    customized_form_fields_schema_valid E doc = true.

(** An attribute that is there and not empty. *)
Definition present (a : option string) : bool :=
  match a with
  | Some v => PyStr.truthy v
  | None => false
  end.

(** A hook class whose widget set has one namespaced field, and which
    has no [hook_name]. *)
Definition nameless_hook : Env :=
  Sample.installed
    [Sample.dist "svc" "1.0" (Sample.manifest "svc" ["1.0"] ["svc.hooks.SvcHook"])]
    (fun name =>
       if name =? "svc.hooks.SvcHook" then
         Some {| hc_name := "SvcHook";
                 get_connection_form_widgets :=
                   Some (Ok [("extra__svc__id", Sample.field StringField)]);
                 get_ui_field_behaviour :=
                   Some (Ok (JDict [("hidden_fields", JList [])]));
                 conn_type := Some "svc";
                 conn_name_attr := Some "svc_conn_id";
                 hook_name := None |}
       else None).

(** What an accessor reads once its procedure has completed. *)
Definition view_of (a : Accessor) (s : State) : View :=
  match a with
  | Providers => ProvidersView (_provider_dict s)
  | Hooks => HooksView (_hooks_dict s)
  | ExtraLinksClassNames => NamesView (StrSet.sorted (_extra_link_class_name_set s))
  | ConnectionFormWidgets => WidgetsView (_connection_form_widgets s)
  | FieldBehaviours => FieldBehavioursView (_field_behaviours s)
  | LoggingClassNames => NamesView (StrSet.sorted (_logging_class_name_set s))
  | SecretsBackendClassNames =>
      NamesView (StrSet.sorted (_secrets_backend_class_name_set s))
  | AuthBackendModuleNames =>
      NamesView (StrSet.sorted (_api_auth_backend_module_names s))
  end.

(** No flag is set before the one of the list procedure. *)
Definition list_first (s : State) : Prop :=
  forall c, flag c s = true -> flag "list" s = true.

(** The exceptions the installed-package scan lets through, each with
    the distribution it comes from. *)
Definition package_scan_error (E : Env) (dist : Distribution) (e : exn) : Prop :=
  entry_point_load dist = Raise e
  \/ exists m,
       entry_point_load dist = Ok m
       /\ (provider_schema_valid E m = false /\ e = ValidationError
           \/ provider_schema_valid E m = true
              /\ (mf_package_name m = None /\ e = KeyError "package-name"
                  \/ exists name,
                       mf_package_name m = Some name
                       /\ name <> dist_name dist
                       /\ e = PackageNameMismatch (dist_name dist) name)).

(** No provider, hook, widget, field behaviour or class name is
    registered. *)
Definition registry_empty (s : State) : Prop :=
  _provider_dict s = []
  /\ _hooks_dict s = []
  /\ _connection_form_widgets s = []
  /\ _field_behaviours s = []
  /\ _extra_link_class_name_set s = []
  /\ _logging_class_name_set s = []
  /\ _secrets_backend_class_name_set s = []
  /\ _api_auth_backend_module_names s = [].

(** Nothing in the [try] block of [_add_hook] ends the method for this
    class: its widget method, if it declares one, returns fields of
    allowed classes only, and its field-behaviour method, if it declares
    one, returns. *)
Definition try_block_passes (hook_class : HookClass) : bool :=
  match get_connection_form_widgets hook_class with
  | None => true
  | Some (Raise _) => false
  | Some (Ok widgets) =>
      forallb (fun w => allowed_field_class (field_class w)) (map snd widgets)
  end
  && match get_ui_field_behaviour hook_class with
     | Some (Raise _) => false
     | _ => true
     end.

(** ** What the in-source scan registers *)

(** The record the descriptor file at [path] registers, if it
    registers one: the file loads, its manifest passes the schema and the
    record carries the first of the versions it lists. *)
Definition descriptor_record (E : Env) (path : string) : option ProviderInfo :=
  match yaml_safe_load E path with
  | Ok m =>
      if provider_schema_valid E m then
        match mf_versions m with
        | Some (v :: _) => Some {| version := v; provider_info := m |}
        | _ => None
        end
      else None
  | Raise _ => None
  end.




Definition add_in_source_dir (E : Env) (s : State) (rp : string * list string)
  : State :=
  add_provider_dir E (fst rp) s (snd rp).

(** A root holding [a-b/provider.yaml] and [a/b/provider.yaml], which
    load as manifests of versions "1.0" and "2.0". *)
Definition colliding_root : Dir :=
  MkDir []
    [("a-b", MkDir ["provider.yaml"] []);
     ("a", MkDir [] [("b", MkDir ["provider.yaml"] [])])].

Definition colliding_sources : Env := {|
  airflow_providers_path := Some [("/src/airflow/providers", colliding_root)];
  yaml_safe_load :=
    fun path =>
      if path =? "/src/airflow/providers/a-b/provider.yaml"
      then Ok (Sample.manifest "apache-airflow-providers-a-b" ["1.0"] [])
      else Ok (Sample.manifest "apache-airflow-providers-a-b" ["2.0"] []);
  provider_schema_valid := Sample.required_keys_present;
  customized_form_fields_schema_valid := fun _ => true;
  entry_points_with_dist := [];
  import_string := fun _ => None
|}.

(** A root holding [a/provider.yaml], which does not parse, and an
    installed distribution of the name derived for [a]. *)
Definition unreadable_source : Env := {|
  airflow_providers_path :=
    Some [("/src/airflow/providers", MkDir [] [("a", MkDir ["provider.yaml"] [])])];
  yaml_safe_load := fun _ => Raise YAMLError;
  provider_schema_valid := Sample.required_keys_present;
  customized_form_fields_schema_valid := fun _ => true;
  entry_points_with_dist :=
    [Sample.dist "apache-airflow-providers-a" "9.9"
       (Sample.manifest "apache-airflow-providers-a" ["1.0"] [])];
  import_string := fun _ => None
|}.

(** * Facts *)

(** ** Strings *)

Module StrFacts.

Lemma compare_refl (s : string) : String.compare s s = Eq.
Proof.
    induction s as [|a s IH]; simpl; [reflexivity|].
    unfold Ascii.compare. rewrite BinNat.N.compare_refl. exact IH.
Qed.

Lemma leb_refl (s : string) : (s <=? s) = true.
Proof. unfold String.leb. now rewrite compare_refl. Qed.

Lemma leb_false_flip (a b : string) : (a <=? b) = false -> (b <=? a) = true.
Proof.
    intros H. destruct (String.leb_total a b) as [H1|H1]; congruence.
Qed.

Lemma slice_from_app (a b : string) :
    PyStr.slice_from (String.length a) (a ++ b) = b.
Proof. induction a as [|c a IH]; simpl; auto. Qed.

Lemma replace_app (old new : ascii) (a b : string) :
    PyStr.replace old new (a ++ b)
    = (PyStr.replace old new a ++ PyStr.replace old new b)%string.
Proof. induction a as [|c a IH]; simpl; [reflexivity|]. now rewrite IH. Qed.

Lemma replace_absent (old new : ascii) (a : string) :
    PyStr.contains_char old a = false -> PyStr.replace old new a = a.
Proof.
    induction a as [|c a IH]; simpl; [reflexivity|].
    intros H. apply orb_false_iff in H. destruct H as [H1 H2].
    rewrite H1. now rewrite IH.
Qed.

Lemma append_assoc (a b c : string) : ((a ++ b) ++ c = a ++ (b ++ c))%string.
Proof. induction a as [|x a IH]; simpl; [reflexivity|]. now rewrite IH. Qed.

Lemma append_empty_r (a : string) : (a ++ "")%string = a.
Proof. induction a as [|x a IH]; simpl; [reflexivity|]. now rewrite IH. Qed.

Lemma endswith_char_app (c : ascii) (a b : string) :
    b <> "" -> PyStr.endswith_char c (a ++ b) = PyStr.endswith_char c b.
Proof.
    intros Hb. induction a as [|x a IH]; simpl; [reflexivity|].
    destruct (a ++ b)%string eqn:Hab.
    - destruct a; simpl in Hab; [congruence|discriminate].
    - exact IH.
Qed.

Lemma endswith_char_absent (c : ascii) (a : string) :
    PyStr.contains_char c a = false -> PyStr.endswith_char c a = false.
Proof.
    induction a as [|x a IH]; simpl; [reflexivity|].
    intros H. apply orb_false_iff in H. destruct H as [H1 H2].
    destruct a; [exact H1|]. now apply IH.
Qed.

Lemma startswith_sep_absent (a : string) :
    PyStr.contains_char OsPath.sep a = false ->
    PyStr.startswith a (String OsPath.sep "") = false.
Proof.
    destruct a as [|x a]; [reflexivity|].
    intros H. cbn [PyStr.contains_char] in H.
    apply orb_false_iff in H. destruct H as [H1 _].
    unfold PyStr.startswith. cbn [String.prefix].
    destruct (ascii_dec OsPath.sep x) as [e|n]; [|reflexivity].
    subst x. now rewrite Ascii.eqb_refl in H1.
Qed.

Lemma app_nonempty (a b : string) : a <> "" -> (a ++ b)%string <> "".
Proof. destruct a; simpl; congruence. Qed.

  (** [os.path.join] of a proper directory path and a plain name. *)
Lemma join_plain (a b : string) :
    a <> "" ->
    PyStr.endswith_char OsPath.sep a = false ->
    PyStr.contains_char OsPath.sep b = false ->
    OsPath.join a b = (a ++ String OsPath.sep b)%string.
Proof.
    intros Ha He Hb. unfold OsPath.join.
    rewrite (startswith_sep_absent b Hb).
    apply String.eqb_neq in Ha. rewrite Ha, He. reflexivity.
Qed.

End StrFacts.

(** ** Dictionaries *)

Module DictFacts.

Section WithValue.
Context {V : Type}.
Implicit Types (d : Dict.t V) (k : string) (v : V).

Lemma mem_get k d : Dict.mem k d = true <-> exists v, Dict.get k d = Some v.
Proof.
      unfold Dict.mem. destruct (Dict.get k d) as [v|].
      - split; eauto.
      - split; [discriminate|]. intros [v H]. discriminate.
Qed.

Lemma not_mem_get k d : Dict.mem k d = false <-> Dict.get k d = None.
Proof.
      unfold Dict.mem. destruct (Dict.get k d); split; congruence.
Qed.

Lemma get_in_keys k d v : Dict.get k d = Some v -> In k (Dict.keys d).
Proof.
      induction d as [|[k' v'] d IH]; simpl; [discriminate|].
      destruct (String.eqb_spec k' k); auto.
Qed.

Lemma get_none_keys k d : Dict.get k d = None <-> ~ In k (Dict.keys d).
Proof.
      induction d as [|[k' v'] d IH]; simpl.
      - tauto.
      - destruct (String.eqb_spec k' k).
        + split; [discriminate|]. intros H. exfalso. auto.
        + rewrite IH. tauto.
Qed.

Lemma get_setitem_same k v d : Dict.get k (Dict.setitem k v d) = Some v.
Proof.
      induction d as [|[k' v'] d IH]; simpl.
      - now rewrite String.eqb_refl.
      - destruct (String.eqb_spec k' k) as [e|n]; simpl.
        + now rewrite String.eqb_refl.
        + apply String.eqb_neq in n. now rewrite n.
Qed.

Lemma get_setitem_other k k' v d :
      k <> k' -> Dict.get k' (Dict.setitem k v d) = Dict.get k' d.
Proof.
      intros Hne. induction d as [|[k0 v0] d IH]; simpl.
      - apply String.eqb_neq in Hne. now rewrite Hne.
      - destruct (String.eqb_spec k0 k) as [e|n]; simpl.
        + subst k0. apply String.eqb_neq in Hne. now rewrite Hne.
        + destruct (String.eqb_spec k0 k'); auto.
Qed.

Lemma keys_setitem_fresh k v d :
      Dict.get k d = None -> Dict.keys (Dict.setitem k v d) = Dict.keys d ++ [k].
Proof.
      induction d as [|[k0 v0] d IH]; simpl; [reflexivity|].
      destruct (String.eqb_spec k0 k) as [e|n]; [discriminate|].
      intros H. simpl. f_equal. now apply IH.
Qed.

Lemma keys_setitem_present k v d :
      Dict.mem k d = true -> Dict.keys (Dict.setitem k v d) = Dict.keys d.
Proof.
      unfold Dict.mem.
      induction d as [|[k0 v0] d IH]; simpl; [discriminate|].
      destruct (String.eqb_spec k0 k) as [e|n]; simpl.
      - now subst.
      - intros H. f_equal. now apply IH.
Qed.

Lemma NoDup_keys_setitem k v d :
      NoDup (Dict.keys d) -> NoDup (Dict.keys (Dict.setitem k v d)).
Proof.
      intros Hd. destruct (Dict.get k d) eqn:Hg.
      - rewrite keys_setitem_present; [assumption|].
        apply mem_get. eauto.
      - rewrite keys_setitem_fresh by assumption.
        apply NoDup_app; [assumption|repeat constructor; auto|].
        intros x Hx [Hk|[]]. subst x.
        apply get_none_keys in Hg. contradiction.
Qed.

    (** Sorting keeps what every key is bound to. *)
Lemma get_insert_item k x d :
      Dict.get k (Dict.insert_item x d) = Dict.get k (x :: d).
Proof.
      destruct x as [kx vx].
      induction d as [|[k0 v0] d IH]; [reflexivity|].
      simpl Dict.insert_item.
      destruct (kx <=? k0) eqn:Hle; [reflexivity|].
      change (Dict.get k ((k0, v0) :: Dict.insert_item (kx, vx) d))
        with (if k0 =? k then Some v0 else Dict.get k (Dict.insert_item (kx, vx) d)).
      rewrite IH. simpl.
      destruct (String.eqb_spec k0 k) as [e0|n0];
        destruct (String.eqb_spec kx k) as [ex|nx]; try reflexivity.
      subst. now rewrite StrFacts.leb_refl in Hle.
Qed.

Lemma get_sorted_items k d : Dict.get k (Dict.sorted_items d) = Dict.get k d.
Proof.
      induction d as [|[k0 v0] d IH]; [reflexivity|].
      simpl Dict.sorted_items. rewrite get_insert_item. simpl. now rewrite IH.
Qed.




End WithValue.

End DictFacts.

(** ** Sorted enumerations *)

Module SortFacts.

Lemma HdRel_insert_sorted a x l :
    (a <=? x) = true ->
    HdRel (fun a b => (a <=? b) = true) a l ->
    HdRel (fun a b => (a <=? b) = true) a (StrSet.insert_sorted x l).
Proof.
    intros Hax Hl. destruct l as [|y l]; simpl.
    - now constructor.
    - destruct (x <=? y); constructor; auto. now inversion Hl.
Qed.

Lemma insert_sorted_lexicographic x l :
    lexicographic l -> lexicographic (StrSet.insert_sorted x l).
Proof.
    unfold lexicographic. induction l as [|y l IH]; simpl; intros Hs.
    - repeat constructor.
    - destruct (x <=? y) eqn:Hle.
      + constructor; [assumption|]. now constructor.
      + inversion Hs; subst. constructor; [now apply IH|].
        apply HdRel_insert_sorted; [|assumption].
        now apply StrFacts.leb_false_flip.
Qed.

Lemma sorted_lexicographic (s : StrSet.t) : lexicographic (StrSet.sorted s).
Proof.
    induction s as [|x s IH]; simpl.
    - constructor.
    - now apply insert_sorted_lexicographic.
Qed.

Section WithValue.
Context {V : Type}.

Lemma keys_insert_item (x : string * V) (d : Dict.t V) :
      Dict.keys (Dict.insert_item x d) = StrSet.insert_sorted (fst x) (Dict.keys d).
Proof.
      induction d as [|y d IH]; simpl; [reflexivity|].
      destruct (fst x <=? fst y); simpl; [reflexivity|]. now rewrite IH.
Qed.

Lemma keys_sorted_items (d : Dict.t V) :
      Dict.keys (Dict.sorted_items d) = StrSet.sorted (Dict.keys d).
Proof.
      induction d as [|y d IH]; simpl; [reflexivity|].
      rewrite keys_insert_item. now rewrite IH.
Qed.

Lemma sorted_items_lexicographic (d : Dict.t V) :
      lexicographic (Dict.keys (Dict.sorted_items d)).
Proof. rewrite keys_sorted_items. apply sorted_lexicographic. Qed.

End WithValue.

End SortFacts.

(** ** Induction on directory trees *)

Lemma Dir_induction (P : Dir -> Prop) :
  (forall files subdirs,
      Forall (fun e => P (snd e)) subdirs -> P (MkDir files subdirs)) ->
  forall d, P d.
Proof.
  intros step. fix IH 1. intros [files subdirs]. apply step.
  induction subdirs as [|[name sub] l IHl]; constructor.
  - apply IH.
  - exact IHl.
Qed.

Lemma fold_left_invariant {A : Type} (P : State -> Prop)
  (f : State -> A -> State) (l : list A) :
  (forall s x, In x l -> P s -> P (f s x)) ->
  forall s, P s -> P (fold_left f l s).
Proof.
  induction l as [|x l IH]; simpl; intros Hf s Hs; [assumption|].
  apply IH; auto.
Qed.

(** ** What the in-source scan can change *)

Section InSourceInvariant.

Variable E : Env.
Variable P : State -> Prop.

Hypothesis P_emit :
  forall r s,
    from_decorator r = false -> from_package_scan r = false ->
    P s -> P (emit r s).

Hypothesis P_insert :
  forall k v s,
    Dict.get k (_provider_dict s) = None -> from_source E v ->
    P s -> P (set_provider_dict (Dict.setitem k v (_provider_dict s)) s).

Lemma add_local_source_file_invariant path package_name s :
  P s -> P (_add_provider_info_from_local_source_file E path package_name s).
Proof.
  intros Hs. unfold _add_provider_info_from_local_source_file.
  set (s0 := emit (DebugLoadingFromSource package_name path) s).
  assert (Hs0 : P s0) by (apply P_emit; auto).
  destruct (yaml_safe_load E path) as [m|e] eqn:Hload; [|apply P_emit; auto].
  destruct (provider_schema_valid E m) eqn:Hvalid; cbn [negb];
    [|apply P_emit; auto].
  destruct (mf_versions m) as [[|v rest]|] eqn:Hv; try (apply P_emit; auto).
  destruct (Dict.mem package_name (_provider_dict s0)) eqn:Hmem; cbn [negb];
    [apply P_emit; auto|].
  apply P_insert; [now apply DictFacts.not_mem_get| |assumption].
  exists path, rest. simpl. auto.
Qed.

Lemma walk_local_source_files_invariant root_path d :
  forall folder s, P s -> P (walk_local_source_files E root_path folder d s).
Proof.
  induction d as [files subdirs IH] using Dir_induction.
  intros folder s Hs. simpl.
  set (s1 := fold_left _ (fnmatch_filter files "provider.yaml") s).
  assert (Hs1 : P s1).
  { apply fold_left_invariant; [|assumption].
    intros; now apply add_local_source_file_invariant. }
  destruct (fnmatch_filter files "provider.yaml"); [|assumption].
  apply fold_left_invariant; [|assumption].
  intros s2 e He Hs2. rewrite Forall_forall in IH. now apply IH.
Qed.

Lemma discover_local_sources_invariant s :
  P s -> P (_discover_all_airflow_builtin_providers_from_local_sources E s).
Proof.
  intros Hs. unfold _discover_all_airflow_builtin_providers_from_local_sources.
  destruct (airflow_providers_path E) as [paths|]; [|apply P_emit; auto].
  apply fold_left_invariant; [|assumption].
  intros s' [path d] _ Hs'. now apply walk_local_source_files_invariant.
Qed.

End InSourceInvariant.

(** ** What the installed-package scan can change *)

Section PackageInvariant.

Variable E : Env.
Variable P : State -> Prop.
Variable dists : list Distribution.

Hypothesis P_emit :
  forall r s, from_decorator r = false -> P s -> P (emit r s).

Hypothesis P_insert :
  forall k v s,
    Dict.get k (_provider_dict s) = None -> from_package E dists k v ->
    P s -> P (set_provider_dict (Dict.setitem k v (_provider_dict s)) s).

Lemma load_provider_from_package_invariant dist s :
  In dist dists -> P s -> P (fst (load_provider_from_package E dist s)).
Proof.
  intros Hin Hs. unfold load_provider_from_package.
  destruct (Dict.get (dist_name dist) (_provider_dict s)) eqn:Hget; [assumption|].
  set (s0 := emit (DebugLoadingFromPackage (dist_name dist)) s).
  assert (Hs0 : P s0) by (apply P_emit; auto).
  destruct (entry_point_load dist) as [m|e] eqn:Hload; [|assumption].
  destruct (provider_schema_valid E m) eqn:Hvalid; cbn [negb fst]; [|assumption].
  destruct (mf_package_name m) as [name|] eqn:Hname; [|assumption].
  destruct (String.eqb_spec (dist_name dist) name) as [e|n]; cbn [negb fst];
    [|assumption].
  destruct (Dict.mem (dist_name dist) (_provider_dict s0)) eqn:Hmem;
    cbn [negb fst]; [apply P_emit; auto|].
  apply P_insert; [exact Hget| |assumption].
  exists dist. simpl. subst name. auto 10.
Qed.

Lemma for_each_package_invariant l s :
  incl l dists -> P s -> P (fst (for_each (load_provider_from_package E) l s)).
Proof.
  revert s. induction l as [|dist l IH]; intros s Hincl Hs; [assumption|].
  simpl. unfold bind.
  pose proof (load_provider_from_package_invariant dist s
                (Hincl dist (or_introl eq_refl)) Hs) as Hstep.
  destruct (load_provider_from_package E dist s) as [s' [[]|e]]; [|assumption].
  apply IH; [|assumption]. intros x Hx. apply Hincl. now right.
Qed.

End PackageInvariant.

(** ** The installed-package scan *)

Lemma for_each_app {A : Type} (body : A -> M unit) (l1 l2 : list A) (s : State) :
  for_each body (l1 ++ l2) s
  = match for_each body l1 s with
    | (s', Ok _) => for_each body l2 s'
    | (s', Raise e) => (s', Raise e)
    end.
Proof.
  revert s. induction l1 as [|x l1 IH]; intros s; simpl; [reflexivity|].
  unfold bind. destruct (body x s) as [s' [[]|e]]; [apply IH|reflexivity].
Qed.

(** The list procedure, when its flag is not set: the two scans in
    order, then the sort and the flag, unless the package scan raised. *)
Lemma initialize_providers_list_unfold E s :
  Dict.mem "list" (_initialized_cache s) = false ->
  initialize_providers_list E s
  = match
      _discover_all_providers_from_packages E
        (_discover_all_airflow_builtin_providers_from_local_sources E
           (emit (DebugInitializing "list") s))
    with
    | (s2, Ok _) =>
        (emit (DebugInitialized "list")
           (set_initialized_cache
              (Dict.setitem "list" true (_initialized_cache s2))
              (set_provider_dict (Dict.sorted_items (_provider_dict s2)) s2)),
         Ok tt)
    | (s2, Raise e) => (s2, Raise e)
    end.
Proof.
  intros Hflag. unfold initialize_providers_list, provider_info_cache.
  rewrite Hflag. unfold bind, lift.
  destruct (_discover_all_providers_from_packages E _) as [s2 [[]|e]]; reflexivity.
Qed.

(** The package scan keeps every binding the table already has. *)
Lemma packages_keep_binding E n r l s :
  Dict.get n (_provider_dict s) = Some r ->
  Dict.get n (_provider_dict (fst (for_each (load_provider_from_package E) l s)))
  = Some r.
Proof.
  intros Hget.
  apply (for_each_package_invariant E
           (fun s' => Dict.get n (_provider_dict s') = Some r) l);
    auto using incl_refl.
  intros k v s' Hk _ Hs'. simpl.
  rewrite DictFacts.get_setitem_other; [assumption|]. congruence.
Qed.



Lemma count_occ_unique (l : list string) (n : string) :
  NoDup l -> In n l -> count_occ string_dec l n = 1.
Proof.
  intros Hnd Hin.
  pose proof (proj1 (NoDup_count_occ string_dec l) Hnd n) as Hle.
  pose proof (proj1 (count_occ_In string_dec l n) Hin) as Hpos. lia.
Qed.



(** C9.  A distribution whose name is already a key of the provider
    table is passed over with the registry, log included, exactly as it
    was: its entry point is not loaded and its manifest is neither
    validated nor compared with the name, so nothing about that manifest
    can raise, and the scan goes on with the distributions that follow. *)
Theorem C9_present_distribution_is_skipped E dist s :
  Dict.mem (dist_name dist) (_provider_dict s) = true ->
  load_provider_from_package E dist s = (s, Ok tt)
  /\ loads (dist_name dist) (fst (load_provider_from_package E dist s))
     = loads (dist_name dist) s
  /\ (forall l1 l2 s0,
         for_each (load_provider_from_package E) l1 s0 = (s, Ok tt) ->
         for_each (load_provider_from_package E) (l1 ++ dist :: l2) s0
         = for_each (load_provider_from_package E) l2 s).
Proof.
  intros Hmem.
  assert (Hstep : load_provider_from_package E dist s = (s, Ok tt)).
  { unfold load_provider_from_package.
    apply DictFacts.mem_get in Hmem. destruct Hmem as [v Hv].
    now rewrite Hv. }
  split; [exact Hstep|]. split; [now rewrite Hstep|].
  intros l1 l2 s0 Hl1. rewrite for_each_app, Hl1.
  simpl. unfold bind. now rewrite Hstep.
Qed.

Lemma C9_witness :
  let E := Sample.name_mismatch in
  let dist := {| dist_name := "svc"; dist_version := "1.0";
                 entry_point_load := Raise ImportError |} in
  let s := set_provider_dict
             [("svc", {| version := "0.1";
                         provider_info := Sample.manifest "svc" ["0.1"] [] |})]
             __init__ in
  load_provider_from_package E dist s = (s, Ok tt)
  /\ loads (dist_name dist) (fst (load_provider_from_package E dist s))
     = loads (dist_name dist) s
  /\ (forall l1 l2 s0,
         for_each (load_provider_from_package E) l1 s0 = (s, Ok tt) ->
         for_each (load_provider_from_package E) (l1 ++ dist :: l2) s0
         = for_each (load_provider_from_package E) l2 s).
Proof.
  intros E dist s.
  apply (C9_present_distribution_is_skipped E dist s). reflexivity.
Defined.

(** Every binding the package scan adds is built from a distribution. *)
Lemma packages_new_binding E l s n r :
  Dict.get n (_provider_dict (fst (for_each (load_provider_from_package E) l s)))
  = Some r ->
  Dict.get n (_provider_dict s) = Some r \/ from_package E l n r.
Proof.
  revert n r.
  apply (for_each_package_invariant E
           (fun s' => forall n r,
                Dict.get n (_provider_dict s') = Some r ->
                Dict.get n (_provider_dict s) = Some r \/ from_package E l n r) l);
    auto using incl_refl.
  intros k v s' Hk Hv Hs' n r. simpl.
  destruct (string_dec k n) as [e|ne].
  - subst k. rewrite DictFacts.get_setitem_same. intros [= <-]. now right.
  - rewrite DictFacts.get_setitem_other by assumption. apply Hs'.
Qed.

(** Every binding the in-source scan adds is built from a descriptor. *)
Lemma local_sources_new_binding E s n r :
  Dict.get n
    (_provider_dict
       (_discover_all_airflow_builtin_providers_from_local_sources E s)) = Some r ->
  Dict.get n (_provider_dict s) = Some r \/ from_source E r.
Proof.
  revert n r.
  apply (discover_local_sources_invariant E
           (fun s' => forall n r,
                Dict.get n (_provider_dict s') = Some r ->
                Dict.get n (_provider_dict s) = Some r \/ from_source E r));
    auto.
  intros k v s' Hk Hv Hs' n r. simpl.
  destruct (string_dec k n) as [e|ne].
  - subst k. rewrite DictFacts.get_setitem_same. intros [= <-]. now right.
  - rewrite DictFacts.get_setitem_other by assumption. apply Hs'.
Qed.

(** C10.  A record that the installed-package scan adds to the provider
    table under a name carries the version of a distribution of that name
    ([dist.version]) next to the manifest its entry point returned; the
    [versions] of that manifest are not consulted.  A record that the
    in-source scan adds carries the first entry of the [versions] of its
    own manifest. *)
Theorem C10_stored_version E s n r :
  Dict.get n (_provider_dict s) = None ->
  (Dict.get n
     (_provider_dict (fst (_discover_all_providers_from_packages E s))) = Some r ->
   exists dist,
     In dist (entry_points_with_dist E)
     /\ dist_name dist = n
     /\ entry_point_load dist = Ok (provider_info r)
     /\ version r = dist_version dist)
  /\ (Dict.get n
        (_provider_dict
           (_discover_all_airflow_builtin_providers_from_local_sources E s))
      = Some r ->
      exists rest, mf_versions (provider_info r) = Some (version r :: rest)).
Proof.
  intros Hnew. split; intros Hget.
  - apply packages_new_binding in Hget. destruct Hget as [Hold|Hpkg]; [congruence|].
    destruct Hpkg as (dist & Hin & Hname & Hload & _ & _ & Hver).
    exists dist. auto.
  - apply local_sources_new_binding in Hget.
    destruct Hget as [Hold|Hsrc]; [congruence|].
    destruct Hsrc as (path & rest & _ & _ & Hver). now exists rest.
Qed.

Lemma C10_witness :
  let E :=
    Sample.installed
      [Sample.dist "svc" "9.9" (Sample.manifest "svc" ["1.0"] [])] (fun _ => None) in
  let r := {| version := "9.9"; provider_info := Sample.manifest "svc" ["1.0"] [] |} in
  exists dist,
    In dist (entry_points_with_dist E)
    /\ dist_name dist = "svc"
    /\ entry_point_load dist = Ok (provider_info r)
    /\ version r = dist_version dist.
Proof.
  intros E r.
  apply (proj1 (C10_stored_version E __init__ "svc" r eq_refl)). reflexivity.
Defined.

(** ** Fatal and recovered failures of discovery *)

(** What the body of the package loop does for a distribution that is
    not yet in the table. *)
Lemma load_provider_from_package_absent E dist s :
  Dict.get (dist_name dist) (_provider_dict s) = None ->
  load_provider_from_package E dist s
  = let s0 := emit (DebugLoadingFromPackage (dist_name dist)) s in
    match entry_point_load dist with
    | Raise e => (s0, Raise e)
    | Ok m =>
        if provider_schema_valid E m then
          match mf_package_name m with
          | None => (s0, Raise (KeyError "package-name"))
          | Some name =>
              if dist_name dist =? name then
                (set_provider_dict
                   (Dict.setitem (dist_name dist)
                      {| version := dist_version dist; provider_info := m |}
                      (_provider_dict s)) s0,
                 Ok tt)
              else (s0, Raise (PackageNameMismatch (dist_name dist) name))
          end
        else (s0, Raise ValidationError)
    end.
Proof.
  intros Hget. unfold load_provider_from_package. rewrite Hget. cbv zeta.
  destruct (entry_point_load dist) as [m|e]; [|reflexivity].
  destruct (provider_schema_valid E m); cbn [negb]; [|reflexivity].
  destruct (mf_package_name m) as [name|]; [|reflexivity].
  destruct (dist_name dist =? name); cbn [negb]; [|reflexivity].
  cbn [_provider_dict emit]. unfold Dict.mem. rewrite Hget. reflexivity.
Qed.

(** A raise in the list procedure leaves the procedure unflagged and
    comes out of every accessor. *)
Lemma for_each_raise {A : Type} (body : A -> M unit) x l s s' e :
  body x s = (s', Raise e) -> for_each body (x :: l) s = (s', Raise e).
Proof. intros H. simpl. unfold bind. now rewrite H. Qed.

(** The claim C4 makes about schema violations fails: the manifest of the
    only distribution names the distribution, so there is no name
    mismatch, yet its schema violation comes out of [providers] as an
    exception, and no provider list is returned. *)
Lemma C4_schema_violation_is_fatal :
  (forall dist m,
      In dist (entry_points_with_dist Sample.schema_violation) ->
      entry_point_load dist = Ok m ->
      mf_package_name m = Some (dist_name dist))
  /\ snd (providers Sample.schema_violation __init__) = Raise ValidationError.
Proof.
  split; [|reflexivity].
  intros dist m [<-|[]]. simpl. now intros [= <-].
Qed.

(** C4, amended.  In the installed-package scan a distribution that is
    not yet in the provider table aborts the scan, the distributions after
    it untouched, when its manifest names another package; it does so as
    well when its manifest violates the schema and when its entry point
    raises; a distribution whose name is already in the table is passed
    over.  In the in-source scan a descriptor that fails to load or
    violates the schema, and a name that is already in the table, are
    logged as a warning and leave the table as it was.  An exception of
    the package scan comes out of the list procedure and of [providers]
    with the registry as the scan left it. *)
Theorem C4_fatal_and_recovered E :
  (forall dist s l,
      Dict.get (dist_name dist) (_provider_dict s) = None ->
      let s0 := emit (DebugLoadingFromPackage (dist_name dist)) s in
      (forall m name,
          entry_point_load dist = Ok m ->
          mf_package_name m = Some name ->
          name <> dist_name dist ->
          for_each (load_provider_from_package E) (dist :: l) s
          = (s0, Raise (if provider_schema_valid E m
                        then PackageNameMismatch (dist_name dist) name
                        else ValidationError)))
      /\ (forall m,
             entry_point_load dist = Ok m ->
             provider_schema_valid E m = false ->
             for_each (load_provider_from_package E) (dist :: l) s
             = (s0, Raise ValidationError))
      /\ (forall e,
             entry_point_load dist = Raise e ->
             for_each (load_provider_from_package E) (dist :: l) s
             = (s0, Raise e)))
  /\ (forall dist s,
         Dict.mem (dist_name dist) (_provider_dict s) = true ->
         load_provider_from_package E dist s = (s, Ok tt))
  /\ (forall path package_name s,
         (exists e, yaml_safe_load E path = Raise e)
         \/ (exists m, yaml_safe_load E path = Ok m
                       /\ provider_schema_valid E m = false)
         \/ Dict.mem package_name (_provider_dict s) = true ->
         let s' := _add_provider_info_from_local_source_file E path package_name s in
         _provider_dict s' = _provider_dict s
         /\ exists w,
              log_records s'
              = w :: DebugLoadingFromSource package_name path :: log_records s
              /\ (w = WarnProviderAlreadyRegistered package_name
                  \/ exists e, w = WarnErrorWhenLoading path e))
  /\ (forall s s2 e,
         Dict.mem "list" (_initialized_cache s) = false ->
         _discover_all_providers_from_packages E
           (_discover_all_airflow_builtin_providers_from_local_sources E
              (emit (DebugInitializing "list") s)) = (s2, Raise e) ->
         initialize_providers_list E s = (s2, Raise e)
         /\ providers E s = (s2, Raise e)).
Proof.
  split; [|split; [|split]].
  - intros dist s l Hget s0. repeat split.
    + intros m name Hload Hname Hne. apply for_each_raise.
      rewrite load_provider_from_package_absent by assumption.
      fold s0. cbv zeta. rewrite Hload.
      destruct (provider_schema_valid E m); [|reflexivity].
      rewrite Hname.
      destruct (String.eqb_spec (dist_name dist) name); [congruence|reflexivity].
    + intros m Hload Hvalid. apply for_each_raise.
      rewrite load_provider_from_package_absent by assumption.
      fold s0. cbv zeta. now rewrite Hload, Hvalid.
    + intros e Hload. apply for_each_raise.
      rewrite load_provider_from_package_absent by assumption.
      fold s0. cbv zeta. now rewrite Hload.
  - intros dist s Hmem. unfold load_provider_from_package.
    apply DictFacts.mem_get in Hmem. destruct Hmem as [v Hv]. now rewrite Hv.
  - intros path package_name s H s'. subst s'.
    unfold _add_provider_info_from_local_source_file. cbv zeta.
    cbn [_provider_dict emit].
    destruct (yaml_safe_load E path) as [m|e] eqn:Hload.
    + destruct (provider_schema_valid E m) eqn:Hvalid; cbn [negb].
      * destruct H as [[e He]|[(m' & Hm' & Hv')|Hmem]]; try congruence.
        rewrite Hmem. cbn [negb].
        destruct (mf_versions m) as [[|v rest]|]; cbn; eauto 10.
      * cbn. eauto 10.
    + cbn. eauto 10.
  - intros s s2 e Hflag Hraise.
    assert (Hlist : initialize_providers_list E s = (s2, Raise e)).
    { rewrite initialize_providers_list_unfold by assumption. now rewrite Hraise. }
    split; [exact Hlist|]. unfold providers, bind. now rewrite Hlist.
Qed.

Lemma C4_witness :
  let E := Sample.name_mismatch in
  let dist := Sample.dist "svc" "1.0" (Sample.manifest "other" ["1.0"] []) in
  for_each (load_provider_from_package E) [dist] __init__
  = (emit (DebugLoadingFromPackage "svc") __init__,
     Raise (PackageNameMismatch "svc" "other")).
Proof.
  intros E dist.
  apply (proj1 (proj1 (C4_fatal_and_recovered E) dist __init__ [] eq_refl)
           (Sample.manifest "other" ["1.0"] []) "other" eq_refl eq_refl).
  discriminate.
Defined.

(** ** What the extraction passes can change *)

Section SanityCheckInvariant.

Variable E : Env.
Variable P : State -> Prop.

Hypothesis P_emit :
  forall r s,
    from_decorator r = false -> from_package_scan r = false ->
    P s -> P (emit r s).

Lemma sanity_check_invariant provider_package class_name s :
  P s -> P (fst (_sanity_check E provider_package class_name s)).
Proof.
  intros Hs. unfold _sanity_check.
  destruct (PyStr.startswith provider_package "apache-airflow" && _);
    [apply P_emit; auto|].
  destruct (import_string E class_name); [assumption|apply P_emit; auto].
Qed.

Section ClassNames.

Variable key : Manifest -> option (list string).
Variable checked : string -> string.
Variable get_set : State -> StrSet.t.
Variable put_set : StrSet.t -> State -> State.

Hypothesis P_put : forall v s, P s -> P (put_set v s).

Lemma discover_class_names_invariant s :
  P s -> P (discover_class_names E key checked get_set put_set s).
Proof.
  unfold discover_class_names. generalize (_provider_dict s).
  intros items Hs. apply fold_left_invariant; [|assumption].
  intros s1 item _ Hs1. apply fold_left_invariant; [|assumption].
  intros s2 class_name _ Hs2.
  pose proof (sanity_check_invariant (fst item) (checked class_name) s2 Hs2) as H.
  destruct (_sanity_check E (fst item) (checked class_name) s2) as [s3 []];
    cbn [fst] in H; auto.
Qed.

End ClassNames.

Section Hooks.

Hypothesis P_hooks : forall v s, P s -> P (set_hooks_dict v s).
Hypothesis P_widgets : forall v s, P s -> P (set_connection_form_widgets v s).
Hypothesis P_behaviours : forall v s, P s -> P (set_field_behaviours v s).

Lemma hook_exception_invariant hook_class_name provider_package e s :
  P s -> P (hook_exception hook_class_name provider_package e s).
Proof. intros Hs. destruct e; simpl; apply P_emit; auto. Qed.

Lemma add_widgets_invariant package_name hook_class widgets s :
  P s -> P (_add_widgets package_name hook_class widgets s).
Proof.
  intros Hs. unfold _add_widgets. apply fold_left_invariant; [|assumption].
  intros s1 [field_name field] _ Hs1. unfold add_widget.
  destruct (PyStr.startswith field_name "extra__"); cbn [negb];
    [|apply P_emit; auto].
  destruct (Dict.mem field_name (_connection_form_widgets s1));
    [apply P_emit; auto|now apply P_widgets].
Qed.

Lemma add_customized_fields_invariant package_name hook_class doc s :
  P s -> P (_add_customized_fields E package_name hook_class doc s).
Proof.
  intros Hs. unfold _add_customized_fields.
  destruct (conn_type hook_class) as [connection_type|]; [|apply P_emit; auto].
  destruct (customized_form_fields_schema_valid E doc); cbn [negb];
    [|apply P_emit; auto].
  destruct (Dict.mem connection_type (_field_behaviours s));
    [apply P_emit; auto|now apply P_behaviours].
Qed.

Lemma hook_widgets_invariant hook_class_name provider_package hook_class s :
  P s -> P (fst (hook_widgets hook_class_name provider_package hook_class s)).
Proof.
  intros Hs. unfold hook_widgets.
  destruct (get_connection_form_widgets hook_class) as [[widgets|e]|];
    cbn [fst]; [| now apply hook_exception_invariant | assumption].
  destruct widgets as [|item widgets]; [assumption|].
  destruct (find _ _); cbn [fst];
    [apply P_emit; auto|now apply add_widgets_invariant].
Qed.

Lemma hook_field_behaviours_invariant hook_class_name provider_package hook_class s :
  P s ->
  P (fst (hook_field_behaviours E hook_class_name provider_package hook_class s)).
Proof.
  intros Hs. unfold hook_field_behaviours.
  destruct (get_ui_field_behaviour hook_class) as [[doc|e]|];
    cbn [fst]; [| now apply hook_exception_invariant | assumption].
  destruct (json_truthy doc); cbn [fst];
    [now apply add_customized_fields_invariant|assumption].
Qed.

Lemma get_attr_invariant obj attr_name s :
  P s -> P (fst (_get_attr obj attr_name s)).
Proof.
  intros Hs. unfold _get_attr.
  destruct (getattr obj attr_name); cbn [fst]; [assumption|apply P_emit; auto].
Qed.

Lemma register_hook_invariant hook_class_name provider_package hook_class s :
  P s -> P (register_hook hook_class_name provider_package hook_class s).
Proof.
  intros Hs. unfold register_hook.
  pose proof (get_attr_invariant hook_class "conn_type" s Hs) as H1.
  destruct (_get_attr hook_class "conn_type" s) as [s1 a1]; cbn [fst] in H1.
  pose proof (get_attr_invariant hook_class "conn_name_attr" s1 H1) as H2.
  destruct (_get_attr hook_class "conn_name_attr" s1) as [s2 a2]; cbn [fst] in H2.
  pose proof (get_attr_invariant hook_class "hook_name" s2 H2) as H3.
  destruct (_get_attr hook_class "hook_name" s2) as [s3 a3]; cbn [fst] in H3.
  destruct a1 as [c|]; [|assumption].
  destruct a2 as [a|]; [|assumption].
  destruct a3 as [h|]; [|assumption].
  destruct (negb (PyStr.truthy c) || negb (PyStr.truthy a) || negb (PyStr.truthy h));
    [assumption|now apply P_hooks].
Qed.

Lemma add_hook_invariant hook_class_name provider_package s :
  P s -> P (_add_hook E hook_class_name provider_package s).
Proof.
  intros Hs. unfold _add_hook.
  pose proof (sanity_check_invariant provider_package hook_class_name s Hs) as H0.
  destruct (_sanity_check E provider_package hook_class_name s) as [s0 ok];
    cbn [fst] in H0.
  destruct ok; cbn [negb]; [|assumption].
  destruct (Dict.mem hook_class_name (_hooks_dict s0)); [apply P_emit; auto|].
  destruct (import_string E hook_class_name) as [hook_class|];
    [|now apply hook_exception_invariant].
  pose proof (hook_widgets_invariant hook_class_name provider_package
                hook_class s0 H0) as H1.
  destruct (hook_widgets hook_class_name provider_package hook_class s0)
    as [s1 go1]; cbn [fst] in H1.
  destruct go1; cbn [negb]; [|assumption].
  pose proof (hook_field_behaviours_invariant hook_class_name provider_package
                hook_class s1 H1) as H2.
  destruct (hook_field_behaviours E hook_class_name provider_package hook_class s1)
    as [s2 go2]; cbn [fst] in H2.
  destruct go2; cbn [negb]; [|assumption].
  now apply register_hook_invariant.
Qed.

Lemma discover_hooks_invariant s : P s -> P (_discover_hooks E s).
Proof.
  unfold _discover_hooks. generalize (_provider_dict s).
  intros items Hs. apply fold_left_invariant; [|assumption].
  intros s1 item _ Hs1. apply fold_left_invariant; [|assumption].
  intros s2 hook_class_name _ Hs2. now apply add_hook_invariant.
Qed.

End Hooks.

End SanityCheckInvariant.

(** ** Widgets *)

Lemma add_widget_keeps package_name hook_class s item k v :
  Dict.get k (_connection_form_widgets s) = Some v ->
  Dict.get k (_connection_form_widgets (add_widget package_name hook_class s item))
  = Some v.
Proof.
  intros Hget. destruct item as [field_name field]. unfold add_widget.
  destruct (PyStr.startswith field_name "extra__"); cbn [negb]; [|exact Hget].
  destruct (Dict.mem field_name (_connection_form_widgets s)) eqn:Hmem;
    [exact Hget|].
  cbn [_connection_form_widgets set_connection_form_widgets].
  rewrite DictFacts.get_setitem_other; [exact Hget|].
  apply DictFacts.not_mem_get in Hmem. congruence.
Qed.

Lemma add_widgets_keeps package_name hook_class widgets s k v :
  Dict.get k (_connection_form_widgets s) = Some v ->
  Dict.get k (_connection_form_widgets (_add_widgets package_name hook_class widgets s))
  = Some v.
Proof.
  unfold _add_widgets. revert s.
  induction widgets as [|item widgets IH]; intros s Hget; [exact Hget|].
  simpl. apply IH. now apply add_widget_keeps.
Qed.

(** What one step of the loop leaves under each key. *)
Lemma add_widget_get package_name hook_class s field_name field k :
  Dict.get k
    (_connection_form_widgets
       (add_widget package_name hook_class s (field_name, field)))
  = if PyStr.startswith field_name "extra__"
       && negb (Dict.mem field_name (_connection_form_widgets s))
       && (field_name =? k)
    then Some {| wi_connection_class := hc_name hook_class;
                 wi_package_name := package_name;
                 wi_field := field |}
    else Dict.get k (_connection_form_widgets s).
Proof.
  unfold add_widget.
  destruct (PyStr.startswith field_name "extra__"); cbn [negb andb]; [|reflexivity].
  destruct (Dict.mem field_name (_connection_form_widgets s)) eqn:Hmem;
    cbn [negb andb]; [reflexivity|].
  cbn [_connection_form_widgets set_connection_form_widgets].
  destruct (String.eqb_spec field_name k) as [e|n].
  - subst k. apply DictFacts.get_setitem_same.
  - now apply DictFacts.get_setitem_other.
Qed.

Lemma add_widgets_registers package_name hook_class widgets s field_name :
  In field_name (Dict.keys widgets) ->
  PyStr.startswith field_name "extra__" = true ->
  Dict.mem field_name
    (_connection_form_widgets (_add_widgets package_name hook_class widgets s))
  = true.
Proof.
  unfold _add_widgets. revert s.
  induction widgets as [|[k0 f0] widgets IH]; intros s Hin Hprefix; [destruct Hin|].
  simpl in Hin. cbn [fold_left]. destruct Hin as [->|Hin]; [|now apply IH].
  apply DictFacts.mem_get.
  pose proof (add_widget_get package_name hook_class s field_name f0 field_name)
    as Hstep.
  rewrite Hprefix, String.eqb_refl in Hstep. cbn [andb] in Hstep.
  destruct (Dict.mem field_name (_connection_form_widgets s)) eqn:Hmem;
    cbn [negb andb] in Hstep.
  - apply DictFacts.mem_get in Hmem. destruct Hmem as [v Hv].
    exists v. apply add_widgets_keeps. now rewrite Hstep.
  - eexists. apply add_widgets_keeps. exact Hstep.
Qed.

Lemma add_widgets_only_prefixed package_name hook_class widgets s field_name :
  Dict.mem field_name
    (_connection_form_widgets (_add_widgets package_name hook_class widgets s))
  = true ->
  Dict.mem field_name (_connection_form_widgets s) = true
  \/ (In field_name (Dict.keys widgets)
      /\ PyStr.startswith field_name "extra__" = true).
Proof.
  unfold _add_widgets. revert s.
  induction widgets as [|[k0 f0] widgets IH]; intros s Hmem; [now left|].
  cbn [fold_left] in Hmem. apply IH in Hmem. simpl.
  destruct Hmem as [Hmem|[Hin Hp]]; [|now auto].
  unfold Dict.mem in Hmem. rewrite add_widget_get in Hmem.
  destruct (PyStr.startswith k0 "extra__") eqn:Hp0; cbn [andb] in Hmem; [|now left].
  destruct (Dict.mem k0 (_connection_form_widgets s)); cbn [negb andb] in Hmem;
    [now left|].
  destruct (String.eqb_spec k0 field_name) as [e|n]; [|now left].
  subst k0. right. auto.
Qed.

Lemma add_widgets_new_record package_name hook_class widgets s field_name field :
  NoDup (Dict.keys widgets) ->
  In (field_name, field) widgets ->
  PyStr.startswith field_name "extra__" = true ->
  Dict.mem field_name (_connection_form_widgets s) = false ->
  Dict.get field_name
    (_connection_form_widgets (_add_widgets package_name hook_class widgets s))
  = Some {| wi_connection_class := hc_name hook_class;
            wi_package_name := package_name;
            wi_field := field |}.
Proof.
  unfold _add_widgets. revert s.
  induction widgets as [|[k0 f0] widgets IH]; intros s Hnd Hin Hp Hmem;
    [destruct Hin|].
  simpl in Hnd. inversion Hnd as [|? ? Hnotin Hnd']; subst.
  cbn [fold_left]. destruct Hin as [Heq|Hin].
  - injection Heq as -> ->. apply add_widgets_keeps.
    rewrite add_widget_get, Hp, Hmem, String.eqb_refl. reflexivity.
  - assert (Hne : k0 <> field_name).
    { intros ->. apply Hnotin. change field_name with (fst (field_name, field)).
      now apply in_map. }
    apply IH; auto.
    unfold Dict.mem. rewrite add_widget_get.
    apply String.eqb_neq in Hne. rewrite Hne, andb_false_r.
    apply DictFacts.not_mem_get in Hmem. now rewrite Hmem.
Qed.

Lemma find_none_forall {A : Type} (f : A -> bool) (l : list A) :
  (forall x, In x l -> f x = false) -> find f l = None.
Proof.
  induction l as [|x l IH]; intros H; [reflexivity|].
  simpl. rewrite (H x (or_introl eq_refl)). apply IH. intros; apply H. now right.
Qed.

Lemma find_some_exists {A : Type} (f : A -> bool) (l : list A) (x : A) :
  In x l -> f x = true -> exists y, find f l = Some y.
Proof.
  induction l as [|z l IH]; intros Hin Hx; [destruct Hin|].
  simpl. destruct (f z) eqn:Hz; [eauto|].
  destruct Hin as [->|Hin]; [congruence|auto].
Qed.

(** C7.  When every field of the widget set a hook class declares is of
    an allowed class, the widget step of [_add_hook] registers every field
    of the set whose name starts with [extra__], skips exactly the fields
    whose name does not, and goes on with the hook: after it a name is in
    the widget table only if it was there before or is a prefixed field of
    the set, and a prefixed field that was not there before is bound to
    the hook class, the package and its own field. *)
Theorem C7_prefix_filtering hook_class_name provider_package hook_class widgets s :
  get_connection_form_widgets hook_class = Some (Ok widgets) ->
  (forall widget, In widget (map snd widgets) ->
                  allowed_field_class (field_class widget) = true) ->
  let out := hook_widgets hook_class_name provider_package hook_class s in
  snd out = true
  /\ (forall field_name,
         In field_name (Dict.keys widgets) ->
         PyStr.startswith field_name "extra__" = true ->
         Dict.mem field_name (_connection_form_widgets (fst out)) = true)
  /\ (forall field_name,
         Dict.mem field_name (_connection_form_widgets (fst out)) = true ->
         Dict.mem field_name (_connection_form_widgets s) = true
         \/ (In field_name (Dict.keys widgets)
             /\ PyStr.startswith field_name "extra__" = true))
  /\ (forall field_name field,
         NoDup (Dict.keys widgets) ->
         In (field_name, field) widgets ->
         PyStr.startswith field_name "extra__" = true ->
         Dict.mem field_name (_connection_form_widgets s) = false ->
         Dict.get field_name (_connection_form_widgets (fst out))
         = Some {| wi_connection_class := hc_name hook_class;
                   wi_package_name := provider_package;
                   wi_field := field |}).
Proof.
  intros Hdecl Hallowed out.
  assert (Hout : out = (_add_widgets provider_package hook_class widgets s, true)).
  { subst out. unfold hook_widgets. rewrite Hdecl.
    destruct widgets as [|item widgets]; [reflexivity|].
    rewrite find_none_forall; [reflexivity|].
    intros x Hx. now rewrite Hallowed. }
  rewrite Hout. cbn [fst snd]. repeat split.
  - intros; now apply add_widgets_registers.
  - intros field_name Hmem.
    exact (add_widgets_only_prefixed _ _ _ _ _ Hmem).
  - intros; now apply add_widgets_new_record.
Qed.

Lemma C7_witness :
  let hook_class :=
    Sample.hook_class "SvcHook" "svc" (Some (Ok Sample.prefix_widgets)) None in
  let out := hook_widgets "svc.hooks.SvcHook" "svc" hook_class __init__ in
  Dict.keys (_connection_form_widgets (fst out)) = ["extra__svc__id"]
  /\ Dict.mem "extra__svc__id" (_connection_form_widgets (fst out)) = true.
Proof.
  intros hook_class out. split; [reflexivity|].
  refine (proj1 (proj2
            (C7_prefix_filtering "svc.hooks.SvcHook" "svc" hook_class
               Sample.prefix_widgets __init__ eq_refl _))
            "extra__svc__id" _ eq_refl).
  - intros widget [<-|[<-|[]]]; reflexivity.
  - left. reflexivity.
Defined.

(** ** Hooks *)

(** The last statement of [_add_hook] binds the connection type to the
    new record whatever the hook table held for it. *)
Lemma register_hook_overwrites hook_class_name provider_package hook_class s c a h :
  conn_type hook_class = Some c ->
  conn_name_attr hook_class = Some a ->
  hook_name hook_class = Some h ->
  PyStr.truthy c = true -> PyStr.truthy a = true -> PyStr.truthy h = true ->
  Dict.get c
    (_hooks_dict (register_hook hook_class_name provider_package hook_class s))
  = Some {| hi_connection_class := hook_class_name;
            hi_connection_id_attribute_name := a;
            hi_package_name := provider_package;
            hi_hook_name := h |}.
Proof.
  intros Hc Ha Hh Tc Ta Th. unfold register_hook, _get_attr, getattr.
  cbn [String.eqb Ascii.eqb Bool.eqb]. rewrite Hc, Ha, Hh, Tc, Ta, Th.
  cbn [negb orb _hooks_dict set_hooks_dict].
  apply DictFacts.get_setitem_same.
Qed.

(** C1 fails on the code.  Two providers each declare a hook class of
    connection type "foo"; the providers are visited in key order, "p1"
    first.  [_add_hook] looks for the hook class name, not for the
    connection type, among the keys of the hook table, so it does not see
    the earlier registration: no warning is logged and the binding of
    "foo" is overwritten by the later declaration. *)
Theorem C1_later_declaration_overwrites :
  let out := hooks Sample.two_foo_hooks __init__ in
  snd out
  = Ok [("foo", {| hi_connection_class := "p2.hooks.H2";
                   hi_connection_id_attribute_name := "foo_conn_id";
                   hi_package_name := "p2";
                   hi_hook_name := "H2" |})]
  /\ Dict.keys (_provider_dict (fst out)) = ["p1"; "p2"]
  /\ log_records (fst out)
     = [DebugInitialized "hooks"; DebugInitialized "list";
        DebugLoadingFromPackage "p2"; DebugLoadingFromPackage "p1";
        InfoNoProvidersInstalled; DebugInitializing "list";
        DebugInitializing "hooks"].
Proof. cbv zeta. repeat split; reflexivity. Qed.

(** The claim C2 makes fails: the hook class declares a widget of an
    unsupported class, a field-behaviour document that is valid, and its
    three attributes; after extraction neither the hook table nor the
    field-behaviour table has an entry. *)
Lemma C2_hook_and_behaviour_dropped :
  let E := Sample.unsupported_widget in
  (exists hook_class doc,
      import_string E "svc.hooks.SvcHook" = Some hook_class
      /\ conn_type hook_class = Some "svc"
      /\ conn_name_attr hook_class = Some "svc_conn_id"
      /\ hook_name hook_class = Some "SvcHook"
      /\ get_ui_field_behaviour hook_class = Some (Ok doc)
      /\ json_truthy doc = true
      /\ customized_form_fields_schema_valid E doc = true)
  /\ snd (hooks E __init__) = Ok []
  /\ snd (field_behaviours E __init__) = Ok [].
Proof.
  cbv zeta. split; [|split; reflexivity].
  eexists _, _. repeat split; reflexivity.
Qed.

(** C2, amended.  When the widget set a hook class declares has a field
    of a class outside the allow-list, [_add_hook] returns at once: no
    widget of the set is registered, the field-behaviour document is not
    looked at and the hook is not inserted, so the three tables are as
    they were before the call. *)
Theorem C2_unsupported_widget_aborts_hook
  E hook_class_name provider_package hook_class widgets widget s :
  import_string E hook_class_name = Some hook_class ->
  get_connection_form_widgets hook_class = Some (Ok widgets) ->
  In widget (map snd widgets) ->
  allowed_field_class (field_class widget) = false ->
  let s' := _add_hook E hook_class_name provider_package s in
  _hooks_dict s' = _hooks_dict s
  /\ _connection_form_widgets s' = _connection_form_widgets s
  /\ _field_behaviours s' = _field_behaviours s.
Proof.
  intros Himport Hdecl Hin Hbad s'. subst s'. unfold _add_hook.
  pose proof (sanity_check_invariant E
                (fun s' => _hooks_dict s' = _hooks_dict s
                           /\ _connection_form_widgets s' = _connection_form_widgets s
                           /\ _field_behaviours s' = _field_behaviours s)
                (fun r s' _ _ H => H) provider_package hook_class_name s
                (conj eq_refl (conj eq_refl eq_refl))) as H0.
  destruct (_sanity_check E provider_package hook_class_name s) as [s0 ok];
    cbn [fst] in H0.
  destruct ok; cbn [negb]; [|exact H0].
  destruct (Dict.mem hook_class_name (_hooks_dict s0)); [exact H0|].
  rewrite Himport. unfold hook_widgets. rewrite Hdecl.
  destruct widgets as [|item widgets]; [destruct Hin|].
  destruct (find_some_exists
              (fun w => negb (allowed_field_class (field_class w)))
              (map snd (item :: widgets)) widget Hin) as [bad Hfind].
  { now rewrite Hbad. }
  rewrite Hfind. cbn [negb]. exact H0.
Qed.

Lemma C2_witness :
  let E := Sample.unsupported_widget in
  let s' := _add_hook E "svc.hooks.SvcHook" "svc" __init__ in
  _hooks_dict s' = _hooks_dict __init__
  /\ _connection_form_widgets s' = _connection_form_widgets __init__
  /\ _field_behaviours s' = _field_behaviours __init__.
Proof.
  intros E.
  refine (C2_unsupported_widget_aborts_hook E "svc.hooks.SvcHook" "svc" _ _
            (Sample.field (OtherFieldClass "UnsupportedField")) __init__
            eq_refl eq_refl _ eq_refl).
  right. left. reflexivity.
Defined.

(** ** The in-source scan *)

Lemma existsb_eqb_flip (x : string) (l : list string) :
  existsb (String.eqb x) l = existsb (fun f => f =? x) l.
Proof.
  induction l as [|y l IH]; simpl; [reflexivity|].
  now rewrite String.eqb_sym, IH.
Qed.

Lemma distinct_NoDup (l : list string) : distinct l = true -> NoDup l.
Proof.
  induction l as [|x l IH]; simpl; intros H; [constructor|].
  apply andb_true_iff in H. destruct H as [Hx Hl].
  constructor; [|now apply IH].
  intros Hin. apply negb_true_iff in Hx.
  assert (existsb (String.eqb x) l = true); [|congruence].
  apply existsb_exists. exists x. split; [assumption|apply String.eqb_refl].
Qed.

(** A directory lists the descriptor at most once. *)
Lemma fnmatch_filter_distinct (files : list string) (x : string) :
  distinct files = true ->
  fnmatch_filter files x = if existsb (fun f => f =? x) files then [x] else [].
Proof.
  unfold fnmatch_filter.
  induction files as [|f files IH]; simpl; intros H; [reflexivity|].
  apply andb_true_iff in H. destruct H as [Hf Hfiles].
  rewrite (IH Hfiles).
  destruct (String.eqb_spec f x) as [e|n]; simpl; [|reflexivity].
  subst f. apply negb_true_iff in Hf. rewrite existsb_eqb_flip in Hf.
  now rewrite Hf.
Qed.

Lemma concat_app (l1 l2 : list string) :
  fold_right String.append "" (l1 ++ l2)
  = (fold_right String.append "" l1 ++ fold_right String.append "" l2)%string.
Proof.
  induction l1 as [|x l1 IH]; simpl; [reflexivity|].
  now rewrite IH, StrFacts.append_assoc.
Qed.

Lemma folder_of_snoc (root_path : string) (p : list string) (name : string) :
  folder_of root_path (p ++ [name])
  = (folder_of root_path p ++ String OsPath.sep name)%string.
Proof.
  unfold folder_of. rewrite map_app, concat_app. simpl.
  now rewrite StrFacts.append_empty_r, StrFacts.append_assoc.
Qed.

Lemma name_ok_true (name : string) :
  name_ok name = true ->
  name <> "" /\ PyStr.contains_char OsPath.sep name = false.
Proof.
  unfold name_ok. intros H. apply andb_true_iff in H. destruct H as [H1 H2].
  apply negb_true_iff in H1, H2. split; [|assumption].
  now apply String.eqb_neq.
Qed.

(** The folder the walk is at is a proper directory path. *)
Lemma folder_of_proper (root_path : string) (p : list string) :
  root_ok root_path = true ->
  Forall (fun n => name_ok n = true) p ->
  folder_of root_path p <> ""
  /\ PyStr.endswith_char OsPath.sep (folder_of root_path p) = false.
Proof.
  unfold root_ok. intros Hroot Hp.
  apply andb_true_iff in Hroot. destruct Hroot as [Hne Hend].
  apply negb_true_iff in Hne, Hend. apply String.eqb_neq in Hne.
  split; [now apply StrFacts.app_nonempty|].
  destruct p as [|n p] using rev_ind.
  - unfold folder_of. simpl. now rewrite StrFacts.append_empty_r.
  - apply Forall_app in Hp. destruct Hp as [_ Hn].
    inversion Hn as [|? ? Hok _]; subst.
    apply name_ok_true in Hok. destruct Hok as [Hn1 Hn2].
    rewrite folder_of_snoc.
    rewrite StrFacts.endswith_char_app by discriminate.
    destruct n as [|c n]; [congruence|].
    change (PyStr.endswith_char OsPath.sep (String OsPath.sep (String c n)))
      with (PyStr.endswith_char OsPath.sep (String c n)).
    now apply StrFacts.endswith_char_absent.
Qed.

Lemma replace_sep_components (p : list string) :
  Forall (fun n => name_ok n = true) p ->
  PyStr.replace OsPath.sep "-"
    (fold_right String.append "" (map (String OsPath.sep) p))
  = fold_right String.append "" (map (String "-"%char) p).
Proof.
  intros Hp. induction Hp as [|n p Hn _ IH]; [reflexivity|].
  apply name_ok_true in Hn. destruct Hn as [_ Hn].
  cbn [map fold_right String.append PyStr.replace].
  rewrite StrFacts.replace_app, IH, (StrFacts.replace_absent _ _ n Hn).
  reflexivity.
Qed.

Lemma local_package_name_folder (root_path : string) (p : list string) :
  Forall (fun n => name_ok n = true) p ->
  local_package_name root_path (folder_of root_path p) = hyphen_joined p.
Proof.
  intros Hp. unfold local_package_name, folder_of, hyphen_joined.
  rewrite StrFacts.slice_from_app. f_equal.
  exact (replace_sep_components p Hp).
Qed.

Lemma wf_dir_inv files subdirs :
  wf_dir (MkDir files subdirs) = true ->
  distinct files = true
  /\ distinct (map fst subdirs) = true
  /\ forall e, In e subdirs -> name_ok (fst e) = true /\ wf_dir (snd e) = true.
Proof.
  cbn [wf_dir]. intros H.
  apply andb_true_iff in H. destruct H as [H Hall].
  apply andb_true_iff in H. destruct H as [Hf Hd].
  repeat split; try assumption;
    rewrite forallb_forall in Hall; specialize (Hall e H);
    apply andb_true_iff in Hall; tauto.
Qed.

(** The walk attempts one registration for each provider directory, in
    the order [provider_dirs] lists them, and nothing else. *)
Lemma walk_local_source_files_provider_dirs E root_path d :
  root_ok root_path = true ->
  wf_dir d = true ->
  forall p s,
    Forall (fun n => name_ok n = true) p ->
    walk_local_source_files E root_path (folder_of root_path p) d s
    = fold_left (add_provider_dir E root_path) (map (app p) (provider_dirs d)) s.
Proof.
  intros Hroot. induction d as [files subdirs IH] using Dir_induction.
  intros Hwf p s Hp.
  destruct (wf_dir_inv files subdirs Hwf) as (Hfiles & Hnames & Hsub).
  destruct (folder_of_proper root_path p Hroot Hp) as [Hne Hend].
  cbn [walk_local_source_files provider_dirs].
  rewrite (fnmatch_filter_distinct files "provider.yaml" Hfiles).
  change (fun f : string => f =? descriptor) with (fun f : string => f =? "provider.yaml").
  destruct (existsb (fun f => f =? "provider.yaml") files).
  - cbn [fold_left map]. rewrite app_nil_r. unfold add_provider_dir.
    rewrite (local_package_name_folder root_path p Hp).
    rewrite StrFacts.join_plain by (assumption || reflexivity).
    reflexivity.
  - cbn [fold_left]. clear Hfiles Hnames Hwf. revert s.
    induction subdirs as [|[name sub] l IHl]; intros s; [reflexivity|].
    inversion IH as [|? ? IHsub IHrest]; subst. cbn [snd] in IHsub.
    cbn [fold_left flat_map fst snd].
    rewrite map_app, fold_left_app, map_map.
    destruct (Hsub (name, sub) (or_introl eq_refl)) as [Hname Hwfsub].
    cbn [fst snd] in Hname, Hwfsub.
    rewrite StrFacts.join_plain;
      [|assumption|assumption|now apply name_ok_true].
    rewrite <- folder_of_snoc.
    rewrite (IHsub Hwfsub (p ++ [name]) s)
      by (apply Forall_app; split; [assumption|now constructor]).
    rewrite (map_ext (fun q => (p ++ [name]) ++ q) (fun q => p ++ name :: q))
      by (intros q; now rewrite <- app_assoc).
    apply IHl.
    + exact IHrest.
    + intros e He. apply Hsub. now right.
Qed.

Lemma find_by_name (l : list (string * Dir)) (e : string * Dir) :
  distinct (map fst l) = true -> In e l ->
  find (fun e' => fst e' =? fst e) l = Some e.
Proof.
  induction l as [|x l IH]; cbn [map distinct find]; intros Hd Hin;
    [destruct Hin|].
  apply andb_true_iff in Hd. destruct Hd as [Hx Hl].
  destruct Hin as [->|Hin]; [now rewrite String.eqb_refl|].
  destruct (String.eqb_spec (fst x) (fst e)) as [Heq|Hne]; [|now apply IH].
  exfalso. apply negb_true_iff in Hx.
  assert (existsb (String.eqb (fst x)) (map fst l) = true); [|congruence].
  apply existsb_exists. exists (fst e). split.
  - now apply in_map.
  - rewrite Heq. apply String.eqb_refl.
Qed.

Lemma lookup_dir_cons files subdirs name p e :
  distinct (map fst subdirs) = true -> In e subdirs -> fst e = name ->
  lookup_dir (MkDir files subdirs) (name :: p) = lookup_dir (snd e) p.
Proof.
  intros Hd Hin <-. cbn [lookup_dir].
  rewrite (find_by_name subdirs e Hd Hin). now destruct e.
Qed.

Lemma lookup_dir_cons_inv files subdirs name p sub :
  lookup_dir (MkDir files subdirs) (name :: p) = Some sub ->
  exists e, In e subdirs /\ fst e = name /\ lookup_dir (snd e) p = Some sub.
Proof.
  cbn [lookup_dir].
  destruct (find (fun e => fst e =? name) subdirs) as [[n d]|] eqn:Hfind;
    [|discriminate].
  intros H. apply find_some in Hfind. destruct Hfind as [Hin Heq].
  exists (n, d). cbn [fst snd] in *. apply String.eqb_eq in Heq. auto.
Qed.

(** [provider_dirs] lists exactly the provider directories. *)
Lemma provider_dirs_spec d :
  wf_dir d = true ->
  forall p, In p (provider_dirs d) <-> is_provider_dir d p.
Proof.
  induction d as [files subdirs IH] using Dir_induction. intros Hwf p.
  destruct (wf_dir_inv files subdirs Hwf) as (_ & Hnames & Hsub).
  rewrite Forall_forall in IH.
  cbn [provider_dirs].
  destruct (existsb (fun f => f =? descriptor) files) eqn:Hdesc.
  - split.
    + intros [<-|[]]. split.
      * exists (MkDir files subdirs). auto.
      * intros q r sub Hqr Hr. symmetry in Hqr.
        apply app_eq_nil in Hqr. tauto.
    + intros [_ Habove]. destruct p as [|name p]; [now left|].
      specialize (Habove [] (name :: p) (MkDir files subdirs) eq_refl).
      cbn [lookup_dir has_descriptor] in Habove.
      rewrite Hdesc in Habove.
      assert (true = false) by (apply Habove; [discriminate|reflexivity]).
      discriminate.
  - rewrite in_flat_map. split.
    + intros (e & He & Hp). apply in_map_iff in Hp.
      destruct Hp as (p' & <- & Hp').
      destruct (Hsub e He) as [_ Hwfe].
      apply (IH e He Hwfe) in Hp'. destruct Hp' as [(sub & Hlook & Hhas) Habove].
      split.
      * exists sub. split; [|assumption].
        now rewrite (lookup_dir_cons files subdirs (fst e) p' e).
      * intros q r sub' Hqr Hr Hlook'. destruct q as [|name q].
        -- injection Hlook' as <-. exact Hdesc.
        -- injection Hqr as <- Hqr.
           rewrite (lookup_dir_cons files subdirs (fst e) q e) in Hlook'
             by auto.
           now apply (Habove q r sub').
    + intros [(sub & Hlook & Hhas) Habove]. destruct p as [|name p].
      * injection Hlook as <-. cbn [has_descriptor] in Hhas. congruence.
      * apply lookup_dir_cons_inv in Hlook.
        destruct Hlook as (e & He & Hname & Hlook).
        exists e. split; [assumption|].
        rewrite Hname. apply in_map.
        destruct (Hsub e He) as [_ Hwfe].
        apply (IH e He Hwfe). split; [eauto|].
        intros q r sub' Hqr Hr Hlook'.
        apply (Habove (name :: q) r sub'); [now rewrite Hqr|assumption|].
        now rewrite (lookup_dir_cons files subdirs name q e).
Qed.

Lemma NoDup_map_cons {A : Type} (x : A) (l : list (list A)) :
  NoDup l -> NoDup (map (cons x) l).
Proof.
  induction 1 as [|y l Hy _ IH]; simpl; constructor; [|assumption].
  intros Hin. apply in_map_iff in Hin. destruct Hin as (z & Hz & Hin).
  injection Hz as <-. contradiction.
Qed.

Lemma provider_dirs_NoDup d : wf_dir d = true -> NoDup (provider_dirs d).
Proof.
  induction d as [files subdirs IH] using Dir_induction. intros Hwf.
  destruct (wf_dir_inv files subdirs Hwf) as (_ & Hnames & Hsub).
  cbn [provider_dirs].
  destruct (existsb (fun f => f =? descriptor) files).
  - repeat constructor. intros [].
  - clear Hwf. apply distinct_NoDup in Hnames.
    induction subdirs as [|e l IHl]; [constructor|].
    inversion IH as [|? ? IHe IHrest]; subst.
    cbn [map] in Hnames. inversion Hnames as [|? ? Hnotin Hnames']; subst.
    cbn [flat_map]. apply NoDup_app.
    + apply NoDup_map_cons. apply IHe. apply Hsub. now left.
    + apply IHl; auto. intros e' He'. apply Hsub. now right.
    + intros p Hp Hp'. apply in_map_iff in Hp. destruct Hp as (q & <- & _).
      apply in_flat_map in Hp'. destruct Hp' as (e' & He' & Hq).
      apply in_map_iff in Hq. destruct Hq as (q' & Heq & _).
      injection Heq as Hname _. apply Hnotin. rewrite <- Hname.
      now apply in_map.
Qed.

(** The walk of one root is one registration attempt for each of the
    directories it treats as providers, in the order of the walk. *)
Lemma on_path_provider_dirs E root_path d s :
  root_ok root_path = true ->
  wf_dir d = true ->
  _add_provider_info_from_local_source_files_on_path E root_path d s
  = fold_left (add_provider_dir E root_path) (provider_dirs d) s.
Proof.
  intros Hroot Hwf. unfold _add_provider_info_from_local_source_files_on_path.
  pose proof (walk_local_source_files_provider_dirs E root_path d Hroot Hwf
                [] s (Forall_nil _)) as H.
  unfold folder_of in H. cbn [map fold_right] in H.
  rewrite StrFacts.append_empty_r in H. rewrite H. now rewrite map_id.
Qed.

(** ** What a registration attempt does to the provider table *)

Lemma add_local_source_file_table E path package_name s :
  _provider_dict (_add_provider_info_from_local_source_file E path package_name s)
  = match descriptor_record E path with
    | Some r =>
        if Dict.mem package_name (_provider_dict s) then _provider_dict s
        else Dict.setitem package_name r (_provider_dict s)
    | None => _provider_dict s
    end.
Proof.
  unfold _add_provider_info_from_local_source_file, descriptor_record. cbv zeta.
  destruct (yaml_safe_load E path) as [m|e]; [|reflexivity].
  destruct (provider_schema_valid E m); cbn [negb]; [|reflexivity].
  destruct (mf_versions m) as [[|v rest]|]; try reflexivity.
  cbn [_provider_dict emit].
  destruct (Dict.mem package_name (_provider_dict s)); reflexivity.
Qed.

Lemma add_in_source_dir_get E rp s n r :
  Dict.get n (_provider_dict (add_in_source_dir E s rp)) = Some r ->
  Dict.get n (_provider_dict s) = Some r
  \/ (Dict.mem n (_provider_dict s) = false
      /\ hyphen_joined (snd rp) = n
      /\ descriptor_record E (descriptor_path (fst rp) (snd rp)) = Some r).
Proof.
  unfold add_in_source_dir, add_provider_dir. rewrite add_local_source_file_table.
  destruct (descriptor_record E _) as [r0|]; [|auto].
  destruct (Dict.mem (hyphen_joined (snd rp)) (_provider_dict s)) eqn:Hmem; [auto|].
  destruct (string_dec (hyphen_joined (snd rp)) n) as [Heq|Hne].
  - subst n. rewrite DictFacts.get_setitem_same. intros Hr.
    injection Hr as <-. right. auto.
  - rewrite DictFacts.get_setitem_other by assumption. auto.
Qed.

Lemma add_in_source_dir_keeps E rp s n r :
  Dict.get n (_provider_dict s) = Some r ->
  Dict.get n (_provider_dict (add_in_source_dir E s rp)) = Some r.
Proof.
  intros Hget. unfold add_in_source_dir, add_provider_dir.
  rewrite add_local_source_file_table.
  destruct (descriptor_record E _) as [r0|]; [|assumption].
  destruct (Dict.mem (hyphen_joined (snd rp)) (_provider_dict s)) eqn:Hmem;
    [assumption|].
  rewrite DictFacts.get_setitem_other; [assumption|].
  intros Heq. subst n. apply DictFacts.not_mem_get in Hmem. congruence.
Qed.

Lemma add_in_source_dir_registers E rp s r :
  descriptor_record E (descriptor_path (fst rp) (snd rp)) = Some r ->
  exists r',
    Dict.get (hyphen_joined (snd rp)) (_provider_dict (add_in_source_dir E s rp))
    = Some r'.
Proof.
  intros Hrec. unfold add_in_source_dir, add_provider_dir.
  rewrite add_local_source_file_table, Hrec.
  destruct (Dict.mem (hyphen_joined (snd rp)) (_provider_dict s)) eqn:Hmem.
  - now apply DictFacts.mem_get.
  - exists r. apply DictFacts.get_setitem_same.
Qed.

Lemma in_source_dirs_keep E l s n r :
  Dict.get n (_provider_dict s) = Some r ->
  Dict.get n (_provider_dict (fold_left (add_in_source_dir E) l s)) = Some r.
Proof.
  intros Hget.
  apply (fold_left_invariant (fun s' => Dict.get n (_provider_dict s') = Some r));
    [|assumption].
  intros s' rp _ Hs'. now apply add_in_source_dir_keeps.
Qed.

(** Where a binding of the table comes from after a run of attempts:
    it was there before, or the name was free and one of the directories
    derives it and registers the record. *)
Lemma in_source_dirs_get E l s n r :
  Dict.get n (_provider_dict (fold_left (add_in_source_dir E) l s)) = Some r ->
  Dict.get n (_provider_dict s) = Some r
  \/ (Dict.mem n (_provider_dict s) = false
      /\ exists rp,
           In rp l
           /\ hyphen_joined (snd rp) = n
           /\ descriptor_record E (descriptor_path (fst rp) (snd rp)) = Some r).
Proof.
  revert s. induction l as [|rp l IH]; intros s Hget; [now left|].
  cbn [fold_left] in Hget.
  destruct (IH _ Hget) as [Hhead|(Hmem & rp' & Hin & Hname & Hrec)].
  - destruct (add_in_source_dir_get E rp s n r Hhead)
      as [H|(Hmem & Hname & Hrec)]; [now left|].
    right. split; [assumption|]. exists rp. split; [now left|auto].
  - right. split.
    + destruct (Dict.mem n (_provider_dict s)) eqn:Hs; [|reflexivity].
      apply DictFacts.mem_get in Hs. destruct Hs as [r0 Hr0].
      apply (add_in_source_dir_keeps E rp) in Hr0.
      apply DictFacts.not_mem_get in Hmem. congruence.
    + exists rp'. split; [now right|auto].
Qed.

(** A directory of the run whose descriptor registers has its name in
    the table afterwards. *)
Lemma in_source_dirs_register E l s rp r :
  In rp l ->
  descriptor_record E (descriptor_path (fst rp) (snd rp)) = Some r ->
  Dict.mem (hyphen_joined (snd rp))
    (_provider_dict (fold_left (add_in_source_dir E) l s)) = true.
Proof.
  intros Hin Hrec. revert s.
  induction l as [|rp' l IH]; intros s; [destruct Hin|].
  cbn [fold_left]. destruct Hin as [Heq|Hin]; [|now apply IH].
  subst rp'.
  destruct (add_in_source_dir_registers E rp s r Hrec) as [r' Hr'].
  apply DictFacts.mem_get. exists r'. now apply in_source_dirs_keep.
Qed.

Lemma fold_left_map {A B C : Type} (f : A -> B -> A) (g : C -> B)
  (l : list C) (a : A) :
  fold_left f (map g l) a = fold_left (fun a x => f a (g x)) l a.
Proof.
  revert a. induction l as [|x l IH]; intros a; [reflexivity|].
  cbn [map fold_left]. apply IH.
Qed.

Lemma on_path_in_source_dirs E root_path d s :
  root_ok root_path = true ->
  wf_dir d = true ->
  _add_provider_info_from_local_source_files_on_path E root_path d s
  = fold_left (add_in_source_dir E) (map (pair root_path) (provider_dirs d)) s.
Proof.
  intros Hroot Hwf. rewrite on_path_provider_dirs by assumption.
  rewrite fold_left_map. reflexivity.
Qed.



(** C6 as stated fails: a directory that holds the descriptor need not
    yield a provider of its own.  The root holds [a-b/provider.yaml] and
    [a/b/provider.yaml]; the walk treats both directories as providers and
    both descriptors load, but both derive the name
    "apache-airflow-providers-a-b", so that the table gets one provider,
    the one of [a-b], and the second attempt is logged as already
    registered.  A single directory whose descriptor does not parse
    yields no provider at all. *)
Lemma C6_same_name_one_provider :
  let E := colliding_sources in
  let root_path := "/src/airflow/providers" in
  let first :=
    {| version := "1.0";
       provider_info := Sample.manifest "apache-airflow-providers-a-b" ["1.0"] [] |} in
  let second :=
    {| version := "2.0";
       provider_info := Sample.manifest "apache-airflow-providers-a-b" ["2.0"] [] |} in
  let s' :=
    _add_provider_info_from_local_source_files_on_path E root_path
      colliding_root __init__ in
  wf_dir colliding_root = true
  /\ provider_dirs colliding_root = [["a-b"]; ["a"; "b"]]
  /\ descriptor_record E (descriptor_path root_path ["a-b"]) = Some first
  /\ descriptor_record E (descriptor_path root_path ["a"; "b"]) = Some second
  /\ hyphen_joined ["a-b"] = "apache-airflow-providers-a-b"
  /\ hyphen_joined ["a"; "b"] = "apache-airflow-providers-a-b"
  /\ _provider_dict s' = [("apache-airflow-providers-a-b", first)]
  /\ log_records s'
     = [WarnProviderAlreadyRegistered "apache-airflow-providers-a-b";
        DebugLoadingFromSource "apache-airflow-providers-a-b"
          "/src/airflow/providers/a/b/provider.yaml";
        DebugLoadingFromSource "apache-airflow-providers-a-b"
          "/src/airflow/providers/a-b/provider.yaml"]
  /\ _provider_dict
       (_add_provider_info_from_local_source_files_on_path unreadable_source
          root_path (MkDir [] [("a", MkDir ["provider.yaml"] [])]) __init__)
     = [].
Proof. cbv zeta. repeat split; vm_compute; reflexivity. Qed.

(** C6, amended.  For a root path without a trailing separator and a
    directory tree as a file system holds it, the in-source scan attempts
    exactly one registration for every directory that holds the
    descriptor file and has no directory holding one above it, under the
    name made of the fixed prefix and the hyphen-led names of the relative
    path, and attempts nothing else: it does not descend below such a
    directory.  Every binding of the provider table afterwards was there
    before or is the record of such a directory deriving that name whose
    descriptor loads, passes the schema and lists a version; the name of
    every such directory is a key of the table exactly once; and when the
    name was free before and no other such directory derives it, it is
    bound to the record of the directory's own descriptor. *)
Theorem C6_in_source_scan E root_path d s :
  root_ok root_path = true ->
  wf_dir d = true ->
  NoDup (Dict.keys (_provider_dict s)) ->
  let s' := _add_provider_info_from_local_source_files_on_path E root_path d s in
  s' = fold_left
         (fun s p =>
            _add_provider_info_from_local_source_file E
              (descriptor_path root_path p) (hyphen_joined p) s)
         (provider_dirs d) s
  /\ (forall p,
         is_provider_dir d p ->
         count_occ (list_eq_dec string_dec) (provider_dirs d) p = 1)
  /\ (forall p, In p (provider_dirs d) -> is_provider_dir d p)
  /\ (forall p q, In p (provider_dirs d) -> q <> [] -> ~ In (p ++ q) (provider_dirs d))
  /\ (forall n r,
         Dict.get n (_provider_dict s') = Some r ->
         Dict.get n (_provider_dict s) = Some r
         \/ exists p,
              is_provider_dir d p
              /\ hyphen_joined p = n
              /\ descriptor_record E (descriptor_path root_path p) = Some r)
  /\ (forall p r,
         is_provider_dir d p ->
         descriptor_record E (descriptor_path root_path p) = Some r ->
         count_occ string_dec (Dict.keys (_provider_dict s')) (hyphen_joined p) = 1)
  /\ (forall p r,
         is_provider_dir d p ->
         descriptor_record E (descriptor_path root_path p) = Some r ->
         Dict.mem (hyphen_joined p) (_provider_dict s) = false ->
         (forall q, is_provider_dir d q -> hyphen_joined q = hyphen_joined p -> q = p) ->
         Dict.get (hyphen_joined p) (_provider_dict s') = Some r).
Proof.
  intros Hroot Hwf Hnd s'.
  assert (Hfold : s' = fold_left (add_in_source_dir E)
                         (map (pair root_path) (provider_dirs d)) s).
  { subst s'. now apply on_path_in_source_dirs. }
  assert (Hnd' : NoDup (Dict.keys (_provider_dict s'))).
  { subst s'. unfold _add_provider_info_from_local_source_files_on_path.
    apply (walk_local_source_files_invariant E
             (fun s0 => NoDup (Dict.keys (_provider_dict s0)))); auto.
    intros k v s0 _ _ Hs0. simpl. now apply DictFacts.NoDup_keys_setitem. }
  assert (Hreg : forall p r,
             is_provider_dir d p ->
             descriptor_record E (descriptor_path root_path p) = Some r ->
             Dict.mem (hyphen_joined p) (_provider_dict s') = true).
  { intros p r Hp Hrec. rewrite Hfold.
    apply (in_source_dirs_register E _ s (root_path, p) r); [|exact Hrec].
    apply in_map. now apply (provider_dirs_spec d Hwf). }
  assert (Hsrc : forall n r,
             Dict.get n (_provider_dict s') = Some r ->
             Dict.get n (_provider_dict s) = Some r
             \/ exists p,
                  is_provider_dir d p
                  /\ hyphen_joined p = n
                  /\ descriptor_record E (descriptor_path root_path p) = Some r).
  { intros n r Hget. rewrite Hfold in Hget. apply in_source_dirs_get in Hget.
    destruct Hget as [H|(_ & rp & Hin & Hname & Hrec)]; [now left|].
    right. apply in_map_iff in Hin. destruct Hin as (p & Heq & Hp). subst rp.
    cbn [fst snd] in *. exists p.
    split; [now apply (provider_dirs_spec d Hwf)|auto]. }
  split; [subst s'; now apply on_path_provider_dirs|].
  split.
  { intros p Hp. apply (provider_dirs_spec d Hwf) in Hp.
    pose proof (proj1 (NoDup_count_occ (list_eq_dec string_dec) (provider_dirs d))
                  (provider_dirs_NoDup d Hwf) p) as Hle.
    pose proof (proj1 (count_occ_In (list_eq_dec string_dec) (provider_dirs d) p) Hp)
      as Hpos.
    lia. }
  split; [intros p Hp; now apply (provider_dirs_spec d Hwf)|].
  split.
  { intros p q Hp Hq Hpq.
    apply (provider_dirs_spec d Hwf) in Hp, Hpq.
    destruct Hp as [(sub & Hlook & Hhas) _]. destruct Hpq as [_ Habove].
    specialize (Habove p q sub eq_refl Hq Hlook). congruence. }
  split; [exact Hsrc|].
  split.
  - intros p r Hp Hrec. apply count_occ_unique; [assumption|].
    pose proof (Hreg p r Hp Hrec) as Hmem.
    apply DictFacts.mem_get in Hmem. destruct Hmem as [r' Hr'].
    eapply DictFacts.get_in_keys; eassumption.
  - intros p r Hp Hrec Hfresh Huniq.
    pose proof (Hreg p r Hp Hrec) as Hmem.
    apply DictFacts.mem_get in Hmem. destruct Hmem as [r' Hr'].
    destruct (Hsrc _ _ Hr') as [Hold|(q & Hq & Hname & Hrec')].
    + apply DictFacts.not_mem_get in Hfresh. congruence.
    + rewrite (Huniq q Hq Hname) in Hrec'. congruence.
Qed.

Lemma C6_witness :
  let E := Sample.sources_and_package in
  let root_path := "/src/airflow/providers" in
  let s' :=
    _add_provider_info_from_local_source_files_on_path E root_path
      Sample.nested_root __init__ in
  provider_dirs Sample.nested_root = [["a"]]
  /\ s' = _add_provider_info_from_local_source_file E
            "/src/airflow/providers/a/provider.yaml" "apache-airflow-providers-a"
            __init__
  /\ Dict.get "apache-airflow-providers-a" (_provider_dict s')
     = Some {| version := "2.0";
               provider_info :=
                 Sample.manifest "apache-airflow-providers-a" ["2.0"; "1.0"] [] |}
  /\ count_occ string_dec (Dict.keys (_provider_dict s'))
       "apache-airflow-providers-a" = 1.
Proof.
  intros E root_path s'.
  pose proof (C6_in_source_scan E root_path Sample.nested_root __init__
                eq_refl eq_refl (NoDup_nil _)) as H.
  cbv zeta in H. destruct H as (Hfold & _ & Hdirs & _ & _ & Hcount & Hget).
  assert (Hp : is_provider_dir Sample.nested_root ["a"]).
  { apply Hdirs. left. reflexivity. }
  split; [reflexivity|]. split; [exact Hfold|]. split.
  - refine (Hget ["a"] _ Hp eq_refl eq_refl _).
    intros q Hq _. apply (provider_dirs_spec Sample.nested_root eq_refl) in Hq.
    destruct Hq as [Hq|[]]. symmetry. exact Hq.
  - exact (Hcount ["a"] _ Hp eq_refl).
Defined.

(** ** In-source records and installed distributions *)



(** ** What each pass leaves alone *)

Lemma local_sources_frame {A : Type} (obs : State -> A) E s :
  (forall r s, from_decorator r = false -> obs (emit r s) = obs s) ->
  (forall v s, obs (set_provider_dict v s) = obs s) ->
  obs (_discover_all_airflow_builtin_providers_from_local_sources E s) = obs s.
Proof.
  intros Hemit Hset.
  apply (discover_local_sources_invariant E (fun s' => obs s' = obs s)); auto.
  - intros r s' Hr _ H. now rewrite Hemit.
  - intros k v s' _ _ H. now rewrite Hset.
Qed.

Lemma packages_frame {A : Type} (obs : State -> A) E s :
  (forall r s, from_decorator r = false -> obs (emit r s) = obs s) ->
  (forall v s, obs (set_provider_dict v s) = obs s) ->
  obs (fst (_discover_all_providers_from_packages E s)) = obs s.
Proof.
  intros Hemit Hset. unfold _discover_all_providers_from_packages.
  apply (for_each_package_invariant E (fun s' => obs s' = obs s)
           (entry_points_with_dist E)); auto using incl_refl.
  - intros r s' Hr H. now rewrite Hemit.
  - intros k v s' _ _ H. now rewrite Hset.
Qed.

Lemma discover_hooks_frame {A : Type} (obs : State -> A) E s :
  (forall r s, from_decorator r = false -> obs (emit r s) = obs s) ->
  (forall v s, obs (set_hooks_dict v s) = obs s) ->
  (forall v s, obs (set_connection_form_widgets v s) = obs s) ->
  (forall v s, obs (set_field_behaviours v s) = obs s) ->
  obs (_discover_hooks E s) = obs s.
Proof.
  intros Hemit Hh Hw Hb.
  apply (discover_hooks_invariant E (fun s' => obs s' = obs s)); auto.
  - intros r s' Hr _ H. now rewrite Hemit.
  - intros v s' H. now rewrite Hh.
  - intros v s' H. now rewrite Hw.
  - intros v s' H. now rewrite Hb.
Qed.

Lemma discover_class_names_frame {A : Type} (obs : State -> A)
  E key checked get_set put_set s :
  (forall r s, from_decorator r = false -> obs (emit r s) = obs s) ->
  (forall v s, obs (put_set v s) = obs s) ->
  obs (discover_class_names E key checked get_set put_set s) = obs s.
Proof.
  intros Hemit Hput.
  apply (discover_class_names_invariant E (fun s' => obs s' = obs s)); auto.
  - intros r s' Hr _ H. now rewrite Hemit.
  - intros v s' H. now rewrite Hput.
Qed.

Lemma executions_emit c r s :
  executions c (emit r s)
  = (if is_initializing c r then 1 else 0) + executions c s.
Proof.
  unfold executions. cbn [log_records emit filter].
  destruct (is_initializing c r); reflexivity.
Qed.

Lemma executions_emit_quiet c r s :
  from_decorator r = false -> executions c (emit r s) = executions c s.
Proof.
  intros Hr. rewrite executions_emit.
  destruct r; try reflexivity; discriminate.
Qed.

Lemma mem_setitem {V : Type} (k k' : string) (v : V) (d : Dict.t V) :
  Dict.mem k (Dict.setitem k' v d) = (k' =? k) || Dict.mem k d.
Proof.
  unfold Dict.mem. destruct (String.eqb_spec k' k) as [e|n].
  - subst. now rewrite DictFacts.get_setitem_same.
  - now rewrite DictFacts.get_setitem_other.
Qed.

(** ** The memoized procedures *)

(** The decorator, by cases. *)
Lemma provider_info_cache_flagged c func s :
  flag c s = true -> provider_info_cache c func s = (s, Ok tt).
Proof.
  unfold flag, provider_info_cache. now intros ->.
Qed.

Lemma provider_info_cache_unflagged c func s :
  flag c s = false ->
  provider_info_cache c func s
  = match func (emit (DebugInitializing c) s) with
    | (s', Ok _) =>
        (emit (DebugInitialized c)
           (set_initialized_cache
              (Dict.setitem c true (_initialized_cache s')) s'),
         Ok tt)
    | (s', Raise e) => (s', Raise e)
    end.
Proof.
  unfold flag, provider_info_cache. now intros ->.
Qed.

(** The list procedure when its flag is not set: what it does to the
    counters, the flags and the tables. *)
Lemma list_procedure_unflagged E s :
  flag "list" s = false ->
  let out := initialize_providers_list E s in
  (forall c,
      executions c (fst out) = (if "list" =? c then 1 else 0) + executions c s)
  /\ (forall c,
         flag c (fst out) = flag c s || (is_ok (snd out) && ("list" =? c)))
  /\ _hooks_dict (fst out) = _hooks_dict s
  /\ _connection_form_widgets (fst out) = _connection_form_widgets s
  /\ _field_behaviours (fst out) = _field_behaviours s
  /\ (is_ok (snd out) = true ->
      lexicographic (Dict.keys (_provider_dict (fst out)))).
Proof.
  intros Hflag out. subst out.
  rewrite (initialize_providers_list_unfold E s Hflag).
  set (s0 := emit (DebugInitializing "list") s).
  set (s1 := _discover_all_airflow_builtin_providers_from_local_sources E s0).
  assert (Hframe : forall (A : Type) (obs : State -> A),
             (forall r s, from_decorator r = false -> obs (emit r s) = obs s) ->
             (forall v s, obs (set_provider_dict v s) = obs s) ->
             obs (fst (_discover_all_providers_from_packages E s1)) = obs s0).
  { intros A obs Hemit Hset. rewrite packages_frame by assumption.
    now apply local_sources_frame. }
  pose proof (fun c => Hframe _ (executions c)
                         (executions_emit_quiet c) (fun _ _ => eq_refl)) as Hexec.
  pose proof (Hframe _ _initialized_cache
                (fun _ _ _ => eq_refl) (fun _ _ => eq_refl)) as Hcache.
  pose proof (Hframe _ _hooks_dict
                (fun _ _ _ => eq_refl) (fun _ _ => eq_refl)) as Hh.
  pose proof (Hframe _ _connection_form_widgets
                (fun _ _ _ => eq_refl) (fun _ _ => eq_refl)) as Hw.
  pose proof (Hframe _ _field_behaviours
                (fun _ _ _ => eq_refl) (fun _ _ => eq_refl)) as Hb.
  clear Hframe.
  destruct (_discover_all_providers_from_packages E s1) as [s2 [[]|e]];
    cbn [fst snd is_ok andb] in *.
  - repeat split; try assumption.
    + intros c. rewrite executions_emit. cbn [is_initializing Nat.add].
      change (executions c s2 = (if "list" =? c then 1 else 0) + executions c s).
      rewrite Hexec. subst s0. now rewrite executions_emit.
    + intros c. unfold flag. cbn [_initialized_cache emit set_initialized_cache].
      rewrite mem_setitem, Hcache. apply orb_comm.
    + intros _. apply SortFacts.sorted_items_lexicographic.
  - repeat split; try assumption.
    + intros c. rewrite Hexec. subst s0. now rewrite executions_emit.
    + intros c. unfold flag. rewrite Hcache. now rewrite orb_false_r.
    + discriminate.
Qed.

Lemma list_procedure_flagged E s :
  flag "list" s = true -> initialize_providers_list E s = (s, Ok tt).
Proof. apply provider_info_cache_flagged. Qed.

Lemma list_procedure_ok_flag E s :
  is_ok (snd (initialize_providers_list E s)) = true ->
  flag "list" (fst (initialize_providers_list E s)) = true.
Proof.
  intros Hok. destruct (flag "list" s) eqn:Hflag.
  - now rewrite list_procedure_flagged.
  - destruct (list_procedure_unflagged E s Hflag) as (_ & Hflags & _).
    rewrite Hflags, Hok. apply orb_true_r.
Qed.

Lemma list_procedure_settled E s :
  settled s ->
  is_ok (snd (initialize_providers_list E s)) = true ->
  settled (fst (initialize_providers_list E s)).
Proof.
  intros Hs Hok. destruct (flag "list" s) eqn:Hflag.
  - now rewrite list_procedure_flagged.
  - destruct (list_procedure_unflagged E s Hflag) as (Hexec & Hflags & _).
    intros c. rewrite Hexec, !Hflags, Hok. destruct (Hs c) as [Hc Himp].
    rewrite Hc. cbn [andb]. rewrite String.eqb_refl, orb_true_r.
    destruct (String.eqb_spec "list" c) as [<-|_].
    + rewrite Hflag. auto.
    + rewrite orb_false_r. destruct (flag c s); auto.
Qed.

Lemma tables_sorted_emit r s : tables_sorted (emit r s) <-> tables_sorted s.
Proof. reflexivity. Qed.

Lemma list_procedure_tables_sorted E s :
  tables_sorted s -> tables_sorted (fst (initialize_providers_list E s)).
Proof.
  intros Hs. destruct (flag "list" s) eqn:Hflag.
  - rewrite list_procedure_flagged by assumption. exact Hs.
  - destruct Hs as [Hp Hh].
    destruct (list_procedure_unflagged E s Hflag)
      as (_ & Hflags & Hhd & Hwd & Hbd & Hsorted).
    split.
    + rewrite Hflags, Hflag. cbn [orb]. intros H.
      apply Hsorted. now apply andb_true_iff in H.
    + rewrite Hflags. cbn [String.eqb Ascii.eqb Bool.eqb].
      rewrite andb_false_r, orb_false_r.
      unfold hook_tables_sorted. rewrite Hhd, Hwd, Hbd. exact Hh.
Qed.

(** The list procedure, flag set or not. *)
Lemma list_procedure_general E s :
  let out := initialize_providers_list E s in
  (forall c,
      executions c (fst out)
      = (if flag "list" s then 0 else if "list" =? c then 1 else 0)
        + executions c s)
  /\ (forall c,
         flag c (fst out) = flag c s || (is_ok (snd out) && ("list" =? c)))
  /\ (flag "list" s = true -> is_ok (snd out) = true).
Proof.
  intros out. subst out. destruct (flag "list" s) eqn:Hflag.
  - rewrite list_procedure_flagged by assumption. cbn [fst snd is_ok andb].
    repeat split; auto. intros c.
    destruct (String.eqb_spec "list" c) as [<-|_].
    + now rewrite Hflag.
    + now rewrite orb_false_r.
  - destruct (list_procedure_unflagged E s Hflag) as (Hexec & Hflags & _).
    repeat split; auto. discriminate.
Qed.

(** The five extraction procedures have one shape: the decorator around
    the list procedure followed by a pass [f] over the provider table. *)
Section ExtractionProcedure.

Variable E : Env.
Variable c0 : string.
Variable f : State -> State.

Hypothesis pass : extraction_pass c0 f.

Let c0_not_list := proj1 pass.
Let f_cache := proj1 (proj2 pass).
Let f_executions := proj1 (proj2 (proj2 pass)).
Let f_providers := proj1 (proj2 (proj2 (proj2 pass))).
Let f_hook_tables := proj2 (proj2 (proj2 (proj2 pass))).

Let proc : M unit :=
  provider_info_cache c0 (initialize_providers_list E ;; lift f).

Lemma extraction_procedure_unfold s :
  flag c0 s = false ->
  proc s
  = match initialize_providers_list E (emit (DebugInitializing c0) s) with
    | (s1, Ok _) =>
        (emit (DebugInitialized c0)
           (set_initialized_cache
              (Dict.setitem c0 true (_initialized_cache (f s1))) (f s1)),
         Ok tt)
    | (s1, Raise e) => (s1, Raise e)
    end.
Proof.
  intros Hflag. unfold proc. rewrite provider_info_cache_unflagged by assumption.
  unfold bind, lift.
  destruct (initialize_providers_list E _) as [s1 [[]|e]]; reflexivity.
Qed.

Lemma extraction_procedure_unflagged s :
  flag c0 s = false ->
  let out := proc s in
  (forall c,
      executions c (fst out)
      = (if c0 =? c then 1 else 0)
        + (if flag "list" s then 0 else if "list" =? c then 1 else 0)
        + executions c s)
  /\ (forall c,
         flag c (fst out)
         = flag c s || (is_ok (snd out) && ((c0 =? c) || ("list" =? c))))
  /\ (flag "list" s = true -> is_ok (snd out) = true).
Proof.
  intros Hflag out. subst out.
  rewrite (extraction_procedure_unfold s Hflag).
  set (s0 := emit (DebugInitializing c0) s).
  destruct (list_procedure_general E s0) as (Hexec & Hflags & Hok).
  assert (Hexec0 : forall c,
             executions c s0 = (if c0 =? c then 1 else 0) + executions c s).
  { intros c. subst s0. now rewrite executions_emit. }
  change (flag "list" s0) with (flag "list" s) in *.
  destruct (initialize_providers_list E s0) as [s1 [[]|e]];
    cbn [fst snd is_ok andb] in *.
  - repeat split; auto.
    + intros c. rewrite executions_emit. cbn [is_initializing Nat.add].
      change (executions c (f s1)
              = (if c0 =? c then 1 else 0)
                + (if flag "list" s then 0 else if "list" =? c then 1 else 0)
                + executions c s).
      rewrite f_executions, Hexec, Hexec0. lia.
    + intros c. unfold flag.
      cbn [_initialized_cache emit set_initialized_cache].
      rewrite mem_setitem, f_cache.
      change (Dict.mem c (_initialized_cache s1)) with (flag c s1).
      rewrite Hflags. unfold flag. cbn [_initialized_cache emit s0].
      destruct (c0 =? c), (Dict.mem c (_initialized_cache s)), ("list" =? c);
        reflexivity.
  - repeat split; auto.
    intros c. rewrite Hexec, Hexec0. lia.
Qed.

Lemma extraction_procedure_ok_flag s :
  is_ok (snd (proc s)) = true -> flag c0 (fst (proc s)) = true.
Proof.
  intros Hok. destruct (flag c0 s) eqn:Hflag.
  - unfold proc. now rewrite provider_info_cache_flagged.
  - destruct (extraction_procedure_unflagged s Hflag) as (_ & Hflags & _).
    rewrite Hflags, Hok, String.eqb_refl. apply orb_true_r.
Qed.

Lemma extraction_procedure_total s :
  flag "list" s = true -> is_ok (snd (proc s)) = true.
Proof.
  intros Hlist. destruct (flag c0 s) eqn:Hflag.
  - unfold proc. now rewrite provider_info_cache_flagged.
  - destruct (extraction_procedure_unflagged s Hflag) as (_ & _ & Hok). auto.
Qed.

Lemma extraction_procedure_settled s :
  settled s -> is_ok (snd (proc s)) = true -> settled (fst (proc s)).
Proof.
  intros Hs Hok. destruct (flag c0 s) eqn:Hflag.
  - unfold proc. now rewrite provider_info_cache_flagged.
  - destruct (extraction_procedure_unflagged s Hflag) as (Hexec & Hflags & _).
    destruct (Hs c0) as [Hc0 _]. rewrite Hflag in Hc0.
    destruct (Hs "list") as [Hlist _].
    intros c. rewrite Hexec, !Hflags, Hok. cbn [andb]. split.
    + destruct (Hs c) as [Hc _]. rewrite Hc.
      destruct (String.eqb_spec c0 c) as [Heq|Hne0];
        destruct (String.eqb_spec "list" c) as [Hl|Hnel]; cbn [orb].
      * pose proof c0_not_list as H. rewrite Heq, <- Hl, String.eqb_refl in H.
        discriminate.
      * rewrite <- Heq, Hflag, orb_true_r. now destruct (flag "list" s).
      * rewrite <- Hl, orb_true_r. now destruct (flag "list" s).
      * rewrite orb_false_r. now destruct (flag "list" s), (flag c s).
    + intros _. rewrite String.eqb_refl, !orb_true_r. reflexivity.
Qed.

Lemma extraction_procedure_tables_sorted s :
  tables_sorted s -> tables_sorted (fst (proc s)).
Proof.
  intros Hs. destruct (flag c0 s) eqn:Hflag.
  - unfold proc. now rewrite provider_info_cache_flagged.
  - rewrite (extraction_procedure_unfold s Hflag).
    set (s0 := emit (DebugInitializing c0) s).
    assert (Hs0 : tables_sorted s0) by exact Hs.
    pose proof (list_procedure_tables_sorted E s0 Hs0) as Hs1.
    pose proof (list_procedure_ok_flag E s0) as Hlist.
    destruct (initialize_providers_list E s0) as [s1 [[]|e]];
      cbn [fst snd is_ok] in *; [|assumption].
    destruct Hs1 as [Hp Hh]. specialize (Hp (Hlist eq_refl)). split.
    + intros _. cbn [_provider_dict emit set_initialized_cache].
      now rewrite f_providers.
    + unfold flag. cbn [_initialized_cache emit set_initialized_cache].
      rewrite mem_setitem, f_cache. intros H.
      change (hook_tables_sorted (f s1)). apply f_hook_tables.
      apply orb_true_iff in H. destruct H as [H|H]; [now left|right; auto].
Qed.

End ExtractionProcedure.

Lemma hooks_pass E : extraction_pass "hooks" (extract_hooks E).
Proof.
  unfold extraction_pass.
  split; [reflexivity|]. split; [|split; [|split]].
  - intros s. unfold extract_hooks.
    cbn [_initialized_cache set_field_behaviours
           set_connection_form_widgets set_hooks_dict].
    apply (discover_hooks_frame _initialized_cache); reflexivity.
  - intros c s.
    change (executions c (_discover_hooks E s) = executions c s).
    apply (discover_hooks_frame (executions c));
      auto using executions_emit_quiet.
  - intros s. unfold extract_hooks.
    cbn [_provider_dict set_field_behaviours
           set_connection_form_widgets set_hooks_dict].
    apply (discover_hooks_frame _provider_dict); reflexivity.
  - intros s _. unfold hook_tables_sorted, extract_hooks.
    cbn [_hooks_dict _connection_form_widgets _field_behaviours
           set_field_behaviours set_connection_form_widgets set_hooks_dict].
    split; [|split]; apply SortFacts.sorted_items_lexicographic.
Qed.

Lemma class_names_frames E key checked get_set put_set s :
  (forall v s, tables_and_log (put_set v s) = tables_and_log s) ->
  tables_and_log (discover_class_names E key checked get_set put_set s)
  = (_initialized_cache s,
     log_records (discover_class_names E key checked get_set put_set s),
     _provider_dict s, _hooks_dict s, _connection_form_widgets s,
     _field_behaviours s)
  /\ forall c,
       executions c (discover_class_names E key checked get_set put_set s)
       = executions c s.
Proof.
  intros Hput.
  assert (Hp : forall (A : Type) (proj : State -> A),
             (forall r s, proj (emit r s) = proj s) ->
             (forall v s, proj (put_set v s) = proj s) ->
             proj (discover_class_names E key checked get_set put_set s) = proj s).
  { intros A proj Hemit Hset. apply discover_class_names_frame; auto. }
  split.
  - unfold tables_and_log.
    rewrite (Hp _ _initialized_cache), (Hp _ _provider_dict), (Hp _ _hooks_dict),
      (Hp _ _connection_form_widgets), (Hp _ _field_behaviours);
      try reflexivity;
      intros v s0; specialize (Hput v s0); unfold tables_and_log in Hput;
      injection Hput; intros; assumption.
  - intros c. apply discover_class_names_frame.
    + apply executions_emit_quiet.
    + intros v s0. specialize (Hput v s0). unfold tables_and_log in Hput.
      unfold executions. injection Hput. intros. congruence.
Qed.

Lemma class_names_pass E c0 key checked get_set put_set :
  ("list" =? c0) = false ->
  (c0 =? "hooks") = false ->
  (forall v s, tables_and_log (put_set v s) = tables_and_log s) ->
  extraction_pass c0 (discover_class_names E key checked get_set put_set).
Proof.
  intros Hlist Hhooks Hput. unfold extraction_pass.
  split; [assumption|]. split; [|split; [|split]].
  - intros s.
    destruct (class_names_frames E key checked get_set put_set s Hput) as [H _].
    unfold tables_and_log in H. now injection H.
  - intros c s.
    now destruct (class_names_frames E key checked get_set put_set s Hput) as [_ H].
  - intros s.
    destruct (class_names_frames E key checked get_set put_set s Hput) as [H _].
    unfold tables_and_log in H. now injection H.
  - intros s [H|H]; [congruence|]. unfold hook_tables_sorted in *.
    destruct (class_names_frames E key checked get_set put_set s Hput) as [Hf _].
    unfold tables_and_log in Hf. injection Hf as _ _ -> -> ->. exact H.
Qed.

(** Each extraction procedure is the decorator around the list
    procedure and its pass. *)
Lemma procedure_shape E a :
  a = Providers
  \/ exists f,
       extraction_pass (category_of a) f
       /\ forall s,
            procedure_of a E s
            = provider_info_cache (category_of a)
                (initialize_providers_list E ;; lift f) s.
Proof.
  destruct a; [now left|right..].
  1,3,4: exists (extract_hooks E); split; [apply hooks_pass|reflexivity].
  - eexists. split; [|reflexivity]. now apply class_names_pass.
  - eexists. split; [|reflexivity]. now apply class_names_pass.
  - eexists. split; [|reflexivity]. now apply class_names_pass.
  - eexists. split; [|reflexivity]. now apply class_names_pass.
Qed.

Lemma procedure_settled E a s :
  settled s ->
  is_ok (snd (procedure_of a E s)) = true ->
  settled (fst (procedure_of a E s))
  /\ flag (category_of a) (fst (procedure_of a E s)) = true.
Proof.
  intros Hs. destruct (procedure_shape E a) as [->|(f & Hpass & Heq)].
  - intros Hok. split.
    + now apply list_procedure_settled.
    + now apply list_procedure_ok_flag.
  - rewrite Heq. intros Hok. split.
    + now apply extraction_procedure_settled.
    + now apply extraction_procedure_ok_flag.
Qed.

Lemma procedure_total E a s :
  flag "list" s = true -> is_ok (snd (procedure_of a E s)) = true.
Proof.
  intros Hlist. destruct (procedure_shape E a) as [->|(f & Hpass & Heq)].
  - cbn [procedure_of]. now rewrite list_procedure_flagged.
  - rewrite Heq. now apply extraction_procedure_total.
Qed.

Lemma procedure_tables_sorted E a s :
  tables_sorted s -> tables_sorted (fst (procedure_of a E s)).
Proof.
  intros Hs. destruct (procedure_shape E a) as [->|(f & Hpass & Heq)].
  - now apply list_procedure_tables_sorted.
  - rewrite Heq. now apply extraction_procedure_tables_sorted.
Qed.

Lemma procedure_ok_flag E a s :
  is_ok (snd (procedure_of a E s)) = true ->
  flag (category_of a) (fst (procedure_of a E s)) = true.
Proof.
  destruct (procedure_shape E a) as [->|(f & Hpass & Heq)].
  - apply list_procedure_ok_flag.
  - rewrite Heq. now apply extraction_procedure_ok_flag.
Qed.

(** Unfold an accessor down to the call of its procedure. *)
Ltac run_procedure s :=
  unfold fmap, providers, hooks, extra_links_class_names,
    connection_form_widgets, field_behaviours, logging_class_names,
    secrets_backend_class_names, auth_backend_module_names, bind, ret;
  match goal with
  | |- context [match ?p s with _ => _ end] =>
      let s' := fresh "s'" in
      let e := fresh "e" in
      destruct (p s) as [s' [[]|e]]
  end.

(** An accessor runs its procedure and then only reads. *)
Lemma access_procedure E a s :
  fst (access E a s) = fst (procedure_of a E s)
  /\ is_ok (snd (access E a s)) = is_ok (snd (procedure_of a E s)).
Proof.
  destruct a; cbn [access procedure_of]; run_procedure s; split; reflexivity.
Qed.

(** ** Sequences of accesses *)

Lemma settled_init : settled __init__.
Proof. intros c. split; [reflexivity|discriminate]. Qed.

Lemma tables_sorted_init : tables_sorted __init__.
Proof. split; discriminate. Qed.

(** Once the list procedure has completed, every access completes and
    keeps the cache and the log in agreement. *)
Lemma access_keeps_settled E a s :
  settled s /\ flag "list" s = true ->
  settled (fst (access E a s)) /\ flag "list" (fst (access E a s)) = true.
Proof.
  intros [Hs Hlist].
  destruct (access_procedure E a s) as [-> _].
  destruct (procedure_settled E a s Hs (procedure_total E a s Hlist))
    as [Hs' Hflag].
  split; [assumption|]. now apply (Hs' (category_of a)).
Qed.

Lemma run_accesses_keeps_settled E l s :
  settled s /\ flag "list" s = true ->
  settled (run_accesses E l s) /\ flag "list" (run_accesses E l s) = true.
Proof.
  unfold run_accesses. revert s.
  induction l as [|a l IH]; intros s H; [assumption|].
  cbn [fold_left]. apply IH. now apply access_keeps_settled.
Qed.

Lemma run_accesses_tables_sorted E l s :
  tables_sorted s -> tables_sorted (run_accesses E l s).
Proof.
  unfold run_accesses. revert s.
  induction l as [|a l IH]; intros s H; [assumption|].
  cbn [fold_left]. apply IH.
  destruct (access_procedure E a s) as [-> _].
  now apply procedure_tables_sorted.
Qed.

(** The claim C5 makes fails when discovery raises: the name of the only
    distribution differs from its manifest, the first access of
    [providers] raises with the flag of the list procedure unset, and the
    second access enters the list procedure again. *)
Lemma C5_list_procedure_entered_twice :
  ~ executions "list"
      (run_accesses Sample.name_mismatch [Providers; Providers] __init__) <= 1.
Proof. vm_compute. lia. Qed.

(** C5, amended.  When the first access of the read surface on a fresh
    registry returns normally, then after any number of further accesses,
    to any accessors, the list procedure has been entered exactly once and
    no procedure has been entered more than once: the flag of a completed
    procedure keeps it from being entered again.  (An access that raises
    leaves the flags of the procedures it entered unset.) *)
Theorem C5_at_most_once_after_completion E a0 v s1 l :
  access E a0 __init__ = (s1, Ok v) ->
  executions "list" (run_accesses E l s1) = 1
  /\ forall c, executions c (run_accesses E l s1) <= 1.
Proof.
  intros Hfirst.
  assert (H1 : settled s1 /\ flag "list" s1 = true).
  { destruct (access_procedure E a0 __init__) as [Hst Hok].
    rewrite Hfirst in Hst, Hok. cbn [fst snd is_ok] in Hst, Hok.
    symmetry in Hok.
    destruct (procedure_settled E a0 __init__ settled_init Hok) as [Hs Hflag].
    rewrite <- Hst in Hs, Hflag. split; [assumption|].
    now apply (Hs (category_of a0)). }
  destruct (run_accesses_keeps_settled E l s1 H1) as [Hs Hlist].
  split.
  - destruct (Hs "list") as [-> _]. now rewrite Hlist.
  - intros c. destruct (Hs c) as [-> _].
    destruct (flag c (run_accesses E l s1)); lia.
Qed.

Lemma C5_witness :
  let E := Sample.two_foo_hooks in
  let s1 := fst (access E Hooks __init__) in
  let l := [Providers; Hooks; LoggingClassNames; Hooks; Providers] in
  executions "list" (run_accesses E l s1) = 1
  /\ forall c, executions c (run_accesses E l s1) <= 1.
Proof.
  intros E s1 l.
  refine (C5_at_most_once_after_completion E Hooks
            (HooksView (_hooks_dict s1)) s1 l _).
  vm_compute. reflexivity.
Defined.

Lemma views_are_sorted E a s :
  tables_sorted s ->
  match access E a s with
  | (_, Ok v) => lexicographic (view_keys v)
  | (_, Raise _) => True
  end.
Proof.
  intros Hs.
  pose proof (procedure_tables_sorted E a s Hs) as Hs'.
  pose proof (procedure_ok_flag E a s) as Hflag.
  destruct a; cbn [access procedure_of category_of] in *; run_procedure s;
    cbn [fst snd is_ok view_keys] in *; try exact I;
    try apply SortFacts.sorted_lexicographic;
    specialize (Hflag eq_refl); destruct Hs' as [Hp Hh];
    try (exact (Hp Hflag)); apply (Hh Hflag).
Qed.

(** C8.  Whatever the surroundings, so in whatever order discovery and
    extraction meet the entries, and after whatever accesses came before
    on the registry, the view an accessor returns has its keys in
    lexicographic order: the provider table, the hook table, the widget
    table, the field-behaviour table and the four name lists. *)
Theorem C8_views_are_sorted E l a s' v :
  access E a (run_accesses E l __init__) = (s', Ok v) ->
  lexicographic (view_keys v).
Proof.
  intros Hacc.
  pose proof (views_are_sorted E a (run_accesses E l __init__)
                (run_accesses_tables_sorted E l __init__ tables_sorted_init))
    as H.
  now rewrite Hacc in H.
Qed.

Lemma C8_witness :
  let E := Sample.two_foo_hooks in
  let out := access E Providers (run_accesses E [Hooks] __init__) in
  snd out
  = Ok (ProvidersView
          [("p1", {| version := "1.0";
                     provider_info := Sample.manifest "p1" ["1.0"] ["p1.hooks.H1"] |});
           ("p2", {| version := "1.0";
                     provider_info := Sample.manifest "p2" ["1.0"] ["p2.hooks.H2"] |})])
  /\ lexicographic ["p1"; "p2"].
Proof.
  intros E out. split; [vm_compute; reflexivity|].
  refine (C8_views_are_sorted E [Hooks] Providers (fst out)
            (ProvidersView
               [("p1", {| version := "1.0";
                          provider_info :=
                            Sample.manifest "p1" ["1.0"] ["p1.hooks.H1"] |});
                ("p2", {| version := "1.0";
                          provider_info :=
                            Sample.manifest "p2" ["1.0"] ["p2.hooks.H2"] |})]) _).
  vm_compute. reflexivity.
Defined.

(** * Further properties of the module *)

(** ** The provider table only grows *)

Lemma local_sources_keep_binding E n r s :
  Dict.get n (_provider_dict s) = Some r ->
  Dict.get n
    (_provider_dict
       (_discover_all_airflow_builtin_providers_from_local_sources E s)) = Some r.
Proof.
  intros Hget.
  apply (discover_local_sources_invariant E
           (fun s' => Dict.get n (_provider_dict s') = Some r)); auto.
  intros k v s' Hk _ Hs'. simpl.
  rewrite DictFacts.get_setitem_other; [assumption|]. congruence.
Qed.

(** X1.  Discovery is reject-on-conflict: a name that the provider table
    binds to a record is bound to the same record after the in-source
    scan, after the installed-package scan (raised or not) and after the
    whole list procedure, sort included. *)
Theorem discovery_keeps_bindings E s n r :
  Dict.get n (_provider_dict s) = Some r ->
  Dict.get n
    (_provider_dict
       (_discover_all_airflow_builtin_providers_from_local_sources E s)) = Some r
  /\ Dict.get n
       (_provider_dict (fst (_discover_all_providers_from_packages E s))) = Some r
  /\ Dict.get n (_provider_dict (fst (initialize_providers_list E s))) = Some r.
Proof.
  intros Hget. split; [now apply local_sources_keep_binding|].
  split; [now apply packages_keep_binding|].
  destruct (flag "list" s) eqn:Hflag.
  - now rewrite list_procedure_flagged.
  - rewrite (initialize_providers_list_unfold E s Hflag).
    pose proof (packages_keep_binding E n r (entry_points_with_dist E)
                  (_discover_all_airflow_builtin_providers_from_local_sources E
                     (emit (DebugInitializing "list") s))
                  (local_sources_keep_binding E n r
                     (emit (DebugInitializing "list") s) Hget)) as H.
    unfold _discover_all_providers_from_packages.
    destruct (for_each _ _ _) as [s2 [[]|e]]; cbn [fst] in *; [|assumption].
    cbn [_provider_dict emit set_initialized_cache set_provider_dict].
    now rewrite DictFacts.get_sorted_items.
Qed.

Lemma discovery_keeps_bindings_witness :
  let E := Sample.sources_and_package in
  let r := {| version := "0.1"; provider_info := Sample.manifest "svc" ["0.1"] [] |} in
  let s := set_provider_dict [("apache-airflow-providers-a", r)] __init__ in
  Dict.get "apache-airflow-providers-a"
    (_provider_dict (fst (initialize_providers_list E s))) = Some r.
Proof.
  intros E r s.
  exact (proj2 (proj2 (discovery_keeps_bindings E s "apache-airflow-providers-a" r
                         eq_refl))).
Defined.

(** ** Every advertised distribution ends up in the table *)

Lemma load_provider_from_package_registers E dist s s' :
  load_provider_from_package E dist s = (s', Ok tt) ->
  Dict.mem (dist_name dist) (_provider_dict s') = true.
Proof.
  destruct (Dict.get (dist_name dist) (_provider_dict s)) as [r|] eqn:Hget.
  - unfold load_provider_from_package. rewrite Hget. intros [= <-].
    apply DictFacts.mem_get. eauto.
  - rewrite load_provider_from_package_absent by assumption. cbv zeta.
    destruct (entry_point_load dist) as [m|e]; [|discriminate].
    destruct (provider_schema_valid E m); [|discriminate].
    destruct (mf_package_name m) as [name|]; [|discriminate].
    destruct (dist_name dist =? name); [|discriminate].
    intros [= <-]. cbn [_provider_dict set_provider_dict].
    apply DictFacts.mem_get. eexists. apply DictFacts.get_setitem_same.
Qed.

Lemma for_each_package_registers E l s s' :
  for_each (load_provider_from_package E) l s = (s', Ok tt) ->
  forall dist, In dist l -> Dict.mem (dist_name dist) (_provider_dict s') = true.
Proof.
  revert s. induction l as [|d l IH]; intros s Hrun dist Hin; [destruct Hin|].
  cbn [for_each] in Hrun. unfold bind in Hrun.
  destruct (load_provider_from_package E d s) as [s1 [[]|e]] eqn:Hstep;
    [|discriminate].
  destruct Hin as [->|Hin]; [|now apply (IH s1)].
  apply load_provider_from_package_registers in Hstep.
  apply DictFacts.mem_get in Hstep. destruct Hstep as [r Hr].
  apply DictFacts.mem_get. exists r.
  pose proof (packages_keep_binding E (dist_name dist) r l s1 Hr) as H.
  now rewrite Hrun in H.
Qed.

(** X2.  When [providers] returns on a registry whose list procedure has
    not completed, the name of every distribution that advertises the
    entry point is a key of the table it returns: a distribution is
    either registered, or passed over because its name is there already,
    or it ends discovery with an exception. *)
Theorem providers_cover_distributions E s s' table :
  flag "list" s = false ->
  providers E s = (s', Ok table) ->
  forall dist,
    In dist (entry_points_with_dist E) ->
    Dict.mem (dist_name dist) table = true.
Proof.
  intros Hflag Hrun dist Hin. unfold providers, bind in Hrun.
  rewrite (initialize_providers_list_unfold E s Hflag) in Hrun.
  unfold _discover_all_providers_from_packages in Hrun.
  destruct (for_each _ _ _) as [s2 [[]|e]] eqn:Hscan; [|discriminate].
  injection Hrun as _ <-.
  cbn [_provider_dict emit set_initialized_cache set_provider_dict].
  pose proof (for_each_package_registers E _ _ _ Hscan dist Hin) as Hmem.
  unfold Dict.mem in *. now rewrite DictFacts.get_sorted_items.
Qed.

Lemma providers_cover_distributions_witness :
  let E := Sample.two_foo_hooks in
  Dict.mem "p2" (_provider_dict (fst (providers E __init__))) = true.
Proof.
  intros E.
  refine (providers_cover_distributions E __init__ (fst (providers E __init__))
            (_provider_dict (fst (providers E __init__))) eq_refl _
            (Sample.dist "p2" "1.0" (Sample.manifest "p2" ["1.0"] ["p2.hooks.H2"]))
            _).
  - vm_compute. reflexivity.
  - right. left. reflexivity.
Defined.

(** ** Every loadable descriptor ends up in the table *)

Lemma local_sources_keep_key E n s :
  Dict.mem n (_provider_dict s) = true ->
  Dict.mem n
    (_provider_dict
       (_discover_all_airflow_builtin_providers_from_local_sources E s)) = true.
Proof.
  intros Hmem. apply DictFacts.mem_get in Hmem. destruct Hmem as [r Hr].
  apply DictFacts.mem_get. exists r. now apply local_sources_keep_binding.
Qed.

Lemma add_local_source_file_keeps_key E path package_name n s :
  Dict.mem n (_provider_dict s) = true ->
  Dict.mem n
    (_provider_dict (_add_provider_info_from_local_source_file E path package_name s))
  = true.
Proof.
  intros Hmem.
  apply (add_local_source_file_invariant E
           (fun s' => Dict.mem n (_provider_dict s') = true)); auto.
  intros k v s' _ _ Hs'. cbn [_provider_dict set_provider_dict].
  rewrite mem_setitem, Hs'. apply orb_true_r.
Qed.

Lemma walk_local_source_files_keeps_key E root_path d folder n s :
  Dict.mem n (_provider_dict s) = true ->
  Dict.mem n (_provider_dict (walk_local_source_files E root_path folder d s))
  = true.
Proof.
  intros Hmem.
  apply (walk_local_source_files_invariant E
           (fun s' => Dict.mem n (_provider_dict s') = true)); auto.
  intros k v s' _ _ Hs'. cbn [_provider_dict set_provider_dict].
  rewrite mem_setitem, Hs'. apply orb_true_r.
Qed.

(** A descriptor that loads, passes the schema and lists a version puts
    its name in the table, unless the name is there already. *)
Lemma add_local_source_file_registers E path package_name s m v rest :
  yaml_safe_load E path = Ok m ->
  provider_schema_valid E m = true ->
  mf_versions m = Some (v :: rest) ->
  Dict.mem package_name
    (_provider_dict (_add_provider_info_from_local_source_file E path package_name s))
  = true.
Proof.
  intros Hload Hvalid Hver. unfold _add_provider_info_from_local_source_file.
  cbv zeta. rewrite Hload, Hvalid, Hver. cbn [negb _provider_dict emit].
  destruct (Dict.mem package_name (_provider_dict s)) eqn:Hmem; cbn [negb].
  - exact Hmem.
  - cbn [_provider_dict set_provider_dict]. rewrite mem_setitem.
    now rewrite String.eqb_refl.
Qed.

Lemma fold_add_provider_dir_registers E root_path l p s m v rest :
  In p l ->
  yaml_safe_load E (descriptor_path root_path p) = Ok m ->
  provider_schema_valid E m = true ->
  mf_versions m = Some (v :: rest) ->
  Dict.mem (hyphen_joined p)
    (_provider_dict (fold_left (add_provider_dir E root_path) l s)) = true.
Proof.
  intros Hin Hload Hvalid Hver. revert s.
  induction l as [|q l IH]; intros s; [destruct Hin|].
  cbn [fold_left]. destruct Hin as [->|Hin]; [|now apply IH].
  apply (fold_left_invariant
           (fun s' => Dict.mem (hyphen_joined p) (_provider_dict s') = true)).
  - intros s' q _ Hs'. now apply add_local_source_file_keeps_key.
  - unfold add_provider_dir.
    now apply (add_local_source_file_registers E _ _ s m v rest).
Qed.

(** X3.  Completeness of the in-source scan over all roots: for a
    source root of [__path__] without trailing separator whose tree is as
    a file system holds it (names distinct within a directory, no
    separator in a directory name), every directory that holds the
    descriptor file, has no directory holding one above it, and whose
    descriptor loads, passes the schema and lists at least one version
    has the name derived from its path as a key of the provider table
    after the scan.  A directory below one that holds the descriptor is
    not covered: the walk never reaches it. *)
Theorem local_sources_cover_descriptors E paths root_path d p m v rest s :
  airflow_providers_path E = Some paths ->
  In (root_path, d) paths ->
  root_ok root_path = true ->
  wf_dir d = true ->
  is_provider_dir d p ->
  yaml_safe_load E (descriptor_path root_path p) = Ok m ->
  provider_schema_valid E m = true ->
  mf_versions m = Some (v :: rest) ->
  Dict.mem (hyphen_joined p)
    (_provider_dict
       (_discover_all_airflow_builtin_providers_from_local_sources E s)) = true.
Proof.
  intros Hpaths Hin Hroot Hwf Hp Hload Hvalid Hver.
  apply (provider_dirs_spec d Hwf) in Hp.
  unfold _discover_all_airflow_builtin_providers_from_local_sources.
  rewrite Hpaths. clear Hpaths. revert s.
  induction paths as [|[root0 d0] paths IH]; intros s; [destruct Hin|].
  cbn [fold_left fst snd]. destruct Hin as [Heq|Hin]; [|now apply IH].
  injection Heq as -> ->.
  apply (fold_left_invariant
           (fun s' => Dict.mem (hyphen_joined p) (_provider_dict s') = true)).
  - intros s' [root1 d1] _ Hs'.
    now apply walk_local_source_files_keeps_key.
  - rewrite on_path_provider_dirs by assumption.
    now apply (fold_add_provider_dir_registers E root_path _ p s m v rest).
Qed.

Lemma local_sources_cover_descriptors_witness :
  let E := Sample.sources_and_package in
  Dict.mem "apache-airflow-providers-a"
    (_provider_dict
       (_discover_all_airflow_builtin_providers_from_local_sources E __init__))
  = true.
Proof.
  intros E.
  refine (local_sources_cover_descriptors E
            [("/src/airflow/providers", Sample.nested_root)]
            "/src/airflow/providers" Sample.nested_root ["a"]
            (Sample.manifest "apache-airflow-providers-a" ["2.0"; "1.0"] [])
            "2.0" ["1.0"] __init__ eq_refl (or_introl eq_refl) eq_refl eq_refl
            _ eq_refl eq_refl eq_refl).
  split.
  - eexists. split; reflexivity.
  - intros q r sub Hqr Hr Hlook.
    destruct q as [|x q].
    + injection Hlook as <-. reflexivity.
    + injection Hqr as <- Hqr. symmetry in Hqr.
      apply app_eq_nil in Hqr. tauto.
Defined.

(** ** The sanity check *)

(** X4.  [_sanity_check] answers true exactly when the class name has
    the prefix a privileged package asks for (a package that does not
    start with "apache-airflow" asks for none) and the name imports.  It
    writes nothing but the log, nothing at all when it answers true, and
    its answer does not depend on the registry. *)
Theorem sanity_check_answer E provider_package class_name s :
  let out := _sanity_check E provider_package class_name s in
  (snd out = true <->
   (PyStr.startswith provider_package "apache-airflow" = true ->
    PyStr.startswith class_name
      (PyStr.replace "-"%char "."%char (PyStr.slice_from 7 provider_package))
    = true)
   /\ import_string E class_name <> None)
  /\ (snd out = true -> fst out = s)
  /\ tables_of (fst out) = tables_of s
  /\ forall s0, snd (_sanity_check E provider_package class_name s0) = snd out.
Proof.
  unfold _sanity_check. cbn [String.length].
  destruct (PyStr.startswith provider_package "apache-airflow") eqn:Hpriv;
    destruct (PyStr.startswith class_name _) eqn:Hprefix;
    destruct (import_string E class_name) as [c|] eqn:Himport;
    cbn [andb negb fst snd]; repeat split;
    try discriminate; try congruence; try tauto;
    intros [H1 H2]; try (now contradiction H2);
    specialize (H1 eq_refl); discriminate.
Qed.

Lemma sanity_check_answer_witness :
  let E := Sample.two_foo_hooks in
  snd (_sanity_check E "apache-airflow-providers-p1" "p1.hooks.H1" __init__) = true
  <-> (PyStr.startswith "apache-airflow-providers-p1" "apache-airflow" = true ->
       PyStr.startswith "p1.hooks.H1" "airflow.providers.p1" = true)
      /\ import_string E "p1.hooks.H1" <> None.
Proof.
  intros E.
  exact (proj1 (sanity_check_answer E "apache-airflow-providers-p1" "p1.hooks.H1"
                  __init__)).
Defined.

Lemma replace_hyphen_components (p : list string) :
  Forall (fun n => module_name_ok n = true) p ->
  PyStr.replace "-"%char "."%char
    (fold_right String.append "" (map (String "-"%char) p))
  = fold_right String.append "" (map (String "."%char) p).
Proof.
  intros Hp. induction Hp as [|n p Hn _ IH]; [reflexivity|].
  unfold module_name_ok in Hn. apply andb_true_iff in Hn.
  destruct Hn as [_ Hn]. apply negb_true_iff in Hn.
  cbn [map fold_right String.append PyStr.replace].
  rewrite StrFacts.replace_app, IH, (StrFacts.replace_absent _ _ n Hn).
  reflexivity.
Qed.

Lemma provider_path_of_hyphen_joined (p : list string) :
  Forall (fun n => module_name_ok n = true) p ->
  PyStr.startswith (hyphen_joined p) "apache-airflow" = true
  /\ PyStr.replace "-"%char "."%char
       (PyStr.slice_from (String.length "apache-") (hyphen_joined p))
     = dotted_path p.
Proof.
  intros Hp. split; [reflexivity|].
  unfold hyphen_joined, dotted_path.
  change (PyStr.slice_from (String.length "apache-")
            ("apache-airflow-providers"
             ++ fold_right String.append "" (map (fun c => "-" ++ c) p))%string)
    with ("airflow-providers"
          ++ fold_right String.append "" (map (String "-"%char) p))%string.
  rewrite StrFacts.replace_app, (replace_hyphen_components p Hp).
  reflexivity.
Qed.

(** X5.  How the two namings compose: for a provider that the in-source
    scan names after the directories [p] (proper names without hyphens),
    the sanity check accepts a class exactly when its dotted name starts
    with "airflow.providers" followed by the dot-led directory names, and
    imports. *)
Theorem sanity_check_in_source_package E p class_name s :
  Forall (fun n => module_name_ok n = true) p ->
  snd (_sanity_check E (hyphen_joined p) class_name s) = true
  <-> PyStr.startswith class_name (dotted_path p) = true
      /\ import_string E class_name <> None.
Proof.
  intros Hp. destruct (provider_path_of_hyphen_joined p Hp) as [Hpriv Hpath].
  unfold _sanity_check. rewrite Hpriv, Hpath.
  destruct (PyStr.startswith class_name (dotted_path p));
    destruct (import_string E class_name); cbn [andb negb snd];
    split; try discriminate; try tauto; try congruence;
    try (intros _; split; [reflexivity|discriminate]);
    intros [H1 H2]; try discriminate; now contradiction H2.
Qed.

Lemma sanity_check_in_source_package_witness :
  let E :=
    Sample.installed []
      (fun name =>
         if name =? "airflow.providers.apache.hive.hooks.hive.HiveCliHook"
         then Some (Sample.hook_class "HiveCliHook" "hive_cli" None None)
         else None) in
  hyphen_joined ["apache"; "hive"] = "apache-airflow-providers-apache-hive"
  /\ dotted_path ["apache"; "hive"] = "airflow.providers.apache.hive"
  /\ snd (_sanity_check E (hyphen_joined ["apache"; "hive"])
            "airflow.providers.apache.hive.hooks.hive.HiveCliHook" __init__) = true.
Proof.
  intros E. split; [reflexivity|]. split; [reflexivity|].
  apply (sanity_check_in_source_package E ["apache"; "hive"]).
  - repeat constructor.
  - split; [reflexivity|discriminate].
Defined.

(** ** The flat extraction passes *)

Lemma StrSet_add_In (x y : string) (s : StrSet.t) :
  In x (StrSet.add y s) <-> x = y \/ In x s.
Proof.
  induction s as [|z s IH]; cbn [StrSet.add].
  - simpl. intuition auto.
  - destruct (String.eqb_spec z y) as [->|Hne].
    + simpl. intuition auto.
    + simpl. rewrite IH. intuition auto.
Qed.

Lemma StrSet_add_NoDup (y : string) (s : StrSet.t) :
  NoDup s -> NoDup (StrSet.add y s).
Proof.
  induction 1 as [|z s Hz Hs IH]; cbn [StrSet.add].
  - repeat constructor. intros [].
  - destruct (String.eqb_spec z y) as [->|Hne]; [now constructor|].
    constructor; [|assumption].
    rewrite StrSet_add_In. intros [->|H]; auto.
Qed.

Lemma sanity_check_verdict E provider_package class_name s :
  snd (_sanity_check E provider_package class_name s)
  = sanity_verdict E provider_package class_name.
Proof.
  unfold sanity_verdict, _sanity_check.
  destruct (PyStr.startswith provider_package "apache-airflow" && _);
    [reflexivity|].
  destruct (import_string E class_name); reflexivity.
Qed.

Section ClassNamesContent.

Variable E : Env.
Variable key : Manifest -> option (list string).
Variable checked : string -> string.
Variable get_set : State -> StrSet.t.
Variable put_set : StrSet.t -> State -> State.

Hypothesis get_put : forall v s, get_set (put_set v s) = v.
Hypothesis get_emit : forall r s, get_set (emit r s) = get_set s.

Lemma class_names_of_package provider_package names s c :
  In c
    (get_set
       (fold_left
          (fun s class_name =>
             let (s, ok) := _sanity_check E provider_package (checked class_name) s in
             if ok then put_set (StrSet.add class_name (get_set s)) s else s)
          names s))
  <-> In c (get_set s)
      \/ (In c names /\ sanity_verdict E provider_package (checked c) = true).
Proof.
  revert s. induction names as [|n names IH]; intros s; cbn [fold_left].
  - simpl. tauto.
  - rewrite IH. clear IH.
    pose proof (sanity_check_invariant E (fun s' => get_set s' = get_set s)
                  (fun r s' _ _ H => eq_trans (get_emit r s') H)
                  provider_package (checked n) s eq_refl) as Hget.
    pose proof (sanity_check_verdict E provider_package (checked n) s) as Hv.
    destruct (_sanity_check E provider_package (checked n) s) as [s1 ok].
    cbn [fst snd] in Hget, Hv. subst ok.
    destruct (sanity_verdict E provider_package (checked n)) eqn:Hok.
    + rewrite get_put, StrSet_add_In, Hget. simpl. split.
      * intros [[->|H]|[H1 H2]]; auto.
      * intros [H|[[->|H1] H2]]; auto.
    + rewrite Hget. simpl. split.
      * intros [H|[H1 H2]]; auto.
      * intros [H|[[->|H1] H2]]; auto. congruence.
Qed.

Lemma class_names_of_table items s c :
  In c
    (get_set
       (fold_left
          (fun s item =>
             fold_left
               (fun s class_name =>
                  let (s, ok) := _sanity_check E (fst item) (checked class_name) s in
                  if ok then put_set (StrSet.add class_name (get_set s)) s else s)
               (declared (key (provider_info (snd item)))) s)
          items s))
  <-> In c (get_set s) \/ accepted_class_name E items key checked c.
Proof.
  unfold accepted_class_name. revert s.
  induction items as [|[pkg r] items IH]; intros s; cbn [fold_left].
  - split; [auto|]. intros [H|(p & r & [] & _)]. exact H.
  - rewrite IH, class_names_of_package. cbn [fst snd]. split.
    + intros [[H|[H1 H2]]|(p & r0 & Hin & H1 & H2)].
      * now left.
      * right. exists pkg, r. simpl. auto.
      * right. exists p, r0. simpl. auto.
    + intros [H|(p & r0 & [Heq|Hin] & H1 & H2)].
      * auto.
      * injection Heq as <- <-. auto.
      * right. exists p, r0. auto.
Qed.

Lemma discover_class_names_content s c :
  In c (get_set (discover_class_names E key checked get_set put_set s))
  <-> In c (get_set s)
      \/ accepted_class_name E (_provider_dict s) key checked c.
Proof. unfold discover_class_names. apply class_names_of_table. Qed.

End ClassNamesContent.

(** X6.  The three class-name passes add to their set exactly the names
    that some provider of the table declares under the pass's key and
    that pass the sanity check for that provider; a name that fails is
    left out without effect on the names before or after it, and nothing
    is removed from the set. *)
Theorem class_name_passes_content E s c :
  (In c (_extra_link_class_name_set (_discover_extra_links E s))
   <-> In c (_extra_link_class_name_set s)
       \/ accepted_class_name E (_provider_dict s) mf_extra_links (fun n => n) c)
  /\ (In c (_logging_class_name_set (_discover_logging E s))
      <-> In c (_logging_class_name_set s)
          \/ accepted_class_name E (_provider_dict s) mf_logging (fun n => n) c)
  /\ (In c (_secrets_backend_class_name_set (_discover_secrets_backends E s))
      <-> In c (_secrets_backend_class_name_set s)
          \/ accepted_class_name E (_provider_dict s) mf_secrets_backends
               (fun n => n) c).
Proof.
  split; [|split].
  - apply (discover_class_names_content E mf_extra_links (fun n => n)
             _extra_link_class_name_set set_extra_link_class_name_set);
      reflexivity.
  - apply (discover_class_names_content E mf_logging (fun n => n)
             _logging_class_name_set set_logging_class_name_set);
      reflexivity.
  - apply (discover_class_names_content E mf_secrets_backends (fun n => n)
             _secrets_backend_class_name_set set_secrets_backend_class_name_set);
      reflexivity.
Qed.

Lemma class_name_passes_content_witness :
  let E := three_logging_classes in
  let s := fst (providers E __init__) in
  _logging_class_name_set (_discover_logging E s)
  = ["svc.log.First"; "svc.log.Third"]
  /\ In "svc.log.Third" (_logging_class_name_set (_discover_logging E s)).
Proof.
  intros E s. split; [vm_compute; reflexivity|].
  apply (proj1 (proj2 (class_name_passes_content E s "svc.log.Third"))).
  right. eexists "svc", _. split; [left; vm_compute; reflexivity|].
  split; [right; right; left; reflexivity|reflexivity].
Defined.

(** X7.  The auth-backend pass adds a module name exactly when some
    provider declares it under [auth-backends] and the sanity check
    accepts the name of the module followed by ".init_app"; it is the
    module name, without that suffix, that is added. *)
Theorem auth_backends_pass_content E s c :
  In c (_api_auth_backend_module_names (_discover_auth_backends E s))
  <-> In c (_api_auth_backend_module_names s)
      \/ accepted_class_name E (_provider_dict s) mf_auth_backends
           (fun n => (n ++ ".init_app")%string) c.
Proof.
  apply (discover_class_names_content E mf_auth_backends
           (fun n => (n ++ ".init_app")%string)
           _api_auth_backend_module_names set_api_auth_backend_module_names);
    reflexivity.
Qed.

Lemma auth_backends_pass_content_witness :
  let E := three_logging_classes in
  let s := fst (providers E __init__) in
  _api_auth_backend_module_names (_discover_auth_backends E s)
  = ["svc.auth.backend"]
  /\ In "svc.auth.backend"
       (_api_auth_backend_module_names (_discover_auth_backends E s)).
Proof.
  intros E s. split; [vm_compute; reflexivity|].
  apply (proj2 (auth_backends_pass_content E s "svc.auth.backend")).
  right. eexists "svc", _. split; [left; vm_compute; reflexivity|].
  split; [left; reflexivity|reflexivity].
Defined.

(** ** What hook extraction writes *)

Section HookWrites.

Variable E : Env.
Variable P : State -> Prop.
Variable declared_by : string -> string -> Prop.

Hypothesis P_emit :
  forall r s,
    from_decorator r = false -> from_package_scan r = false ->
    P s -> P (emit r s).

Hypothesis P_hook :
  forall provider_package hook_class_name k h s,
    declared_by provider_package hook_class_name ->
    hook_record_of E provider_package hook_class_name k h ->
    P s -> P (set_hooks_dict (Dict.setitem k h (_hooks_dict s)) s).

Hypothesis P_widget :
  forall provider_package hook_class_name hook_class k w s,
    declared_by provider_package hook_class_name ->
    import_string E hook_class_name = Some hook_class ->
    widget_record_of provider_package hook_class k w ->
    Dict.get k (_connection_form_widgets s) = None ->
    P s ->
    P (set_connection_form_widgets
         (Dict.setitem k w (_connection_form_widgets s)) s).

Hypothesis P_behaviour :
  forall provider_package hook_class_name hook_class k doc s,
    declared_by provider_package hook_class_name ->
    import_string E hook_class_name = Some hook_class ->
    behaviour_of E hook_class k doc ->
    Dict.get k (_field_behaviours s) = None ->
    P s ->
    P (set_field_behaviours (Dict.setitem k doc (_field_behaviours s)) s).

Lemma hook_widgets_writes hook_class_name provider_package hook_class s :
  declared_by provider_package hook_class_name ->
  import_string E hook_class_name = Some hook_class ->
  P s ->
  P (fst (hook_widgets hook_class_name provider_package hook_class s)).
Proof.
  intros Hdecl Himport Hs. unfold hook_widgets.
  destruct (get_connection_form_widgets hook_class) as [[widgets|e]|] eqn:Hw;
    cbn [fst]; [| destruct e; simpl; apply P_emit; auto | assumption].
  destruct widgets as [|item widgets0]; [assumption|].
  set (widgets := item :: widgets0) in *.
  destruct (find _ (map snd widgets)) eqn:Hfind; cbn [fst];
    [apply P_emit; auto|].
  unfold _add_widgets. apply fold_left_invariant; [|assumption].
  intros s1 [field_name field] Hin Hs1. unfold add_widget.
  destruct (PyStr.startswith field_name "extra__") eqn:Hprefix; cbn [negb];
    [|apply P_emit; auto].
  destruct (Dict.mem field_name (_connection_form_widgets s1)) eqn:Hmem;
    [apply P_emit; auto|].
  apply (P_widget provider_package hook_class_name hook_class); auto.
  - repeat split; auto.
    + cbn [wi_field].
      pose proof (find_none _ _ Hfind field) as Hallowed.
      apply negb_false_iff. apply Hallowed.
      change field with (snd (field_name, field)). now apply in_map.
    + exists widgets. auto.
  - now apply DictFacts.not_mem_get.
Qed.

Lemma hook_field_behaviours_writes hook_class_name provider_package hook_class s :
  declared_by provider_package hook_class_name ->
  import_string E hook_class_name = Some hook_class ->
  P s ->
  P (fst (hook_field_behaviours E hook_class_name provider_package hook_class s)).
Proof.
  intros Hdecl Himport Hs. unfold hook_field_behaviours.
  destruct (get_ui_field_behaviour hook_class) as [[doc|e]|] eqn:Hb;
    cbn [fst]; [| destruct e; simpl; apply P_emit; auto | assumption].
  destruct (json_truthy doc) eqn:Htruthy; cbn [fst]; [|assumption].
  unfold _add_customized_fields.
  destruct (conn_type hook_class) as [k|] eqn:Hk; [|apply P_emit; auto].
  destruct (customized_form_fields_schema_valid E doc) eqn:Hvalid; cbn [negb];
    [|apply P_emit; auto].
  destruct (Dict.mem k (_field_behaviours s)) eqn:Hmem; [apply P_emit; auto|].
  apply (P_behaviour provider_package hook_class_name hook_class); auto.
  - repeat split; auto.
  - now apply DictFacts.not_mem_get.
Qed.

Lemma register_hook_writes hook_class_name provider_package hook_class s :
  declared_by provider_package hook_class_name ->
  sanity_verdict E provider_package hook_class_name = true ->
  import_string E hook_class_name = Some hook_class ->
  P s ->
  P (register_hook hook_class_name provider_package hook_class s).
Proof.
  intros Hdecl Hsane Himport Hs. unfold register_hook, _get_attr, getattr.
  cbn [String.eqb Ascii.eqb Bool.eqb].
  destruct (conn_type hook_class) as [c|] eqn:Hc.
  2:{ set (s1 := emit _ s). assert (Hs1 : P s1) by (apply P_emit; auto).
      clearbody s1.
      destruct (conn_name_attr hook_class);
        destruct (hook_name hook_class); cbn [fst]; auto;
        repeat (apply P_emit; auto). }
  destruct (conn_name_attr hook_class) as [a|] eqn:Ha.
  2:{ set (s1 := emit _ s). assert (Hs1 : P s1) by (apply P_emit; auto).
      clearbody s1.
      destruct (hook_name hook_class); cbn [fst]; auto; apply P_emit; auto. }
  destruct (hook_name hook_class) as [h|] eqn:Hh; [|apply P_emit; auto].
  destruct (PyStr.truthy c) eqn:Tc; cbn [negb orb]; [|assumption].
  destruct (PyStr.truthy a) eqn:Ta; cbn [negb orb]; [|assumption].
  destruct (PyStr.truthy h) eqn:Th; cbn [negb orb]; [|assumption].
  apply (P_hook provider_package hook_class_name); auto.
  exists hook_class. cbn. auto 12.
Qed.

Lemma add_hook_writes hook_class_name provider_package s :
  declared_by provider_package hook_class_name ->
  P s -> P (_add_hook E hook_class_name provider_package s).
Proof.
  intros Hdecl Hs. unfold _add_hook.
  pose proof (sanity_check_invariant E P P_emit provider_package
                hook_class_name s Hs) as H0.
  pose proof (sanity_check_verdict E provider_package hook_class_name s) as Hv.
  destruct (_sanity_check E provider_package hook_class_name s) as [s0 ok];
    cbn [fst snd] in H0, Hv.
  destruct ok; cbn [negb]; [|assumption].
  destruct (Dict.mem hook_class_name (_hooks_dict s0)); [apply P_emit; auto|].
  destruct (import_string E hook_class_name) as [hook_class|] eqn:Himport;
    [|simpl; apply P_emit; auto].
  pose proof (hook_widgets_writes hook_class_name provider_package hook_class
                s0 Hdecl Himport H0) as H1.
  destruct (hook_widgets hook_class_name provider_package hook_class s0)
    as [s1 go1]; cbn [fst] in H1.
  destruct go1; cbn [negb]; [|assumption].
  pose proof (hook_field_behaviours_writes hook_class_name provider_package
                hook_class s1 Hdecl Himport H1) as H2.
  destruct (hook_field_behaviours E hook_class_name provider_package hook_class s1)
    as [s2 go2]; cbn [fst] in H2.
  destruct go2; cbn [negb]; [|assumption].
  apply register_hook_writes; auto.
Qed.

End HookWrites.

Lemma discover_hooks_writes E (P : State -> Prop) s0 :
  (forall r s,
      from_decorator r = false -> from_package_scan r = false ->
      P s -> P (emit r s)) ->
  (forall provider_package hook_class_name k h s,
      declares_hook (_provider_dict s0) provider_package hook_class_name ->
      hook_record_of E provider_package hook_class_name k h ->
      P s -> P (set_hooks_dict (Dict.setitem k h (_hooks_dict s)) s)) ->
  (forall provider_package hook_class_name hook_class k w s,
      declares_hook (_provider_dict s0) provider_package hook_class_name ->
      import_string E hook_class_name = Some hook_class ->
      widget_record_of provider_package hook_class k w ->
      Dict.get k (_connection_form_widgets s) = None ->
      P s ->
      P (set_connection_form_widgets
           (Dict.setitem k w (_connection_form_widgets s)) s)) ->
  (forall provider_package hook_class_name hook_class k doc s,
      declares_hook (_provider_dict s0) provider_package hook_class_name ->
      import_string E hook_class_name = Some hook_class ->
      behaviour_of E hook_class k doc ->
      Dict.get k (_field_behaviours s) = None ->
      P s ->
      P (set_field_behaviours (Dict.setitem k doc (_field_behaviours s)) s)) ->
  P s0 -> P (_discover_hooks E s0).
Proof.
  intros Hemit Hhook Hwidget Hbehaviour Hs0. unfold _discover_hooks.
  apply fold_left_invariant; [|assumption].
  intros s1 [pkg r] Hitem Hs1. cbn [fst snd].
  apply fold_left_invariant; [|assumption].
  intros s2 name Hname Hs2.
  apply (add_hook_writes E P (declares_hook (_provider_dict s0))); auto.
  exists r. auto.
Qed.

(** ** Invariants of the whole read surface *)

(** A property of the registry that every step of every procedure keeps
    is kept by every access. *)
Lemma access_preserves E (I : State -> Prop) :
  (forall r s, I s -> I (emit r s)) ->
  (forall v s, I s -> I (set_initialized_cache v s)) ->
  (forall s,
      I s -> I (_discover_all_airflow_builtin_providers_from_local_sources E s)) ->
  (forall s, I s -> I (fst (_discover_all_providers_from_packages E s))) ->
  (forall s, I s -> I (set_provider_dict (Dict.sorted_items (_provider_dict s)) s)) ->
  (forall s, I s -> I (extract_hooks E s)) ->
  (forall s, I s -> I (_discover_extra_links E s)) ->
  (forall s, I s -> I (_discover_logging E s)) ->
  (forall s, I s -> I (_discover_secrets_backends E s)) ->
  (forall s, I s -> I (_discover_auth_backends E s)) ->
  forall a s, I s -> I (fst (access E a s)).
Proof.
  intros Hemit Hcache Hsrc Hpkg Hsort Hhooks Hlinks Hlog Hsec Hauth.
  assert (Hlist : forall s, I s -> I (fst (initialize_providers_list E s))).
  { intros s Hs. destruct (flag "list" s) eqn:Hflag.
    - now rewrite list_procedure_flagged.
    - rewrite (initialize_providers_list_unfold E s Hflag).
      pose proof (Hpkg _ (Hsrc _ (Hemit (DebugInitializing "list") s Hs))) as H.
      destruct (_discover_all_providers_from_packages E _) as [s2 [[]|e]];
        cbn [fst] in *; auto. }
  assert (Hproc : forall c0 f,
             (forall s, I s -> I (f s)) ->
             forall s, I s ->
               I (fst (provider_info_cache c0
                         (initialize_providers_list E ;; lift f) s))).
  { intros c0 f Hf s Hs. destruct (flag c0 s) eqn:Hflag.
    - now rewrite provider_info_cache_flagged.
    - rewrite provider_info_cache_unflagged by assumption. unfold bind, lift.
      pose proof (Hlist _ (Hemit (DebugInitializing c0) s Hs)) as H.
      destruct (initialize_providers_list E _) as [s1 [[]|e]];
        cbn [fst] in *; auto. }
  intros a s Hs. destruct (access_procedure E a s) as [-> _].
  destruct a; cbn [procedure_of]; auto;
    try (apply (Hproc "hooks" (extract_hooks E)); assumption).
  - apply (Hproc "extra_links"); assumption.
  - apply (Hproc "logging"); assumption.
  - apply (Hproc "secrets_backends"); assumption.
  - apply (Hproc "auth_backends"); assumption.
Qed.

Lemma run_accesses_preserves E (I : State -> Prop) l :
  (forall a s, I s -> I (fst (access E a s))) ->
  forall s, I s -> I (run_accesses E l s).
Proof.
  intros Hacc. unfold run_accesses.
  induction l as [|a l IH]; intros s Hs; [assumption|].
  cbn [fold_left]. apply IH. now apply Hacc.
Qed.

(** A property of the three hook tables that hook extraction keeps is
    kept by every access: nothing else writes those tables. *)
Lemma access_preserves_hook_tables E (I : State -> Prop) :
  (forall s s',
      _hooks_dict s' = _hooks_dict s ->
      _connection_form_widgets s' = _connection_form_widgets s ->
      _field_behaviours s' = _field_behaviours s ->
      I s -> I s') ->
  (forall s, I s -> I (extract_hooks E s)) ->
  forall a s, I s -> I (fst (access E a s)).
Proof.
  intros Hext Hhooks.
  assert (Hclass : forall key checked get_set put_set,
             (forall v s, tables_and_log (put_set v s) = tables_and_log s) ->
             forall s, I s ->
               I (discover_class_names E key checked get_set put_set s)).
  { intros key checked get_set put_set Hput s Hs.
    destruct (class_names_frames E key checked get_set put_set s Hput) as [H _].
    unfold tables_and_log in H. injection H as _ _ Hh Hw Hb.
    now apply (Hext s). }
  apply access_preserves; auto.
  - intros r s. now apply Hext.
  - intros v s. now apply Hext.
  - intros s. apply Hext.
    + apply (local_sources_frame _hooks_dict); reflexivity.
    + apply (local_sources_frame _connection_form_widgets); reflexivity.
    + apply (local_sources_frame _field_behaviours); reflexivity.
  - intros s. apply Hext.
    + apply (packages_frame _hooks_dict); reflexivity.
    + apply (packages_frame _connection_form_widgets); reflexivity.
    + apply (packages_frame _field_behaviours); reflexivity.
  - intros s. now apply Hext.
  - intros s. now apply Hclass.
  - intros s. now apply Hclass.
  - intros s. now apply Hclass.
  - intros s. now apply Hclass.
Qed.

(** ** The widget and field-behaviour tables *)

Lemma extract_hooks_tables E s :
  forall k,
    Dict.get k (_hooks_dict (extract_hooks E s))
    = Dict.get k (_hooks_dict (_discover_hooks E s))
    /\ Dict.get k (_connection_form_widgets (extract_hooks E s))
       = Dict.get k (_connection_form_widgets (_discover_hooks E s))
    /\ Dict.get k (_field_behaviours (extract_hooks E s))
       = Dict.get k (_field_behaviours (_discover_hooks E s)).
Proof.
  intros k. unfold extract_hooks.
  cbn [_hooks_dict _connection_form_widgets _field_behaviours
         set_field_behaviours set_connection_form_widgets set_hooks_dict].
  now rewrite !DictFacts.get_sorted_items.
Qed.

Lemma discover_hooks_widgets_well_formed E s :
  widgets_well_formed (_connection_form_widgets s) ->
  widgets_well_formed (_connection_form_widgets (_discover_hooks E s)).
Proof.
  apply (discover_hooks_writes E
           (fun s' => widgets_well_formed (_connection_form_widgets s')));
    auto.
  intros pkg name hc k w s' _ _ (Hprefix & Hallowed & _) _ Hs' k' w'.
  cbn [_connection_form_widgets set_connection_form_widgets].
  destruct (string_dec k k') as [<-|Hne].
  - rewrite DictFacts.get_setitem_same. intros [= <-]. auto.
  - rewrite DictFacts.get_setitem_other by assumption. apply Hs'.
Qed.

Lemma connection_form_widgets_result E s s' table :
  connection_form_widgets E s = (s', Ok table) ->
  s' = fst (access E ConnectionFormWidgets s)
  /\ table = _connection_form_widgets s'.
Proof.
  cbn [access]. unfold fmap, connection_form_widgets, bind, ret.
  destruct (initialize_providers_hooks E s) as [s1 [[]|e]]; [|discriminate].
  intros [= <- <-]. split; reflexivity.
Qed.

Lemma field_behaviours_result E s s' table :
  field_behaviours E s = (s', Ok table) ->
  s' = fst (access E FieldBehaviours s) /\ table = _field_behaviours s'.
Proof.
  cbn [access]. unfold fmap, field_behaviours, bind, ret.
  destruct (initialize_providers_hooks E s) as [s1 [[]|e]]; [|discriminate].
  intros [= <- <-]. split; reflexivity.
Qed.

Lemma hooks_result E s s' table :
  hooks E s = (s', Ok table) ->
  s' = fst (access E Hooks s) /\ table = _hooks_dict s'.
Proof.
  cbn [access]. unfold fmap, hooks, bind, ret.
  destruct (initialize_providers_hooks E s) as [s1 [[]|e]]; [|discriminate].
  intros [= <- <-]. split; reflexivity.
Qed.

(** X8.  On a registry that started fresh, whatever accesses came
    before, every field of the table that [connection_form_widgets]
    returns has a name that starts with "extra__" and a field class of
    the allow-list. *)
Theorem widgets_view_well_formed E l s' table :
  connection_form_widgets E (run_accesses E l __init__) = (s', Ok table) ->
  widgets_well_formed table.
Proof.
  intros Hrun.
  assert (Hinv : forall a s,
             widgets_well_formed (_connection_form_widgets s) ->
             widgets_well_formed (_connection_form_widgets (fst (access E a s)))).
  { apply (access_preserves_hook_tables E
             (fun s => widgets_well_formed (_connection_form_widgets s))).
    - intros s0 s1 _ -> _ H. exact H.
    - intros s0 H k w Hget.
      rewrite (proj1 (proj2 (extract_hooks_tables E s0 k))) in Hget.
      revert Hget. now apply discover_hooks_widgets_well_formed. }
  pose proof (Hinv ConnectionFormWidgets _
                (run_accesses_preserves E
                   (fun s => widgets_well_formed (_connection_form_widgets s))
                   l Hinv __init__ (fun k w H => ltac:(discriminate H)))) as H.
  destruct (connection_form_widgets_result E _ _ _ Hrun) as [Hs' Ht].
  subst table s'. exact H.
Qed.

Lemma widgets_view_well_formed_witness :
  let E := nameless_hook in
  let out := connection_form_widgets E (run_accesses E [Providers] __init__) in
  Dict.keys (match snd out with Ok table => table | Raise _ => [] end)
  = ["extra__svc__id"]
  /\ PyStr.startswith "extra__svc__id" "extra__" = true
  /\ allowed_field_class StringField = true.
Proof.
  intros E out. split; [vm_compute; reflexivity|].
  refine (widgets_view_well_formed E [Providers] (fst out)
            [("extra__svc__id",
              {| wi_connection_class := "SvcHook"; wi_package_name := "svc";
                 wi_field := Sample.field StringField |})] _
            "extra__svc__id"
            {| wi_connection_class := "SvcHook"; wi_package_name := "svc";
               wi_field := Sample.field StringField |} eq_refl).
  vm_compute. reflexivity.
Defined.

Lemma discover_hooks_keeps_widget_and_behaviour E s :
  forall k,
    (forall w, Dict.get k (_connection_form_widgets s) = Some w ->
               Dict.get k (_connection_form_widgets (_discover_hooks E s)) = Some w)
    /\ (forall doc, Dict.get k (_field_behaviours s) = Some doc ->
                    Dict.get k (_field_behaviours (_discover_hooks E s)) = Some doc).
Proof.
  intros k. split.
  - intros w Hget.
    apply (discover_hooks_writes E
             (fun s' => Dict.get k (_connection_form_widgets s') = Some w));
      auto.
    intros pkg name hc k' w' s' _ _ _ Hfresh Hs'.
    cbn [_connection_form_widgets set_connection_form_widgets].
    rewrite DictFacts.get_setitem_other; [assumption|congruence].
  - intros doc Hget.
    apply (discover_hooks_writes E
             (fun s' => Dict.get k (_field_behaviours s') = Some doc));
      auto.
    intros pkg name hc k' doc' s' _ _ _ Hfresh Hs'.
    cbn [_field_behaviours set_field_behaviours].
    rewrite DictFacts.get_setitem_other; [assumption|congruence].
Qed.

(** X9.  First registration wins for widgets and for field behaviours:
    no access changes or removes a binding that either table has,
    whatever hooks are extracted by it. *)
Theorem widget_and_behaviour_bindings_kept E a s k :
  (forall w,
      Dict.get k (_connection_form_widgets s) = Some w ->
      Dict.get k (_connection_form_widgets (fst (access E a s))) = Some w)
  /\ (forall doc,
         Dict.get k (_field_behaviours s) = Some doc ->
         Dict.get k (_field_behaviours (fst (access E a s))) = Some doc).
Proof.
  split.
  - intros w. revert a s.
    apply (access_preserves_hook_tables E
             (fun s => Dict.get k (_connection_form_widgets s) = Some w)).
    + intros s0 s1 _ -> _ H. exact H.
    + intros s0 H. rewrite (proj1 (proj2 (extract_hooks_tables E s0 k))).
      now apply discover_hooks_keeps_widget_and_behaviour.
  - intros doc. revert a s.
    apply (access_preserves_hook_tables E
             (fun s => Dict.get k (_field_behaviours s) = Some doc)).
    + intros s0 s1 _ _ -> H. exact H.
    + intros s0 H. rewrite (proj2 (proj2 (extract_hooks_tables E s0 k))).
      now apply discover_hooks_keeps_widget_and_behaviour.
Qed.

Lemma widget_and_behaviour_bindings_kept_witness :
  let E := nameless_hook in
  let w := {| wi_connection_class := "Other"; wi_package_name := "other";
              wi_field := Sample.field IntegerField |} in
  let s := set_connection_form_widgets [("extra__svc__id", w)] __init__ in
  Dict.get "extra__svc__id" (_connection_form_widgets (fst (access E Hooks s)))
  = Some w.
Proof.
  intros E w s.
  exact (proj1 (widget_and_behaviour_bindings_kept E Hooks s "extra__svc__id")
           w eq_refl).
Defined.

Lemma discover_hooks_behaviours_valid E s :
  behaviours_valid E (_field_behaviours s) ->
  behaviours_valid E (_field_behaviours (_discover_hooks E s)).
Proof.
  apply (discover_hooks_writes E
           (fun s' => behaviours_valid E (_field_behaviours s')));
    auto.
  intros pkg name hc k doc s' _ _ (_ & _ & _ & Hvalid) _ Hs' k' doc'.
  cbn [_field_behaviours set_field_behaviours].
  destruct (string_dec k k') as [<-|Hne].
  - rewrite DictFacts.get_setitem_same. now intros [= <-].
  - rewrite DictFacts.get_setitem_other by assumption. apply Hs'.
Qed.

(** X10.  On a registry that started fresh, whatever accesses came
    before, every document of the table that [field_behaviours] returns
    passes the field-behaviour schema: a document that fails it is never
    registered. *)
Theorem behaviours_view_valid E l s' table :
  field_behaviours E (run_accesses E l __init__) = (s', Ok table) ->
  behaviours_valid E table.
Proof.
  intros Hrun.
  assert (Hinv : forall a s,
             behaviours_valid E (_field_behaviours s) ->
             behaviours_valid E (_field_behaviours (fst (access E a s)))).
  { apply (access_preserves_hook_tables E
             (fun s => behaviours_valid E (_field_behaviours s))).
    - intros s0 s1 _ _ -> H. exact H.
    - intros s0 H k doc Hget.
      rewrite (proj2 (proj2 (extract_hooks_tables E s0 k))) in Hget.
      revert Hget. now apply discover_hooks_behaviours_valid. }
  pose proof (Hinv FieldBehaviours _
                (run_accesses_preserves E
                   (fun s => behaviours_valid E (_field_behaviours s))
                   l Hinv __init__ (fun k w H => ltac:(discriminate H)))) as H.
  destruct (field_behaviours_result E _ _ _ Hrun) as [Hs' Ht].
  subst table s'. exact H.
Qed.

Lemma behaviours_view_valid_witness :
  let E := nameless_hook in
  let out := field_behaviours E (run_accesses E [] __init__) in
  snd out = Ok [("svc", JDict [("hidden_fields", JList [])])]
  /\ customized_form_fields_schema_valid E (JDict [("hidden_fields", JList [])])
     = true.
Proof.
  intros E out. split; [vm_compute; reflexivity|].
  refine (behaviours_view_valid E [] (fst out)
            [("svc", JDict [("hidden_fields", JList [])])] _
            "svc" (JDict [("hidden_fields", JList [])]) eq_refl).
  vm_compute. reflexivity.
Defined.

(** ** The hook table *)

Lemma list_procedure_keeps_hooks_dict E s :
  _hooks_dict (fst (initialize_providers_list E s)) = _hooks_dict s.
Proof.
  destruct (flag "list" s) eqn:Hflag.
  - now rewrite list_procedure_flagged.
  - now destruct (list_procedure_unflagged E s Hflag) as (_ & _ & H & _).
Qed.

Lemma discover_hooks_provenance E s k h :
  Dict.get k (_hooks_dict (_discover_hooks E s)) = Some h ->
  Dict.get k (_hooks_dict s) = Some h
  \/ (declares_hook (_provider_dict s) (hi_package_name h) (hi_connection_class h)
      /\ hook_record_of E (hi_package_name h) (hi_connection_class h) k h).
Proof.
  revert k h.
  apply (discover_hooks_writes E
           (fun s' => forall k h,
                Dict.get k (_hooks_dict s') = Some h ->
                Dict.get k (_hooks_dict s) = Some h
                \/ (declares_hook (_provider_dict s)
                      (hi_package_name h) (hi_connection_class h)
                    /\ hook_record_of E (hi_package_name h)
                         (hi_connection_class h) k h)));
    auto.
  intros pkg name k h s' Hdecl Hrec Hs' k' h'.
  cbn [_hooks_dict set_hooks_dict].
  destruct (string_dec k k') as [<-|Hne].
  - rewrite DictFacts.get_setitem_same. intros [= <-]. right.
    destruct Hrec as (hc & H). decompose [and] H.
    replace (hi_package_name h) with pkg by congruence.
    replace (hi_connection_class h) with name by congruence.
    split; [assumption|]. exists hc. auto 12.
  - rewrite DictFacts.get_setitem_other by assumption. apply Hs'.
Qed.

(** X11.  Where the entries of the hook table come from: when [hooks]
    returns on a registry whose hooks procedure has not completed, every
    entry of the table it returns either was in the hook table before
    or was built from a hook class name that a provider of the provider
    table declares, that passes the sanity check for that provider and
    whose class has a connection type (the key of the entry), a
    connection-id attribute name and a hook name, none of them empty. *)
Theorem hooks_view_provenance E s s' table k h :
  flag "hooks" s = false ->
  hooks E s = (s', Ok table) ->
  Dict.get k table = Some h ->
  Dict.get k (_hooks_dict s) = Some h
  \/ (declares_hook (_provider_dict s') (hi_package_name h) (hi_connection_class h)
      /\ hook_record_of E (hi_package_name h) (hi_connection_class h) k h).
Proof.
  intros Hflag Hrun Hget.
  destruct (hooks_result E s s' table Hrun) as [Hs' ->]. clear Hrun.
  destruct (access_procedure E Hooks s) as [Hst _]. rewrite Hst in Hs'.
  cbn [procedure_of] in Hs'.
  change (initialize_providers_hooks E s)
    with (provider_info_cache "hooks"
            (initialize_providers_list E ;; lift (extract_hooks E)) s) in Hs'.
  rewrite (extraction_procedure_unfold E "hooks" (extract_hooks E) s Hflag) in Hs'.
  pose proof (list_procedure_keeps_hooks_dict E (emit (DebugInitializing "hooks") s))
    as Hkeep.
  destruct (initialize_providers_list E (emit (DebugInitializing "hooks") s))
    as [s1 [[]|e]]; cbn [fst] in Hs', Hkeep; subst s'.
  - cbn [_hooks_dict _provider_dict emit set_initialized_cache] in *.
    rewrite (proj1 (extract_hooks_tables E s1 k)) in Hget.
    apply discover_hooks_provenance in Hget.
    rewrite (proj1 (proj2 (proj2 (proj2 (hooks_pass E)))) s1).
    rewrite Hkeep in Hget. exact Hget.
  - left. cbn [_hooks_dict emit] in Hkeep. now rewrite <- Hkeep.
Qed.

Lemma hooks_view_provenance_witness :
  let E := Sample.two_foo_hooks in
  let h := {| hi_connection_class := "p2.hooks.H2";
              hi_connection_id_attribute_name := "foo_conn_id";
              hi_package_name := "p2";
              hi_hook_name := "H2" |} in
  Dict.get "foo" (_hooks_dict __init__) = Some h
  \/ (declares_hook (_provider_dict (fst (hooks E __init__))) "p2" "p2.hooks.H2"
      /\ hook_record_of E "p2" "p2.hooks.H2" "foo" h).
Proof.
  intros E h.
  refine (hooks_view_provenance E __init__ (fst (hooks E __init__))
            [("foo", h)] "foo" h eq_refl _ eq_refl).
  vm_compute. reflexivity.
Defined.

(** X12.  A hook class that lacks one of [conn_type], [conn_name_attr]
    and [hook_name], or has it empty, is not entered in the hook table:
    [_add_hook] leaves the table as it was, although by then it has
    processed the widgets and the field behaviours of the class. *)
Theorem add_hook_missing_attribute E hook_class_name provider_package hook_class s :
  import_string E hook_class_name = Some hook_class ->
  present (conn_type hook_class) && present (conn_name_attr hook_class)
  && present (hook_name hook_class) = false ->
  _hooks_dict (_add_hook E hook_class_name provider_package s) = _hooks_dict s.
Proof.
  intros Himport Hmissing.
  apply (add_hook_writes E (fun s' => _hooks_dict s' = _hooks_dict s)
           (fun _ name => name = hook_class_name)); auto.
  intros pkg name k h s' -> (hc & _ & Himport' & Hc & Ha & Hh & Tc & Ta & Th & _) _.
  exfalso. rewrite Himport in Himport'. injection Himport' as <-.
  rewrite Hc, Ha, Hh in Hmissing. cbn [present] in Hmissing.
  rewrite Tc, Ta, Th in Hmissing. discriminate.
Qed.

Lemma add_hook_missing_attribute_witness :
  let E := nameless_hook in
  let s := _add_hook E "svc.hooks.SvcHook" "svc" __init__ in
  _hooks_dict s = _hooks_dict __init__
  /\ Dict.keys (_connection_form_widgets s) = ["extra__svc__id"]
  /\ Dict.keys (_field_behaviours s) = ["svc"].
Proof.
  intros E s. split; [|split; reflexivity].
  refine (add_hook_missing_attribute E "svc.hooks.SvcHook" "svc" _ __init__
            eq_refl _).
  reflexivity.
Defined.

(** ** The cache and the read surface *)

Lemma procedure_flagged E a s :
  flag (category_of a) s = true -> procedure_of a E s = (s, Ok tt).
Proof.
  intros Hflag. destruct a; cbn [procedure_of category_of] in *;
    now apply provider_info_cache_flagged.
Qed.

Lemma access_flagged E a s :
  flag (category_of a) s = true -> access E a s = (s, Ok (view_of a s)).
Proof.
  intros Hflag. pose proof (procedure_flagged E a s Hflag) as Hproc.
  destruct a; cbn [access procedure_of view_of] in *;
    unfold fmap, providers, hooks, extra_links_class_names,
      connection_form_widgets, field_behaviours, logging_class_names,
      secrets_backend_class_names, auth_backend_module_names, bind, ret;
    now rewrite Hproc.
Qed.

Lemma access_ok E a s s' v :
  access E a s = (s', Ok v) ->
  v = view_of a s' /\ flag (category_of a) s' = true.
Proof.
  intros Hacc.
  pose proof (procedure_ok_flag E a s) as Hflag.
  destruct (access_procedure E a s) as [Hst Hok].
  rewrite Hacc in Hst, Hok. cbn [fst snd is_ok] in Hst, Hok.
  rewrite <- Hok, <- Hst in Hflag. split; [|now apply Hflag].
  clear Hflag Hok. subst s'. revert Hacc.
  destruct a; cbn [access procedure_of view_of]; run_procedure s;
    cbn [fst]; intros [= <-]; reflexivity.
Qed.

(** X13.  The read surface is memoized: when an accessor has returned a
    view, calling it again returns the same view and leaves the whole
    registry, log included, as the first call left it. *)
Theorem access_is_memoized E a s s' v :
  access E a s = (s', Ok v) -> access E a s' = (s', Ok v).
Proof.
  intros Hacc. destruct (access_ok E a s s' v Hacc) as [-> Hflag].
  now apply access_flagged.
Qed.

Lemma access_is_memoized_witness :
  let E := Sample.two_foo_hooks in
  let s' := fst (access E Hooks __init__) in
  access E Hooks s' = (s', Ok (HooksView (_hooks_dict s'))).
Proof.
  intros E s'.
  refine (access_is_memoized E Hooks __init__ s' (HooksView (_hooks_dict s')) _).
  vm_compute. reflexivity.
Defined.

(** X14.  Once the list procedure has completed, no accessor raises:
    whatever fails during extraction (a class that does not import, a
    hook method that raises, a missing attribute, a document that fails
    its schema) stays inside the procedure, and the accessor returns the
    view of the registry it leaves. *)
Theorem access_total_after_discovery E a s :
  flag "list" s = true ->
  access E a s
  = (fst (access E a s), Ok (view_of a (fst (access E a s)))).
Proof.
  intros Hlist.
  pose proof (procedure_total E a s Hlist) as Hok.
  destruct (access_procedure E a s) as [_ Hok'].
  rewrite <- Hok' in Hok.
  destruct (access E a s) as [s' [v|e]] eqn:Hacc; [|discriminate].
  cbn [fst]. now destruct (access_ok E a s s' v Hacc) as [-> _].
Qed.

Lemma access_total_after_discovery_witness :
  let E := Sample.unsupported_widget in
  let s := fst (access E Providers __init__) in
  access E Hooks s = (fst (access E Hooks s), Ok (HooksView [])).
Proof.
  intros E s.
  refine (eq_trans (access_total_after_discovery E Hooks s _) _);
    vm_compute; reflexivity.
Defined.

Lemma for_each_package_raise E l s s' e :
  for_each (load_provider_from_package E) l s = (s', Raise e) ->
  exists dist, In dist l /\ package_scan_error E dist e.
Proof.
  revert s. induction l as [|d l IH]; intros s Hrun; [discriminate|].
  cbn [for_each] in Hrun. unfold bind in Hrun.
  destruct (load_provider_from_package E d s) as [s1 [[]|e1]] eqn:Hstep.
  - destruct (IH s1 Hrun) as (dist & Hin & Herr). exists dist. split; [now right|auto].
  - injection Hrun as _ <-. exists d. split; [now left|].
    destruct (Dict.get (dist_name d) (_provider_dict s)) as [r|] eqn:Hget.
    + unfold load_provider_from_package in Hstep. rewrite Hget in Hstep.
      discriminate.
    + rewrite load_provider_from_package_absent in Hstep by assumption.
      cbv zeta in Hstep. unfold package_scan_error.
      destruct (entry_point_load d) as [m|e0]; [|left; congruence].
      right. exists m. split; [reflexivity|].
      destruct (provider_schema_valid E m); [right|left; split; congruence].
      split; [reflexivity|].
      destruct (mf_package_name m) as [name|]; [right|left; split; congruence].
      exists name. destruct (String.eqb_spec (dist_name d) name);
        [discriminate|]. repeat split; congruence.
Qed.

Lemma list_procedure_raise E s s' e :
  initialize_providers_list E s = (s', Raise e) ->
  (forall c, flag c s' = flag c s)
  /\ _hooks_dict s' = _hooks_dict s
  /\ _connection_form_widgets s' = _connection_form_widgets s
  /\ _field_behaviours s' = _field_behaviours s
  /\ exists dist, In dist (entry_points_with_dist E) /\ package_scan_error E dist e.
Proof.
  intros Hrun. destruct (flag "list" s) eqn:Hflag.
  - rewrite list_procedure_flagged in Hrun by assumption. discriminate.
  - destruct (list_procedure_unflagged E s Hflag) as (_ & Hflags & Hh & Hw & Hb & _).
    rewrite Hrun in Hflags, Hh, Hw, Hb. cbn [fst snd is_ok andb] in *.
    repeat split; auto.
    + intros c. rewrite Hflags. apply orb_false_r.
    + rewrite (initialize_providers_list_unfold E s Hflag) in Hrun.
      unfold _discover_all_providers_from_packages in Hrun.
      destruct (for_each _ _ _) as [s2 [[]|e2]] eqn:Hscan; [discriminate|].
      injection Hrun as _ <-. now apply (for_each_package_raise E _ _ _ _ Hscan).
Qed.

Lemma access_raise E a s s' e :
  access E a s = (s', Raise e) -> procedure_of a E s = (s', Raise e).
Proof.
  destruct a; cbn [access procedure_of]; run_procedure s;
    intros H; try discriminate; now injection H as <- <-.
Qed.

(** X15.  What an accessor that raises leaves behind: every flag is as
    it was, the three hook tables are as they were, and the exception is
    one that the installed-package scan lets through for one of the
    advertised distributions (its entry point raised, its manifest fails
    the schema, has no [package-name], or names another package). *)
Theorem access_raise_is_from_package_scan E a s s' e :
  access E a s = (s', Raise e) ->
  (forall c, flag c s' = flag c s)
  /\ _hooks_dict s' = _hooks_dict s
  /\ _connection_form_widgets s' = _connection_form_widgets s
  /\ _field_behaviours s' = _field_behaviours s
  /\ exists dist, In dist (entry_points_with_dist E) /\ package_scan_error E dist e.
Proof.
  intros Hacc. apply access_raise in Hacc.
  destruct (procedure_shape E a) as [->|(f & Hpass & Heq)].
  - now apply list_procedure_raise.
  - rewrite Heq in Hacc. destruct (flag (category_of a) s) eqn:Hflag.
    + rewrite provider_info_cache_flagged in Hacc by assumption. discriminate.
    + rewrite (extraction_procedure_unfold E (category_of a) f s Hflag) in Hacc.
      destruct (initialize_providers_list E (emit (DebugInitializing (category_of a)) s))
        as [s1 [[]|e1]] eqn:Hlist; [discriminate|].
      injection Hacc as <- <-.
      exact (list_procedure_raise E _ _ _ Hlist).
Qed.

Lemma access_raise_is_from_package_scan_witness :
  let E := Sample.name_mismatch in
  let out := access E Hooks __init__ in
  snd out = Raise (PackageNameMismatch "svc" "other")
  /\ forall c, flag c (fst out) = flag c __init__.
Proof.
  intros E out. split; [vm_compute; reflexivity|].
  refine (proj1 (access_raise_is_from_package_scan E Hooks __init__ (fst out)
                   (PackageNameMismatch "svc" "other") _)).
  vm_compute. reflexivity.
Defined.

Lemma access_keeps_list_first E a s :
  list_first s -> list_first (fst (access E a s)).
Proof.
  intros Hs. destruct (access_procedure E a s) as [-> _].
  assert (Hlist : list_first (fst (initialize_providers_list E s))).
  { destruct (list_procedure_general E s) as (_ & Hflags & _).
    intros c. rewrite !Hflags, String.eqb_refl, andb_true_r.
    intros H. apply orb_true_iff in H. destruct H as [H|H].
    - now rewrite (Hs c H).
    - apply andb_true_iff in H. destruct H as [-> _]. apply orb_true_r. }
  destruct (procedure_shape E a) as [->|(f & Hpass & Heq)]; [exact Hlist|].
  rewrite Heq. destruct (flag (category_of a) s) eqn:Hflag.
  - now rewrite provider_info_cache_flagged.
  - destruct (extraction_procedure_unflagged E (category_of a) f Hpass s Hflag)
      as (_ & Hflags & _).
    intros c. rewrite !Hflags, String.eqb_refl, orb_true_r, andb_true_r.
    intros H. apply orb_true_iff in H. destruct H as [H|H].
    + now rewrite (Hs c H).
    + apply andb_true_iff in H. destruct H as [-> _]. apply orb_true_r.
Qed.

(** X16.  Every extraction procedure depends on discovery: on a registry
    that started fresh, whatever accesses came before and whatever some of
    them raised, an accessor that returns leaves both the flag of its own
    category and the flag of the list procedure set, and the provider
    table in key order. *)
Theorem access_completes_discovery E l a s' v :
  access E a (run_accesses E l __init__) = (s', Ok v) ->
  flag (category_of a) s' = true
  /\ flag "list" s' = true
  /\ lexicographic (Dict.keys (_provider_dict s')).
Proof.
  intros Hacc.
  pose proof (run_accesses_preserves E list_first l
                (access_keeps_list_first E) __init__
                (fun c H => ltac:(discriminate H))) as Hfirst.
  pose proof (access_keeps_list_first E a _ Hfirst) as Hfirst'.
  pose proof (run_accesses_tables_sorted E l __init__ tables_sorted_init) as Hs.
  pose proof (procedure_tables_sorted E a _ Hs) as Hs'.
  destruct (access_procedure E a (run_accesses E l __init__)) as [Hst _].
  rewrite <- Hst in Hs'. rewrite Hacc in Hfirst', Hs'. cbn [fst] in *.
  destruct (access_ok E a _ s' v Hacc) as [_ Hflag].
  split; [assumption|]. pose proof (Hfirst' _ Hflag) as Hlist.
  split; [assumption|]. now apply Hs'.
Qed.

Lemma access_completes_discovery_witness :
  let E := three_logging_classes in
  let s' := fst (access E LoggingClassNames (run_accesses E [] __init__)) in
  flag "logging" s' = true
  /\ flag "list" s' = true
  /\ lexicographic (Dict.keys (_provider_dict s')).
Proof.
  intros E s'.
  refine (access_completes_discovery E [] LoggingClassNames s'
            (NamesView ["svc.log.First"; "svc.log.Third"]) _).
  vm_compute. reflexivity.
Defined.

(** ** The order of a view does not depend on the order of discovery *)

Lemma compare_not_gt_trans (a b c : string) :
  String.compare a b <> Gt -> String.compare b c <> Gt ->
  String.compare a c <> Gt.
Proof.
  revert b c. induction a as [|x a IH]; intros b c Hab Hbc.
  - destruct c; discriminate.
  - destruct b as [|y b]; [exfalso; apply Hab; reflexivity|].
    destruct c as [|z c]; [exfalso; apply Hbc; reflexivity|].
    cbn [String.compare] in *. unfold Ascii.compare in *.
    destruct (BinNat.N.compare_spec (N_of_ascii x) (N_of_ascii y)) as [Exy|Lxy|Gxy];
      [| |exfalso; apply Hab; reflexivity];
      destruct (BinNat.N.compare_spec (N_of_ascii y) (N_of_ascii z)) as [Eyz|Lyz|Gyz];
      try (exfalso; apply Hbc; reflexivity).
    + rewrite Exy, Eyz, BinNat.N.compare_refl. now apply (IH b c).
    + rewrite Exy, (proj2 (BinNat.N.compare_lt_iff _ _) Lyz). discriminate.
    + rewrite <- Eyz, (proj2 (BinNat.N.compare_lt_iff _ _) Lxy). discriminate.
    + rewrite (proj2 (BinNat.N.compare_lt_iff _ _)
                 (BinNat.N.lt_trans _ _ _ Lxy Lyz)).
      discriminate.
Qed.

Lemma leb_trans (a b c : string) :
  (a <=? b) = true -> (b <=? c) = true -> (a <=? c) = true.
Proof.
  unfold String.leb. intros Hab Hbc.
  pose proof (compare_not_gt_trans a b c) as H.
  destruct (String.compare a b); try discriminate;
    destruct (String.compare b c); try discriminate;
    destruct (String.compare a c); try reflexivity;
    (exfalso; apply H; [discriminate|discriminate|reflexivity]).
Qed.

Lemma insert_item_commute {V : Type} (x y : string * V) (d : Dict.t V) :
  fst x <> fst y ->
  Dict.insert_item y (Dict.insert_item x d)
  = Dict.insert_item x (Dict.insert_item y d).
Proof.
  intros Hne.
  assert (Hxy : (fst x <=? fst y) = true -> (fst y <=? fst x) = false).
  { intros H. destruct (fst y <=? fst x) eqn:H'; [|reflexivity].
    exfalso. apply Hne. now apply String.leb_antisym. }
  induction d as [|z d IH]; cbn [Dict.insert_item].
  - destruct (fst x <=? fst y) eqn:Hle.
    + now rewrite (Hxy eq_refl).
    + now rewrite (StrFacts.leb_false_flip _ _ Hle).
  - destruct (fst x <=? fst z) eqn:Hxz; destruct (fst y <=? fst z) eqn:Hyz;
      cbn [Dict.insert_item]; rewrite ?Hxz, ?Hyz.
    + destruct (fst x <=? fst y) eqn:Hle.
      * now rewrite (Hxy eq_refl).
      * now rewrite (StrFacts.leb_false_flip _ _ Hle).
    + destruct (fst y <=? fst x) eqn:Hle; [|reflexivity].
      rewrite (leb_trans _ _ _ Hle Hxz) in Hyz. discriminate.
    + destruct (fst x <=? fst y) eqn:Hle; [|reflexivity].
      rewrite (leb_trans _ _ _ Hle Hyz) in Hxz. discriminate.
    + now rewrite IH.
Qed.

Lemma insert_sorted_commute (x y : string) (l : list string) :
  StrSet.insert_sorted y (StrSet.insert_sorted x l)
  = StrSet.insert_sorted x (StrSet.insert_sorted y l).
Proof.
  destruct (string_dec x y) as [->|Hne]; [reflexivity|].
  assert (Hxy : (x <=? y) = true -> (y <=? x) = false).
  { intros H. destruct (y <=? x) eqn:H'; [|reflexivity].
    exfalso. apply Hne. now apply String.leb_antisym. }
  induction l as [|z l IH]; cbn [StrSet.insert_sorted].
  - destruct (x <=? y) eqn:Hle.
    + now rewrite (Hxy eq_refl).
    + now rewrite (StrFacts.leb_false_flip _ _ Hle).
  - destruct (x <=? z) eqn:Hxz; destruct (y <=? z) eqn:Hyz;
      cbn [StrSet.insert_sorted]; rewrite ?Hxz, ?Hyz.
    + destruct (x <=? y) eqn:Hle.
      * now rewrite (Hxy eq_refl).
      * now rewrite (StrFacts.leb_false_flip _ _ Hle).
    + destruct (y <=? x) eqn:Hle; [|reflexivity].
      rewrite (leb_trans _ _ _ Hle Hxz) in Hyz. discriminate.
    + destruct (x <=? y) eqn:Hle; [|reflexivity].
      rewrite (leb_trans _ _ _ Hle Hyz) in Hxz. discriminate.
    + now rewrite IH.
Qed.

(** X17.  The enumeration order of a view does not depend on the order
    in which the entries were met: two tables with the same items (keys
    pairwise different) in different insertion orders sort to the same
    table, and two sets with the same names sort to the same list. *)
Theorem sorted_view_ignores_insertion_order :
  (forall (V : Type) (d1 d2 : Dict.t V),
      NoDup (Dict.keys d1) -> Permutation d1 d2 ->
      Dict.sorted_items d1 = Dict.sorted_items d2)
  /\ (forall s1 s2 : StrSet.t,
         Permutation s1 s2 -> StrSet.sorted s1 = StrSet.sorted s2).
Proof.
  split.
  - intros V d1 d2 Hnd Hperm.
    induction Hperm as [|x l l' Hperm IH|x y l|l l' l'' H1 IH1 H2 IH2].
    + reflexivity.
    + cbn [Dict.sorted_items fold_right]. fold (Dict.sorted_items l).
      fold (Dict.sorted_items l'). rewrite IH; [reflexivity|].
      now inversion Hnd.
    + cbn [Dict.sorted_items fold_right]. apply insert_item_commute.
      cbn [Dict.keys map] in Hnd. inversion Hnd as [|? ? Hnotin _]; subst.
      intros Heq. apply Hnotin. now left.
    + rewrite IH1 by assumption. apply IH2.
      eapply Permutation_NoDup; [|exact Hnd].
      unfold Dict.keys. now apply Permutation_map.
  - intros s1 s2 Hperm.
    induction Hperm as [|x l l' Hperm IH|x y l|l l' l'' H1 IH1 H2 IH2].
    + reflexivity.
    + cbn [StrSet.sorted fold_right]. fold (StrSet.sorted l).
      fold (StrSet.sorted l'). now rewrite IH.
    + cbn [StrSet.sorted fold_right]. apply insert_sorted_commute.
    + now rewrite IH1.
Qed.

Lemma sorted_view_ignores_insertion_order_witness :
  Dict.sorted_items [("p2", 2); ("p1", 1); ("p3", 3)]
  = Dict.sorted_items [("p3", 3); ("p2", 2); ("p1", 1)].
Proof.
  apply (proj1 sorted_view_ignores_insertion_order).
  - repeat constructor; simpl; intuition discriminate.
  - apply perm_trans with [("p2", 2); ("p3", 3); ("p1", 1)].
    + apply perm_skip. apply perm_swap.
    + apply perm_swap.
Defined.

(** ** Nothing installed *)

Lemma access_keeps_registry_empty E a s :
  airflow_providers_path E = None ->
  entry_points_with_dist E = [] ->
  registry_empty s -> registry_empty (fst (access E a s)).
Proof.
  intros Hpath Hdists. revert a s.
  assert (Hclass : forall key checked get_set put_set s,
             registry_empty s ->
             registry_empty (discover_class_names E key checked get_set put_set s)).
  { intros key checked get_set put_set s Hs. unfold discover_class_names.
    destruct Hs as (Hp & Hrest). rewrite Hp. cbn [fold_left]. now split. }
  apply access_preserves; auto.
  - intros s Hs.
    unfold _discover_all_airflow_builtin_providers_from_local_sources.
    now rewrite Hpath.
  - intros s Hs. unfold _discover_all_providers_from_packages.
    now rewrite Hdists.
  - intros s (Hp & Hrest). unfold registry_empty.
    cbn [_provider_dict _hooks_dict _connection_form_widgets _field_behaviours
           _extra_link_class_name_set _logging_class_name_set
           _secrets_backend_class_name_set _api_auth_backend_module_names
           set_provider_dict].
    rewrite Hp. now split.
  - intros s (Hp & Hh & Hw & Hb & Hrest). unfold extract_hooks, _discover_hooks.
    rewrite Hp. cbn [fold_left]. unfold registry_empty.
    cbn [_provider_dict _hooks_dict _connection_form_widgets _field_behaviours
           _extra_link_class_name_set _logging_class_name_set
           _secrets_backend_class_name_set _api_auth_backend_module_names
           set_hooks_dict set_connection_form_widgets set_field_behaviours].
    rewrite Hh, Hw, Hb. repeat split; try reflexivity; tauto.
  - intros s. apply Hclass.
  - intros s. apply Hclass.
  - intros s. apply Hclass.
  - intros s. apply Hclass.
Qed.

(** X18.  With no provider sources ([import airflow.providers] fails)
    and no distribution advertising the entry point, no accessor raises
    and every view is empty, on a fresh registry and after any sequence of
    accesses. *)
Theorem nothing_installed E l a :
  airflow_providers_path E = None ->
  entry_points_with_dist E = [] ->
  snd (access E a (run_accesses E l __init__)) = Ok (view_of a __init__).
Proof.
  intros Hpath Hdists.
  assert (Hempty : registry_empty __init__) by (repeat split).
  pose proof (run_accesses_preserves E registry_empty l
                (fun a s => access_keeps_registry_empty E a s Hpath Hdists)
                __init__ Hempty) as Hs.
  pose proof (access_keeps_registry_empty E a _ Hpath Hdists Hs) as Hs'.
  destruct (access E a (run_accesses E l __init__)) as [s' [v|e]] eqn:Hacc;
    cbn [fst snd] in *.
  - destruct (access_ok E a _ s' v Hacc) as [-> _].
    destruct Hs' as (Hp & Hh & Hw & Hb & H1 & H2 & H3 & H4).
    destruct a; cbn [view_of]; now rewrite ?Hp, ?Hh, ?Hw, ?Hb, ?H1, ?H2, ?H3, ?H4.
  - exfalso. apply access_raise in Hacc.
    assert (Hlist : forall s0 s1,
               initialize_providers_list E s0 = (s1, Raise e) -> False).
    { intros s0 s1 H. apply list_procedure_raise in H.
      destruct H as (_ & _ & _ & _ & dist & Hin & _).
      rewrite Hdists in Hin. destruct Hin. }
    destruct (procedure_shape E a) as [->|(f & Hpass & Heq)].
    + now apply (Hlist _ _ Hacc).
    + rewrite Heq in Hacc.
      destruct (flag (category_of a) (run_accesses E l __init__)) eqn:Hflag.
      * rewrite provider_info_cache_flagged in Hacc by assumption. discriminate.
      * rewrite (extraction_procedure_unfold E (category_of a) f _ Hflag) in Hacc.
        destruct (initialize_providers_list E _) as [s1 [[]|e1]] eqn:Hl;
          [discriminate|].
        injection Hacc as _ <-. now apply (Hlist _ _ Hl).
Qed.

Lemma nothing_installed_witness :
  let E := Sample.installed [] (fun _ => None) in
  snd (access E Hooks (run_accesses E [Providers; LoggingClassNames] __init__))
  = Ok (HooksView []).
Proof.
  intros E.
  exact (nothing_installed E [Providers; LoggingClassNames] Hooks eq_refl eq_refl).
Defined.

(** ** A descriptor without a version *)

(** X19.  A descriptor that loads but whose manifest has no [versions]
    key, or an empty [versions] list, registers nothing: the provider
    table is as it was and one warning that names the file is logged,
    whether or not the manifest passes the schema. *)
Theorem descriptor_without_version_is_skipped E path package_name s m :
  yaml_safe_load E path = Ok m ->
  mf_versions m = None \/ mf_versions m = Some [] ->
  let s' := _add_provider_info_from_local_source_file E path package_name s in
  _provider_dict s' = _provider_dict s
  /\ exists e,
       log_records s'
       = WarnErrorWhenLoading path e
           :: DebugLoadingFromSource package_name path :: log_records s
       /\ (e = ValidationError \/ e = KeyError "versions" \/ e = IndexError).
Proof.
  intros Hload Hver s'. subst s'.
  unfold _add_provider_info_from_local_source_file. cbv zeta. rewrite Hload.
  destruct (provider_schema_valid E m); cbn [negb].
  - destruct Hver as [-> | ->]; cbn [_provider_dict log_records emit];
      split; try reflexivity; eexists; split; try reflexivity; auto.
  - cbn [_provider_dict log_records emit].
    split; try reflexivity; eexists; split; try reflexivity; auto.
Qed.

Lemma descriptor_without_version_is_skipped_witness :
  let E := {|
    airflow_providers_path := None;
    yaml_safe_load := fun _ => Ok (Sample.manifest "svc" [] []);
    provider_schema_valid := fun _ => true;
    customized_form_fields_schema_valid := fun _ => true;
    entry_points_with_dist := [];
    import_string := fun _ => None |} in
  _provider_dict
    (_add_provider_info_from_local_source_file E "/src/svc/provider.yaml"
       "apache-airflow-providers-svc" __init__) = [].
Proof.
  intros E.
  exact (proj1 (descriptor_without_version_is_skipped E "/src/svc/provider.yaml"
                  "apache-airflow-providers-svc" __init__
                  (Sample.manifest "svc" [] []) eq_refl (or_intror eq_refl))).
Defined.

(** ** When a hook is registered *)

Lemma sanity_check_accepts E provider_package class_name s :
  sanity_verdict E provider_package class_name = true ->
  _sanity_check E provider_package class_name s = (s, true).
Proof.
  unfold sanity_verdict, _sanity_check.
  destruct (PyStr.startswith provider_package "apache-airflow" && _);
    [discriminate|].
  destruct (import_string E class_name); [reflexivity|discriminate].
Qed.

Lemma hook_widgets_passes hook_class_name provider_package hook_class s :
  try_block_passes hook_class = true ->
  snd (hook_widgets hook_class_name provider_package hook_class s) = true
  /\ _hooks_dict (fst (hook_widgets hook_class_name provider_package hook_class s))
     = _hooks_dict s.
Proof.
  intros Hpass. split.
  - unfold try_block_passes in Hpass. apply andb_true_iff in Hpass.
    destruct Hpass as [Hw _]. unfold hook_widgets.
    destruct (get_connection_form_widgets hook_class) as [[widgets|e]|];
      [|discriminate|reflexivity].
    destruct widgets as [|item widgets]; [reflexivity|].
    rewrite find_none_forall; [reflexivity|].
    intros w Hin. rewrite forallb_forall in Hw. now rewrite (Hw w Hin).
  - apply (hook_widgets_invariant (fun s' => _hooks_dict s' = _hooks_dict s));
      auto.
Qed.

Lemma hook_field_behaviours_passes E hook_class_name provider_package hook_class s :
  try_block_passes hook_class = true ->
  snd (hook_field_behaviours E hook_class_name provider_package hook_class s) = true
  /\ _hooks_dict
       (fst (hook_field_behaviours E hook_class_name provider_package hook_class s))
     = _hooks_dict s.
Proof.
  intros Hpass. split.
  - unfold try_block_passes in Hpass. apply andb_true_iff in Hpass.
    destruct Hpass as [_ Hb]. unfold hook_field_behaviours.
    destruct (get_ui_field_behaviour hook_class) as [[doc|e]|];
      [|discriminate|reflexivity].
    now destruct (json_truthy doc).
  - apply (hook_field_behaviours_invariant E
             (fun s' => _hooks_dict s' = _hooks_dict s));
      auto.
Qed.

(** X20.  When a hook is registered, and that the last one wins: for a
    hook class name that passes the sanity check and is not itself a key
    of the hook table, whose class gets through the [try] block and has
    the three attributes, none empty, [_add_hook] binds the connection
    type of the class to the new record, whatever the table held for that
    connection type before. *)
Theorem add_hook_registers E hook_class_name provider_package hook_class s c a h :
  sanity_verdict E provider_package hook_class_name = true ->
  Dict.mem hook_class_name (_hooks_dict s) = false ->
  import_string E hook_class_name = Some hook_class ->
  try_block_passes hook_class = true ->
  conn_type hook_class = Some c ->
  conn_name_attr hook_class = Some a ->
  hook_name hook_class = Some h ->
  PyStr.truthy c = true -> PyStr.truthy a = true -> PyStr.truthy h = true ->
  Dict.get c (_hooks_dict (_add_hook E hook_class_name provider_package s))
  = Some {| hi_connection_class := hook_class_name;
            hi_connection_id_attribute_name := a;
            hi_package_name := provider_package;
            hi_hook_name := h |}.
Proof.
  intros Hsane Hfresh Himport Hpass Hc Ha Hh Tc Ta Th. unfold _add_hook.
  rewrite (sanity_check_accepts E _ _ s Hsane). cbn [negb].
  rewrite Hfresh, Himport.
  destruct (hook_widgets_passes hook_class_name provider_package hook_class s Hpass)
    as [Hgo1 _].
  destruct (hook_widgets hook_class_name provider_package hook_class s)
    as [s1 go1]; cbn [snd] in Hgo1; subst go1; cbn [negb].
  destruct (hook_field_behaviours_passes E hook_class_name provider_package
              hook_class s1 Hpass) as [Hgo2 _].
  destruct (hook_field_behaviours E hook_class_name provider_package hook_class s1)
    as [s2 go2]; cbn [snd] in Hgo2; subst go2; cbn [negb].
  now apply register_hook_overwrites.
Qed.

Lemma add_hook_registers_witness :
  let E := Sample.two_foo_hooks in
  let first := {| hi_connection_class := "p1.hooks.H1";
                  hi_connection_id_attribute_name := "foo_conn_id";
                  hi_package_name := "p1";
                  hi_hook_name := "H1" |} in
  let s := set_hooks_dict [("foo", first)] __init__ in
  Dict.get "foo" (_hooks_dict (_add_hook E "p2.hooks.H2" "p2" s))
  = Some {| hi_connection_class := "p2.hooks.H2";
            hi_connection_id_attribute_name := "foo_conn_id";
            hi_package_name := "p2";
            hi_hook_name := "H2" |}.
Proof.
  intros E first s.
  exact (add_hook_registers E "p2.hooks.H2" "p2"
           (Sample.hook_class "H2" "foo" None None) s "foo" "foo_conn_id" "H2"
           eq_refl eq_refl eq_refl eq_refl eq_refl eq_refl eq_refl
           eq_refl eq_refl eq_refl).
Defined.

(** ** What the name lists contain *)

Lemma insert_sorted_In (c x : string) (l : list string) :
  In c (StrSet.insert_sorted x l) <-> c = x \/ In c l.
Proof.
  induction l as [|y l IH]; cbn [StrSet.insert_sorted].
  - simpl. intuition auto.
  - destruct (x <=? y); simpl; [intuition auto|]. rewrite IH. intuition auto.
Qed.

Lemma sorted_In (c : string) (s : StrSet.t) : In c (StrSet.sorted s) <-> In c s.
Proof.
  induction s as [|x s IH]; [reflexivity|].
  cbn [StrSet.sorted fold_right]. fold (StrSet.sorted s).
  rewrite insert_sorted_In, IH. simpl. intuition auto.
Qed.

Lemma list_procedure_frame {A : Type} (obs : State -> A) E s :
  (forall r s, obs (emit r s) = obs s) ->
  (forall v s, obs (set_initialized_cache v s) = obs s) ->
  (forall v s, obs (set_provider_dict v s) = obs s) ->
  obs (fst (initialize_providers_list E s)) = obs s.
Proof.
  intros Hemit Hcache Hset. destruct (flag "list" s) eqn:Hflag.
  - now rewrite list_procedure_flagged.
  - rewrite (initialize_providers_list_unfold E s Hflag).
    pose proof (packages_frame obs E
                  (_discover_all_airflow_builtin_providers_from_local_sources E
                     (emit (DebugInitializing "list") s))
                  (fun r s _ => Hemit r s) Hset) as H.
    rewrite (local_sources_frame obs E _ (fun r s _ => Hemit r s) Hset), Hemit in H.
    destruct (_discover_all_providers_from_packages E _) as [s2 [[]|e]];
      cbn [fst] in *; [|assumption].
    now rewrite Hemit, Hcache, Hset.
Qed.

Section NamesProcedure.

Variable E : Env.
Variable c0 : string.
Variable key : Manifest -> option (list string).
Variable checked : string -> string.
Variable get_set : State -> StrSet.t.
Variable put_set : StrSet.t -> State -> State.

Hypothesis get_put : forall v s, get_set (put_set v s) = v.
Hypothesis get_emit : forall r s, get_set (emit r s) = get_set s.
Hypothesis get_cache : forall v s, get_set (set_initialized_cache v s) = get_set s.
Hypothesis get_providers : forall v s, get_set (set_provider_dict v s) = get_set s.
Hypothesis put_providers : forall v s, _provider_dict (put_set v s) = _provider_dict s.

Lemma names_procedure_content s s' c :
  flag c0 s = false ->
  provider_info_cache c0
    (initialize_providers_list E ;;
     lift (discover_class_names E key checked get_set put_set)) s
  = (s', Ok tt) ->
  In c (get_set s')
  <-> In c (get_set s)
      \/ accepted_class_name E (_provider_dict s') key checked c.
Proof.
  intros Hflag Hrun.
  rewrite (extraction_procedure_unfold E c0 _ s Hflag) in Hrun.
  pose proof (list_procedure_frame get_set E (emit (DebugInitializing c0) s)
                get_emit get_cache get_providers) as Hget.
  destruct (initialize_providers_list E (emit (DebugInitializing c0) s))
    as [s1 [[]|e]]; [|discriminate].
  cbn [fst] in Hget. rewrite get_emit in Hget.
  injection Hrun as <-.
  rewrite get_emit, get_cache.
  cbn [_provider_dict emit set_initialized_cache].
  rewrite (discover_class_names_frame _provider_dict E key checked get_set put_set s1
             (fun _ _ _ => eq_refl) put_providers).
  rewrite (discover_class_names_content E key checked get_set put_set
             get_put get_emit s1 c).
  now rewrite Hget.
Qed.

End NamesProcedure.

(** X21.  What the four name lists contain: when the accessor of a
    category whose procedure has not completed returns, a name is in the
    list it returns exactly when it was in the set before or a provider
    of the discovered provider table declares it under the key of the
    category and the sanity check accepts it for that provider (for auth
    backends, accepts the module name followed by ".init_app"). *)
Theorem names_views_content E s s' names c :
  (flag "extra_links" s = false ->
   extra_links_class_names E s = (s', Ok names) ->
   (In c names
    <-> In c (_extra_link_class_name_set s)
        \/ accepted_class_name E (_provider_dict s') mf_extra_links (fun n => n) c))
  /\ (flag "logging" s = false ->
      logging_class_names E s = (s', Ok names) ->
      (In c names
       <-> In c (_logging_class_name_set s)
           \/ accepted_class_name E (_provider_dict s') mf_logging (fun n => n) c))
  /\ (flag "secrets_backends" s = false ->
      secrets_backend_class_names E s = (s', Ok names) ->
      (In c names
       <-> In c (_secrets_backend_class_name_set s)
           \/ accepted_class_name E (_provider_dict s') mf_secrets_backends
                (fun n => n) c))
  /\ (flag "auth_backends" s = false ->
      auth_backend_module_names E s = (s', Ok names) ->
      (In c names
       <-> In c (_api_auth_backend_module_names s)
           \/ accepted_class_name E (_provider_dict s') mf_auth_backends
                (fun n => (n ++ ".init_app")%string) c)).
Proof.
  repeat apply conj; intros Hflag Hrun;
    [ unfold extra_links_class_names, bind in Hrun;
      destruct (initialize_providers_extra_links E s) as [s1 [[]|e]] eqn:Hproc
    | unfold logging_class_names, bind in Hrun;
      destruct (initialize_providers_logging E s) as [s1 [[]|e]] eqn:Hproc
    | unfold secrets_backend_class_names, bind in Hrun;
      destruct (initialize_providers_secrets_backends E s) as [s1 [[]|e]] eqn:Hproc
    | unfold auth_backend_module_names, bind in Hrun;
      destruct (initialize_providers_auth_backends E s) as [s1 [[]|e]] eqn:Hproc ];
    try discriminate;
    injection Hrun as <- <-; rewrite sorted_In.
  - apply (names_procedure_content E "extra_links" mf_extra_links (fun n => n)
             _extra_link_class_name_set set_extra_link_class_name_set);
      auto.
  - apply (names_procedure_content E "logging" mf_logging (fun n => n)
             _logging_class_name_set set_logging_class_name_set);
      auto.
  - apply (names_procedure_content E "secrets_backends" mf_secrets_backends
             (fun n => n) _secrets_backend_class_name_set
             set_secrets_backend_class_name_set);
      auto.
  - apply (names_procedure_content E "auth_backends" mf_auth_backends
             (fun n => (n ++ ".init_app")%string) _api_auth_backend_module_names
             set_api_auth_backend_module_names);
      auto.
Qed.

Lemma names_views_content_witness :
  let E := three_logging_classes in
  let out := logging_class_names E __init__ in
  snd out = Ok ["svc.log.First"; "svc.log.Third"]
  /\ (In "svc.log.Second" ["svc.log.First"; "svc.log.Third"]
      <-> In "svc.log.Second" (_logging_class_name_set __init__)
          \/ accepted_class_name E (_provider_dict (fst out)) mf_logging
               (fun n => n) "svc.log.Second").
Proof.
  intros E out. split; [vm_compute; reflexivity|].
  refine (proj1 (proj2 (names_views_content E __init__ (fst out)
                          ["svc.log.First"; "svc.log.Third"] "svc.log.Second"))
            eq_refl _).
  vm_compute. reflexivity.
Defined.
